(** * Rhoyal AI backend: classification, snapshot, forecast and plan core

    A shallow embedding of the transaction classification and financial
    snapshot / forecast engine of [server.js]:

    - [mapPlaidCategoryToCore]        (Category Classifier)
    - the loop of [buildPlaidSnapshot] (Normalizer + Snapshot Aggregator)
    - the [txs.map] of [GET /api/plaid/transactions] (per-transaction listing)
    - [computeGoalForecast]           (Goal Forecaster)
    - [POST /api/orbit/plan]          (Plan Composer)

    Conventions of the embedding.

    - A JavaScript Number is a [num]: a finite value carried as an exact
      rational, one of the two infinities, or NaN.  Arithmetic on finite
      values is exact: rounding, overflow and underflow of IEEE doubles and
      the sign of zero are not modelled.
    - A JavaScript string is a [string], its UTF-8 bytes; [toLowerCase] folds the
      ASCII letters only.  The keywords the code searches for are ASCII, and
      no letter outside ASCII lowers to one that could complete a keyword.
    - Code that can throw returns a [result]; the [try]/[catch] of a route
      handler turns a [Throw] into its status-500 response.
    - The wall clock, the time zone of the host, the environment variable
      and the answer of the Plaid client are fields of an explicit [Env]. *)

From Stdlib Require Import ZArith QArith Qround Qabs Lia Lqa Bool List.
From Stdlib Require Import Ascii String DecimalString Morphisms Setoid Permutation.
From AAC_tactics Require Import AAC.
Import ListNotations.

Local Open Scope Z_scope.
Local Open Scope string_scope.

(* ================================================================= *)
(** ** Strings *)

Module Str.

(** [String.prototype.toLowerCase], on the ASCII range. *)
Definition lower_ascii (c : ascii) : ascii :=
  let n := nat_of_ascii c in
  if andb (Nat.leb 65 n) (Nat.leb n 90) then ascii_of_nat (n + 32) else c.

Fixpoint toLowerCase (s : string) : string :=
  match s with
  | EmptyString => EmptyString
  | String c r => String (lower_ascii c) (toLowerCase r)
  end.

(** [hay.includes(needle)]: [needle] occurs in [hay] as a substring. *)
Fixpoint includes (hay needle : string) : bool :=
  if prefix needle hay then true
  else match hay with
       | EmptyString => false
       | String _ r => includes r needle
       end.

(** [hay] includes at least one of the keywords [kws]. *)
Definition includes_any (hay : string) (kws : list string) : bool :=
  existsb (includes hay) kws.

(** [s.slice(0, n)] for [0 <= n]. *)
Definition slice0 (n : nat) (s : string) : string := substring 0 n s.

End Str.

(* ================================================================= *)
(** ** Category Classifier: [mapPlaidCategoryToCore] *)

Inductive CoreCategory : Type :=
| Housing | FoodDining | Transportation | HealthFitness | Lifestyle | Other.

(** The string each bucket is written as in the source. *)
Definition category_name (c : CoreCategory) : string :=
  match c with
  | Housing => "Housing"
  | FoodDining => "Food & Dining"
  | Transportation => "Transportation"
  | HealthFitness => "Health & Fitness"
  | Lifestyle => "Lifestyle"
  | Other => "Other"
  end.

Definition CoreCategory_eqb (a b : CoreCategory) : bool :=
  match a, b with
  | Housing, Housing | FoodDining, FoodDining
  | Transportation, Transportation | HealthFitness, HealthFitness
  | Lifestyle, Lifestyle | Other, Other => true
  | _, _ => false
  end.

(** [primaryCategory || ""] and [name || ""]: an absent argument and the
    empty string both give the empty string. *)
Definition or_empty (s : option string) : string :=
  match s with Some x => x | None => "" end.

Definition mapPlaidCategoryToCore (primaryCategory name : option string)
  : CoreCategory :=
  let p := Str.toLowerCase (or_empty primaryCategory) in
  let n := Str.toLowerCase (or_empty name) in
  if Str.includes p "rent" ||
     Str.includes p "mortgage" ||
     Str.includes p "housing" ||
     Str.includes p "utilities" ||
     Str.includes p "home"
  then Housing
  else if Str.includes p "food" ||
     Str.includes p "restaurant" ||
     Str.includes p "dining" ||
     Str.includes p "groceries" ||
     Str.includes p "fast food" ||
     Str.includes n "grill" ||
     Str.includes n "cafe"
  then FoodDining
  else if Str.includes p "transportation" ||
     Str.includes p "gas" ||
     Str.includes p "fuel" ||
     Str.includes p "auto" ||
     Str.includes p "ride share" ||
     Str.includes p "rideshare" ||
     Str.includes n "uber" ||
     Str.includes n "lyft"
  then Transportation
  else if Str.includes p "health" ||
     Str.includes p "medical" ||
     Str.includes p "pharmacy" ||
     Str.includes p "gym" ||
     Str.includes p "fitness"
  then HealthFitness
  else if Str.includes p "shopping" ||
     Str.includes p "entertainment" ||
     Str.includes p "subscription" ||
     Str.includes p "travel" ||
     Str.includes p "recreation" ||
     Str.includes p "hobby"
  then Lifestyle
  else Other.

(** The classifier as the specification words it: a priority-ordered
    decision list of rule groups, each with its label keywords, its name
    keywords and the bucket it selects. *)
Record RuleGroup : Type := mkRule {
  label_keywords : list string;
  name_keywords : list string;
  bucket : CoreCategory
}.

Definition rule_groups : list RuleGroup :=
  [ mkRule ["rent"; "mortgage"; "housing"; "utilities"; "home"] [] Housing;
    mkRule ["food"; "restaurant"; "dining"; "groceries"; "fast food"]
           ["grill"; "cafe"] FoodDining;
    mkRule ["transportation"; "gas"; "fuel"; "auto"; "ride share"; "rideshare"]
           ["uber"; "lyft"] Transportation;
    mkRule ["health"; "medical"; "pharmacy"; "gym"; "fitness"] [] HealthFitness;
    mkRule ["shopping"; "entertainment"; "subscription"; "travel";
            "recreation"; "hobby"] [] Lifestyle ].

Definition rule_matches (p n : string) (r : RuleGroup) : bool :=
  Str.includes_any p (label_keywords r) || Str.includes_any n (name_keywords r).

(** First match wins; no match falls back to [Other]. *)
Fixpoint first_match (p n : string) (rs : list RuleGroup) : CoreCategory :=
  match rs with
  | [] => Other
  | r :: rest => if rule_matches p n r then bucket r else first_match p n rest
  end.

Definition classify_spec (label name : option string) : CoreCategory :=
  first_match (Str.toLowerCase (or_empty label))
              (Str.toLowerCase (or_empty name)) rule_groups.

(* ================================================================= *)
(** ** JavaScript numbers *)

Module Num.

Local Open Scope Q_scope.

Inductive num : Type :=
| Fin (q : Q)            (* a finite value *)
| Inf (negative : bool)  (* Infinity and -Infinity *)
| NaN.

Definition zero : num := Fin 0.
Definition of_Z (z : Z) : num := Fin (inject_Z z).
Definition of_nat (n : nat) : num := of_Z (Z.of_nat n).

Definition Qltb (a b : Q) : bool := negb (Qle_bool b a).
Definition Qnegative (a : Q) : bool := Qltb a 0.

(** [a + b] *)
Definition add (a b : num) : num :=
  match a, b with
  | NaN, _ | _, NaN => NaN
  | Fin x, Fin y => Fin (x + y)
  | Inf s, Fin _ | Fin _, Inf s => Inf s
  | Inf s, Inf s' => if Bool.eqb s s' then Inf s else NaN
  end.

(** unary [-a] *)
Definition neg (a : num) : num :=
  match a with
  | NaN => NaN
  | Fin x => Fin (- x)
  | Inf s => Inf (negb s)
  end.

(** [a - b] *)
Definition sub (a b : num) : num := add a (neg b).

(** [a * b] *)
Definition mul (a b : num) : num :=
  match a, b with
  | NaN, _ | _, NaN => NaN
  | Fin x, Fin y => Fin (x * y)
  | Inf s, Fin y | Fin y, Inf s =>
      if Qeq_bool y 0 then NaN else Inf (xorb s (Qnegative y))
  | Inf s, Inf s' => Inf (xorb s s')
  end.

(** [a / b] *)
Definition div (a b : num) : num :=
  match a, b with
  | NaN, _ | _, NaN => NaN
  | Fin x, Fin y =>
      if Qeq_bool y 0
      then (if Qeq_bool x 0 then NaN else Inf (Qnegative x))
      else Fin (x / y)
  | Fin _, Inf _ => Fin 0
  | Inf s, Fin y => Inf (xorb s (Qnegative y))
  | Inf _, Inf _ => NaN
  end.

(** [a <= b], [a < b], [a > b]: every comparison with NaN is false. *)
Definition leb (a b : num) : bool :=
  match a, b with
  | NaN, _ | _, NaN => false
  | Fin x, Fin y => Qle_bool x y
  | Inf true, _ => true
  | _, Inf false => true
  | Inf false, _ => false
  | _, Inf true => false
  end.

Definition ltb (a b : num) : bool :=
  match a, b with
  | NaN, _ | _, NaN => false
  | Fin x, Fin y => Qltb x y
  | Inf s, Inf s' => s && negb s'
  | Inf true, Fin _ => true
  | Fin _, Inf false => true
  | Inf false, Fin _ => false
  | Fin _, Inf true => false
  end.

Definition gtb (a b : num) : bool := ltb b a.

(** ToBoolean on a number: [0] and NaN are the falsy numbers. *)
Definition truthy (a : num) : bool :=
  match a with
  | NaN => false
  | Fin x => negb (Qeq_bool x 0)
  | Inf _ => true
  end.

(** [a || 0] *)
Definition or_zero (a : num) : num := if truthy a then a else zero.

(** [Math.abs] *)
Definition math_abs (a : num) : num :=
  match a with
  | NaN => NaN
  | Fin x => Fin (Qabs x)
  | Inf _ => Inf false
  end.

(** [Math.ceil] *)
Definition math_ceil (a : num) : num :=
  match a with
  | Fin x => of_Z (Qceiling x)
  | other => other
  end.

(** [Math.round]: the integer nearest to [a], ties towards +Infinity. *)
Definition math_round (a : num) : num :=
  match a with
  | Fin x => of_Z (Qfloor (x + (1 # 2)))
  | other => other
  end.

(** [Math.max(a, b)] *)
Definition math_max (a b : num) : num :=
  match a, b with
  | NaN, _ | _, NaN => NaN
  | _, _ => if leb a b then b else a
  end.

(** ToIntegerOrInfinity on a finite value: truncation towards zero. *)
Definition Qtrunc (x : Q) : Z := if Qle_bool 0 x then Qfloor x else Qceiling x.

(** Equality of numbers as values: finite values by their rational value. *)
Definition eqv (a b : num) : Prop :=
  match a, b with
  | Fin x, Fin y => x == y
  | Inf s, Inf s' => s = s'
  | NaN, NaN => True
  | _, _ => False
  end.

(** A number that is neither NaN nor negative. *)
Definition nonneg (a : num) : Prop :=
  match a with
  | Fin x => 0 <= x
  | Inf s => s = false
  | NaN => False
  end.

End Num.

Import Num.

Declare Scope num_scope.
Delimit Scope num_scope with num.
Bind Scope num_scope with num.
Infix "+" := Num.add : num_scope.
Infix "-" := Num.sub : num_scope.
Infix "*" := Num.mul : num_scope.
Infix "/" := Num.div : num_scope.
Infix "<=?" := Num.leb : num_scope.
Infix ">?" := Num.gtb : num_scope.
Infix "==" := Num.eqv (at level 70, no associativity) : num_scope.

(* ================================================================= *)
(** ** Exceptions *)

Inductive exn : Type :=
| TypeError    (* property read on null or undefined *)
| RangeError   (* Date.prototype.toISOString on an invalid date *)
| ApiError.    (* the Plaid client rejected *)

Inductive result (A : Type) : Type :=
| Ok (a : A)
| Throw (e : exn).
Arguments Ok {A} a.
Arguments Throw {A} e.

Definition bind {A B : Type} (r : result A) (k : A -> result B) : result B :=
  match r with
  | Ok a => k a
  | Throw e => Throw e
  end.

Notation "'do' x <- r ; k" := (bind r (fun x => k))
  (at level 10, x name, r at level 100, k at level 200).

(** [xs.map(f)] for a callback that can throw: the first throw aborts. *)
Fixpoint mapM {A B : Type} (f : A -> result B) (xs : list A) : result (list B) :=
  match xs with
  | [] => Ok []
  | x :: rest =>
      do y <- f x;
      do ys <- mapM f rest;
      Ok (y :: ys)
  end.

(** [xs.reduce(f, init)] for a callback that can throw. *)
Fixpoint foldM {A S : Type} (f : S -> A -> result S) (xs : list A) (init : S)
  : result S :=
  match xs with
  | [] => Ok init
  | x :: rest => do s <- f init x; foldM f rest s
  end.

(* ================================================================= *)
(** ** The environment of a request *)

(** What the Plaid client answers to [transactionsGet]. *)
Inductive Fetch (A : Type) : Type :=
| Rejected                          (* the promise rejects *)
| Resolved (transactions : option (list A)).
Arguments Rejected {A}.
Arguments Resolved {A} transactions.

(* ================================================================= *)
(** ** JavaScript dates (ECMA-262, Date objects) *)

Module JSDate.

Local Open Scope Z_scope.

Definition msPerDay : Z := 86400000.

(** The time value of a Date: milliseconds since the epoch, or [None] for
    the NaN of an invalid date. *)
Definition timeValue : Type := option Z.

Definition Day (t : Z) : Z := t / msPerDay.
Definition TimeWithinDay (t : Z) : Z := t mod msPerDay.

Definition isLeapYear (y : Z) : bool :=
  if negb (y mod 4 =? 0) then false
  else if negb (y mod 100 =? 0) then true
  else (y mod 400 =? 0).

Definition DaysInYear (y : Z) : Z := if isLeapYear y then 366 else 365.

Definition DayFromYear (y : Z) : Z :=
  365 * (y - 1970) + (y - 1969) / 4 - (y - 1901) / 100 + (y - 1601) / 400.

Definition TimeFromYear (y : Z) : Z := msPerDay * DayFromYear y.

(** The largest year whose first day is not after day [d]: the estimate
    from the mean length of a year is off by at most one. *)
Definition YearFromDay (d : Z) : Z :=
  let y0 := 1970 + (d * 400) / 146097 in
  if d <? DayFromYear y0 then y0 - 1
  else if DayFromYear (y0 + 1) <=? d then y0 + 1
  else y0.

Definition YearFromTime (t : Z) : Z := YearFromDay (Day t).

Definition InLeapYear (t : Z) : Z :=
  if isLeapYear (YearFromTime t) then 1 else 0.

Definition DayWithinYear (t : Z) : Z := Day t - DayFromYear (YearFromTime t).

(** Number of days of a year before its month [m] (0 = January). *)
Definition DaysBeforeMonth (leap m : Z) : Z :=
  match m with
  | 0 => 0
  | 1 => 31
  | 2 => 59 + leap
  | 3 => 90 + leap
  | 4 => 120 + leap
  | 5 => 151 + leap
  | 6 => 181 + leap
  | 7 => 212 + leap
  | 8 => 243 + leap
  | 9 => 273 + leap
  | 10 => 304 + leap
  | _ => 334 + leap
  end.

Definition MonthFromTime (t : Z) : Z :=
  let d := DayWithinYear t in
  let l := InLeapYear t in
  if d <? 31 then 0
  else if d <? 59 + l then 1
  else if d <? 90 + l then 2
  else if d <? 120 + l then 3
  else if d <? 151 + l then 4
  else if d <? 181 + l then 5
  else if d <? 212 + l then 6
  else if d <? 243 + l then 7
  else if d <? 273 + l then 8
  else if d <? 304 + l then 9
  else if d <? 334 + l then 10
  else 11.

Definition DateFromTime (t : Z) : Z :=
  DayWithinYear t - DaysBeforeMonth (InLeapYear t) (MonthFromTime t) + 1.

Definition HourFromTime (t : Z) : Z := (t / 3600000) mod 24.
Definition MinFromTime (t : Z) : Z := (t / 60000) mod 60.
Definition SecFromTime (t : Z) : Z := (t / 1000) mod 60.
Definition msFromTime (t : Z) : Z := t mod 1000.

(** [MakeDay(year, month, date)] for an integral year and date; the month
    is the Number handed to [setMonth]. *)
Definition MakeDay (year : Z) (month : num) (date : Z) : option Z :=
  match month with
  | Fin q =>
      let m := Qtrunc q in
      let ym := year + m / 12 in
      let mn := m mod 12 in
      let leap := if isLeapYear ym then 1 else 0 in
      Some (DayFromYear ym + DaysBeforeMonth leap mn + date - 1)
  | _ => None
  end.

Definition MakeDate (day time : Z) : Z := day * msPerDay + time.

Definition maxTime : Z := 8640000000000000.

Definition TimeClip (t : Z) : timeValue :=
  if Z.abs t <=? maxTime then Some t else None.

(** The time zone of the host, as ECMA-262's [LocalTZA(t, isUTC)]: the
    offset of local time in milliseconds, at the UTC time value [t] when
    [isUTC] is [true] and at the local time value [t] otherwise.  The two
    differ around a daylight saving transition. *)
Definition Zone : Type := Z -> bool -> Z.

(** A zone with no daylight saving. *)
Definition fixed_zone (offset : Z) : Zone := fun _ _ => offset.

Definition LocalTime (tza : Zone) (t : Z) : Z := t + tza t true.
Definition UTC (tza : Zone) (t : Z) : Z := t - tza t false.

(** [d.getMonth()] *)
Definition getMonth (tza : Zone) (d : timeValue) : num :=
  match d with
  | Some t => of_Z (MonthFromTime (LocalTime tza t))
  | None => NaN
  end.

(** [d.setMonth(month)]: the time value [d] holds afterwards. *)
Definition setMonth (tza : Zone) (d : timeValue) (month : num) : timeValue :=
  match d with
  | None => None
  | Some t0 =>
      let t := LocalTime tza t0 in
      match MakeDay (YearFromTime t) month (DateFromTime t) with
      | Some day => TimeClip (UTC tza (MakeDate day (TimeWithinDay t)))
      | None => None
      end
  end.

(** [d.getDate()] and [d.setDate(date)] *)
Definition getDate (tza : Zone) (d : timeValue) : num :=
  match d with
  | Some t => of_Z (DateFromTime (LocalTime tza t))
  | None => NaN
  end.

Definition setDate (tza : Zone) (d : timeValue) (date : num) : timeValue :=
  match d, date with
  | Some t0, Fin q =>
      let t := LocalTime tza t0 in
      match MakeDay (YearFromTime t) (of_Z (MonthFromTime t)) (Qtrunc q) with
      | Some day => TimeClip (UTC tza (MakeDate day (TimeWithinDay t)))
      | None => None
      end
  | _, _ => None
  end.

(** Decimal digits. *)
Definition digit (n : Z) : ascii := ascii_of_nat (48 + Z.to_nat (n mod 10)).

Definition pad2 (n : Z) : string :=
  String (digit (n / 10)) (String (digit n) "").

Definition pad3 (n : Z) : string := String (digit (n / 100)) (pad2 n).

Definition pad4 (n : Z) : string := String (digit (n / 1000)) (pad3 n).

Definition pad6 (n : Z) : string :=
  String (digit (n / 100000)) (String (digit (n / 10000)) (pad4 n)).

(** The year of an ISO string: four digits for the years 0 to 9999,
    otherwise a sign and six digits. *)
Definition isoYear (y : Z) : string :=
  if (0 <=? y) && (y <=? 9999) then pad4 y
  else (if y <? 0 then "-" else "+") ++ pad6 (Z.abs y).

(** [d.toISOString()] *)
Definition toISOString (d : timeValue) : result string :=
  match d with
  | None => Throw RangeError
  | Some t =>
      Ok (isoYear (YearFromTime t) ++ "-" ++ pad2 (MonthFromTime t + 1) ++ "-" ++
          pad2 (DateFromTime t) ++ "T" ++ pad2 (HourFromTime t) ++ ":" ++
          pad2 (MinFromTime t) ++ ":" ++ pad2 (SecFromTime t) ++ "." ++
          pad3 (msFromTime t) ++ "Z")
  end.

(** [d.toISOString().slice(0, 10)] *)
Definition isoDate (d : timeValue) : result string :=
  do s <- toISOString d; Ok (Str.slice0 10 s).

Definition is_digit (c : ascii) : bool :=
  let n := nat_of_ascii c in Nat.leb 48 n && Nat.leb n 57.

(** A date-only value: the ten characters YYYY-MM-DD. *)
Definition is_date_only (s : string) : bool :=
  match s with
  | String y1 (String y2 (String y3 (String y4 (String d1 (String m1
      (String m2 (String d2 (String a1 (String a2 EmptyString))))))))) =>
      is_digit y1 && is_digit y2 && is_digit y3 && is_digit y4 &&
      Ascii.eqb d1 "-"%char && is_digit m1 && is_digit m2 &&
      Ascii.eqb d2 "-"%char && is_digit a1 && is_digit a2
  | _ => false
  end.

End JSDate.

(* ================================================================= *)
(** ** JavaScript values *)

Module Js.

Local Open Scope Z_scope.

Set Warnings "-register-all".

(** A value as [JSON.parse] builds it, with [undefined] for what a missing
    property reads as.  An object is the list of its own enumerable
    properties in insertion order; a key is read at its first occurrence. *)
Inductive value : Type :=
| VUndefined
| VNull
| VBool (b : bool)
| VNum (n : num)
| VStr (s : string)
| VArr (elements : list value)
| VObj (props : list (string * value)).

(** [typeof v] *)
Definition typeof (v : value) : string :=
  match v with
  | VUndefined => "undefined"
  | VNull | VArr _ | VObj _ => "object"
  | VBool _ => "boolean"
  | VNum _ => "number"
  | VStr _ => "string"
  end.

(** ToBoolean: what [!v] and [v || w] test. *)
Definition truthy (v : value) : bool :=
  match v with
  | VUndefined | VNull => false
  | VBool b => b
  | VNum n => Num.truthy n
  | VStr s => negb (String.eqb s "")
  | VArr _ | VObj _ => true
  end.

(** [v == null]: the values a property read throws on. *)
Definition nullish (v : value) : bool :=
  match v with
  | VUndefined | VNull => true
  | _ => false
  end.

Fixpoint lookup (k : string) (ps : list (string * value)) : option value :=
  match ps with
  | [] => None
  | (k', v) :: rest => if String.eqb k k' then Some v else lookup k rest
  end.

(** [v.k] for the data property names the handlers read ([income],
    [categories], [goals], [planned], [targetAmount], [currentAmount],
    [monthlyContribution], [state]): none of them is an index, [length] or
    an inherited property, so only an object can hold one. *)
Definition read_prop (ps : list (string * value)) (k : string) : value :=
  match lookup k ps with
  | Some x => x
  | None => VUndefined
  end.

Definition get_field (v : value) (k : string) : result value :=
  match v with
  | VUndefined | VNull => Throw TypeError
  | VObj ps => Ok (read_prop ps k)
  | _ => Ok VUndefined
  end.

(** [v?.k] *)
Definition get_field_opt (v : value) (k : string) : value :=
  match get_field v k with
  | Ok x => x
  | Throw _ => VUndefined
  end.

(** [o[k] = v] on the property list of an object. *)
Fixpoint set_prop (ps : list (string * value)) (k : string) (v : value)
  : list (string * value) :=
  match ps with
  | [] => [(k, v)]
  | (k', v') :: rest =>
      if String.eqb k k' then (k', v) :: rest else (k', v') :: set_prop rest k v
  end.

Definition index_key (i : nat) : string :=
  NilEmpty.string_of_uint (Nat.to_uint i).

Fixpoint indexed {A : Type} (f : A -> value) (i : nat) (xs : list A)
  : list (string * value) :=
  match xs with
  | [] => []
  | x :: rest => (index_key i, f x) :: indexed f (S i) rest
  end.

(** The properties [{...v}] copies: the own enumerable properties of an
    object, the elements of an array and the characters of a string under
    their indices, and nothing for [null], [undefined], a boolean or a
    number. *)
Definition own_props (v : value) : list (string * value) :=
  match v with
  | VObj ps => ps
  | VArr l => indexed (fun x => x) 0 l
  | VStr s => indexed (fun c => VStr (String c "")) 0 (list_ascii_of_string s)
  | _ => []
  end.

(** *** StringToNumber *)

(** White space and line terminators ([StrWhiteSpaceChar]).  A string is
    held as its UTF-8 bytes, so a character is one, two or three bytes:
    U+0009..U+000D and U+0020; U+00A0; U+1680, U+2000..U+200A, U+2028,
    U+2029, U+202F, U+205F, U+3000 and U+FEFF. *)
Definition is_white_space (c : ascii) : bool :=
  let n := nat_of_ascii c in
  (Nat.leb 9 n && Nat.leb n 13) || Nat.eqb n 32.

Definition is_white_space2 (c1 c2 : ascii) : bool :=
  Nat.eqb (nat_of_ascii c1) 194 && Nat.eqb (nat_of_ascii c2) 160.

Definition is_white_space3 (c1 c2 c3 : ascii) : bool :=
  let a := nat_of_ascii c1 in
  let b := nat_of_ascii c2 in
  let c := nat_of_ascii c3 in
  (Nat.eqb a 225 && Nat.eqb b 154 && Nat.eqb c 128) ||
  (Nat.eqb a 226 && Nat.eqb b 128 &&
   ((Nat.leb 128 c && Nat.leb c 138) || Nat.eqb c 168 || Nat.eqb c 169 ||
    Nat.eqb c 175)) ||
  (Nat.eqb a 226 && Nat.eqb b 129 && Nat.eqb c 159) ||
  (Nat.eqb a 227 && Nat.eqb b 128 && Nat.eqb c 128) ||
  (Nat.eqb a 239 && Nat.eqb b 187 && Nat.eqb c 191).

(** [strip backwards l] drops the white space characters [l] starts with;
    with [backwards] the bytes of [l] are in reverse order. *)
Fixpoint strip (backwards : bool) (l : list ascii) : list ascii :=
  match l with
  | [] => []
  | c1 :: r1 =>
      if is_white_space c1 then strip backwards r1
      else
        match r1 with
        | [] => l
        | c2 :: r2 =>
            if (if backwards then is_white_space2 c2 c1
                else is_white_space2 c1 c2)
            then strip backwards r2
            else
              match r2 with
              | [] => l
              | c3 :: r3 =>
                  if (if backwards then is_white_space3 c3 c2 c1
                      else is_white_space3 c1 c2 c3)
                  then strip backwards r3
                  else l
              end
        end
  end.

Definition trim_start (l : list ascii) : list ascii := strip false l.

Definition trim (l : list ascii) : list ascii :=
  rev (strip true (rev (trim_start l))).

(** The value of [c] as a digit of the given base, if it is one. *)
Definition digit_value (base : Z) (c : ascii) : option Z :=
  let n := Z.of_nat (nat_of_ascii c) in
  let d := if (48 <=? n) && (n <=? 57) then n - 48
           else if (97 <=? n) && (n <=? 102) then n - 87
           else if (65 <=? n) && (n <=? 70) then n - 55
           else base in
  if d <? base then Some d else None.

Fixpoint span_digits (base : Z) (l : list ascii) : list Z * list ascii :=
  match l with
  | c :: r =>
      match digit_value base c with
      | Some d => let (ds, rest) := span_digits base r in (d :: ds, rest)
      | None => ([], l)
      end
  | [] => ([], [])
  end.

Definition digits_to_Z (base : Z) (ds : list Z) : Z :=
  fold_left (fun acc d => acc * base + d) ds 0.

(** A whole string of digits of the given base, at least one. *)
Definition parse_integer (base : Z) (l : list ascii) : option Z :=
  match span_digits base l with
  | (d :: ds, []) => Some (digits_to_Z base (d :: ds))
  | _ => None
  end.

Definition is_char (c : ascii) (a b : string) : bool :=
  String.eqb (String c "") a || String.eqb (String c "") b.

(** The optional exponent part that ends a decimal literal. *)
Definition parse_exponent (l : list ascii) : option Z :=
  match l with
  | [] => Some 0
  | c :: r =>
      if is_char c "e" "E" then
        match r with
        | s :: t =>
            if is_char s "+" "+" then parse_integer 10 t
            else if is_char s "-" "-" then option_map Z.opp (parse_integer 10 t)
            else parse_integer 10 r
        | [] => None
        end
      else None
  end.

Definition parse_unsigned_decimal (l : list ascii) : option Q :=
  let (ip, r1) := span_digits 10 l in
  let (fp, r2) :=
    match r1 with
    | c :: t => if is_char c "." "." then span_digits 10 t else ([], r1)
    | [] => ([], r1)
    end in
  match (ip ++ fp)%list with
  | [] => None
  | ds =>
      match parse_exponent r2 with
      | Some e =>
          Some ((inject_Z (digits_to_Z 10 ds) / inject_Z (10 ^ Z.of_nat (List.length fp)))
                * Qpower (inject_Z 10) e)%Q
      | None => None
      end
  end.

Definition of_parsed (negative : bool) (l : list ascii) : num :=
  if String.eqb (string_of_list_ascii l) "Infinity" then Inf negative
  else match parse_unsigned_decimal l with
       | Some q => Fin (if negative then (- q)%Q else q)
       | None => NaN
       end.

Definition of_radix (base : Z) (l : list ascii) : num :=
  match parse_integer base l with
  | Some z => of_Z z
  | None => NaN
  end.

(** [Number(s)] for a string [s]. *)
Definition string_to_number (s : string) : num :=
  match trim (list_ascii_of_string s) with
  | [] => zero
  | c :: r =>
      if is_char c "+" "+" then of_parsed false r
      else if is_char c "-" "-" then of_parsed true r
      else match r with
           | x :: t =>
               if is_char c "0" "0" && is_char x "x" "X" then of_radix 16 t
               else if is_char c "0" "0" && is_char x "o" "O" then of_radix 8 t
               else if is_char c "0" "0" && is_char x "b" "B" then of_radix 2 t
               else of_parsed false (c :: r)
           | [] => of_parsed false (c :: r)
           end
  end.

(** The value of [Number(v)] where the conversion returns.  An object
    converts through its string, ["[object Object]"], to NaN.  An array
    converts through its [join(",")]: the empty array as the empty string, a
    one-element array as its element's string (the empty string for [null]
    and [undefined]), and a longer one, whose string holds a comma, to NaN.
    A number printed and read back is itself. *)
Fixpoint to_number (v : value) : num :=
  match v with
  | VUndefined => NaN
  | VNull => zero
  | VBool b => if b then of_Z 1 else zero
  | VNum n => n
  | VStr s => string_to_number s
  | VObj _ => NaN
  | VArr [] => zero
  | VArr [x] =>
      match x with
      | VUndefined | VNull => zero
      | VBool _ | VObj _ => NaN
      | _ => to_number x
      end
  | VArr _ => NaN
  end.

(** [Number(v) || 0], where the conversion returns: the amounts of the
    transactions the Plaid client delivers are numbers. *)
Definition number_or_zero (v : value) : num := Num.or_zero (to_number v).

(** Whether the conversion of [v] to a string raises.  A value that came
    from JSON holds no function, so an object with an own property
    [toString] has no callable [toString], and [Object.prototype.valueOf]
    gives back the object: [OrdinaryToPrimitive] raises a TypeError.  An
    array joins its elements, converting each one that is neither [null]
    nor [undefined]. *)
Fixpoint to_string_throws (v : value) : bool :=
  match v with
  | VObj ps => existsb (fun p => String.eqb (fst p) "toString") ps
  | VArr l => existsb to_string_throws l
  | _ => false
  end.

(** [Number(v)] in full: an object or an array converts through its
    string. *)
Definition ToNumber (v : value) : result num :=
  if to_string_throws v then Throw TypeError else Ok (to_number v).

(** [Number(v) || 0] in full. *)
Definition ToNumber_or_zero (v : value) : result num :=
  do n <- ToNumber v;
  Ok (Num.or_zero n).

End Js.

Import Js.

(* ================================================================= *)
(** ** Raw transactions and the request environment *)

(** A transaction as the Plaid client supplies it.  Names and labels are
    strings when present; the amount is read through [Number(...)], so it is
    kept as the value received.  Plaid sends a number, and the conversion
    of an amount is taken where it returns ([number_or_zero]). *)
Module RawTx.
Record t : Type := mk {
  transaction_id : option string;
  amount : value;
  name : option string;
  date : option string;
  personal_finance_category : option (option string);  (* its [primary] *)
  category : option (list string)
}.
End RawTx.

Record Env : Type := mkEnv {
  now : Z;                              (* [new Date()], ms since the epoch *)
  tza : JSDate.Zone;                    (* the host's time zone *)
  OPENAI_API_KEY : option string;       (* [process.env.OPENAI_API_KEY] *)
  lastAccessToken : option string;      (* the module-level variable *)
  transactionsGet : string -> string -> Fetch RawTx.t
                                        (* by [start_date] and [end_date] *)
}.

(** ToBoolean on an optional string: absent and empty are falsy. *)
Definition present (s : option string) : bool :=
  match s with
  | Some x => negb (String.eqb x "")
  | None => false
  end.

(** [a || b] on optional strings, with a string for [b]. *)
Definition or_else (a : option string) (b : string) : string :=
  if present a then or_empty a else b.

(** [tx.personal_finance_category?.primary ||
     (Array.isArray(tx.category) ? tx.category[0] : "") || ""] *)
Definition primary_label (tx : RawTx.t) : string :=
  let pfc_primary :=
    match RawTx.personal_finance_category tx with
    | Some p => p
    | None => None
    end in
  let legacy :=
    match RawTx.category tx with
    | Some cs => hd_error cs
    | None => Some ""
    end in
  if present pfc_primary then or_empty pfc_primary else or_else legacy "".

(** The [isIncome] test, written the same way at both of its sites. *)
Definition isIncome (primary name : string) : bool :=
  let primaryLower := Str.toLowerCase primary in
  let nameLower := Str.toLowerCase name in
  Str.includes primaryLower "income" ||
  Str.includes primaryLower "payroll" ||
  Str.includes nameLower "payroll" ||
  Str.includes nameLower "salary" ||
  Str.includes nameLower "deposit".

(* ================================================================= *)
(** ** Snapshot Aggregator: [buildPlaidSnapshot] *)

(** The [categoryTotals] object: its six keys in the order of the literal. *)
Record CategoryTotals : Type := mkTotals {
  tHousing : num;
  tFoodDining : num;
  tTransportation : num;
  tLifestyle : num;
  tHealthFitness : num;
  tOther : num
}.

Definition zeroTotals : CategoryTotals :=
  mkTotals zero zero zero zero zero zero.

(** [categoryTotals[core]] *)
Definition total_of (ct : CategoryTotals) (core : CoreCategory) : num :=
  match core with
  | Housing => tHousing ct
  | FoodDining => tFoodDining ct
  | Transportation => tTransportation ct
  | Lifestyle => tLifestyle ct
  | HealthFitness => tHealthFitness ct
  | Other => tOther ct
  end.

(** [categoryTotals[core] += amt] *)
Definition add_to (ct : CategoryTotals) (core : CoreCategory) (amt : num)
  : CategoryTotals :=
  match core with
  | Housing => mkTotals (tHousing ct + amt) (tFoodDining ct) (tTransportation ct)
                 (tLifestyle ct) (tHealthFitness ct) (tOther ct)
  | FoodDining => mkTotals (tHousing ct) (tFoodDining ct + amt) (tTransportation ct)
                 (tLifestyle ct) (tHealthFitness ct) (tOther ct)
  | Transportation => mkTotals (tHousing ct) (tFoodDining ct) (tTransportation ct + amt)
                 (tLifestyle ct) (tHealthFitness ct) (tOther ct)
  | Lifestyle => mkTotals (tHousing ct) (tFoodDining ct) (tTransportation ct)
                 (tLifestyle ct + amt) (tHealthFitness ct) (tOther ct)
  | HealthFitness => mkTotals (tHousing ct) (tFoodDining ct) (tTransportation ct)
                 (tLifestyle ct) (tHealthFitness ct + amt) (tOther ct)
  | Other => mkTotals (tHousing ct) (tFoodDining ct) (tTransportation ct)
                 (tLifestyle ct) (tHealthFitness ct) (tOther ct + amt)
  end%num.

(** The sum of the values of [categoryTotals], in key order. *)
Definition sum_totals (ct : CategoryTotals) : num :=
  (tHousing ct + tFoodDining ct + tTransportation ct + tLifestyle ct
   + tHealthFitness ct + tOther ct)%num.

Module Sample.
Record t : Type := mk {
  name : string;
  amount : num;
  date : option string;
  primaryCategory : string
}.
End Sample.

(** The variables the loop updates. *)
Record Acc : Type := mkAcc {
  categoryTotals : CategoryTotals;
  totalIncome : num;
  totalSpending : num;
  sample : list Sample.t
}.

Definition acc0 : Acc := mkAcc zeroTotals zero zero [].

(** One iteration of [for (const tx of txs)]. *)
Definition snapshot_step (a : Acc) (tx : RawTx.t) : Acc :=
  let rawAmount := number_or_zero (RawTx.amount tx) in
  let primary := primary_label tx in
  let name := or_else (RawTx.name tx) "" in
  let amt := math_abs rawAmount in
  let sample' :=
    if Nat.ltb (List.length (sample a)) 10
    then (sample a ++ [Sample.mk name rawAmount (RawTx.date tx) primary])%list
    else sample a in
  if isIncome primary name
  then mkAcc (categoryTotals a) (totalIncome a + amt)%num (totalSpending a) sample'
  else
    let core := mapPlaidCategoryToCore (Some primary) (Some name) in
    mkAcc (add_to (categoryTotals a) core amt) (totalIncome a)
          (totalSpending a + amt)%num sample'.

Definition snapshot_loop (txs : list RawTx.t) : Acc :=
  fold_left snapshot_step txs acc0.

(** The object the loop pushes onto [sample] for a transaction. *)
Definition sample_entry (tx : RawTx.t) : Sample.t :=
  Sample.mk (or_else (RawTx.name tx) "") (number_or_zero (RawTx.amount tx))
            (RawTx.date tx) (primary_label tx).

(** Income detection as the specification words it: the label contains
    "income" or "payroll", or the name contains "payroll", "salary" or
    "deposit", without regard to case. *)
Definition income_by_spec (tx : RawTx.t) : bool :=
  Str.includes_any (Str.toLowerCase (primary_label tx)) ["income"; "payroll"] ||
  Str.includes_any (Str.toLowerCase (or_empty (RawTx.name tx)))
                   ["payroll"; "salary"; "deposit"].

Record Snapshot : Type := mkSnapshot {
  startDate : string;
  endDate : string;
  totalIncomeEstimate : num;
  totalSpendingEstimate : num;
  snapCategoryTotals : CategoryTotals;
  sampleTransactions : list Sample.t
}.

(** The object the function returns after the loop. *)
Definition aggregate (txs : list RawTx.t) (startDate endDate : string)
  : Snapshot :=
  let a := snapshot_loop txs in
  mkSnapshot startDate endDate (totalIncome a) (totalSpending a)
             (categoryTotals a) (sample a).

(** [txResp.data.transactions || []] *)
Definition fetched (r : Fetch RawTx.t) : result (list RawTx.t) :=
  match r with
  | Rejected => Throw ApiError
  | Resolved (Some txs) => Ok txs
  | Resolved None => Ok []
  end.

(** [buildPlaidSnapshot()]: [null] without an access token. *)
Definition buildPlaidSnapshot (env : Env) : result (option Snapshot) :=
  if negb (present (lastAccessToken env)) then Ok None
  else
    let end_ := Some (now env) in
    let start := Some (now env) in
    let start := JSDate.setMonth (tza env) start
                   (JSDate.getMonth (tza env) start - of_Z 1)%num in
    do endDate <- JSDate.isoDate end_;
    do startDate <- JSDate.isoDate start;
    do txs <- fetched (transactionsGet env startDate endDate);
    Ok (Some (aggregate txs startDate endDate)).

(* ================================================================= *)
(** ** Responses of the route handlers *)

Inductive Response (A : Type) : Type :=
| Json (body : A)                         (* [res.json(body)] *)
| Error (status : Z) (error : string).    (* [res.status(s).json({ error })] *)
Arguments Json {A} body.
Arguments Error {A} status error.

(** The [catch] of a handler: any throw becomes a status-500 response. *)
Definition catching {A : Type} (message : string) (r : result (Response A))
  : Response A :=
  match r with
  | Ok resp => resp
  | Throw _ => Error 500 message
  end.

(* ================================================================= *)
(** ** Per-transaction listing: [GET /api/plaid/transactions] *)

Module Listed.
Record t : Type := mk {
  id : option string;
  name : string;
  date : option string;
  amount : num;
  type : string
}.
End Listed.

(** The callback of [txs.map]. *)
Definition normalize (tx : RawTx.t) : Listed.t :=
  let rawAmount := number_or_zero (RawTx.amount tx) in
  let primary := primary_label tx in
  let name := or_else (RawTx.name tx) "Transaction" in
  let income := isIncome primary name in
  let amount := if income then math_abs rawAmount else Num.neg (math_abs rawAmount) in
  Listed.mk (RawTx.transaction_id tx) name (RawTx.date tx) amount
            (if income then "income" else "spending").

(** The demo list returned without an access token. *)
Definition demo_transactions : list Listed.t :=
  [ Listed.mk (Some "tx1") "Paycheck" (Some "2025-12-02") (of_Z 3200) "income";
    Listed.mk (Some "tx2") "Rent" (Some "2025-12-01") (of_Z (-1600)) "bill";
    Listed.mk (Some "tx3") "Groceries" (Some "2025-12-02") (of_Z (-120)) "spending" ].

(** [Math.min(a, b)] *)
Definition math_min (a b : num) : num :=
  match a, b with
  | NaN, _ | _, NaN => NaN
  | _, _ => if Num.leb a b then a else b
  end.

(** The handler; [days] is [req.query.days]. *)
Definition plaid_transactions (env : Env) (days : value)
  : Response (list Listed.t) :=
  catching "Failed to fetch transactions"
    (let days := math_max (of_Z 1)
                   (math_min (let d := to_number days in
                              if Num.truthy d then d else of_Z 14) (of_Z 90)) in
     if present (lastAccessToken env) then
       let end_ := Some (now env) in
       let start := Some (now env) in
       let start := JSDate.setDate (tza env) start
                      (JSDate.getDate (tza env) start - (days - of_Z 1))%num in
       do end_date <- JSDate.isoDate end_;
       do start_date <- JSDate.isoDate start;
       do txs <- fetched (transactionsGet env start_date end_date);
       Ok (Json (map normalize txs))
     else Ok (Json demo_transactions)).

(* ================================================================= *)
(** ** Goal Forecaster: [computeGoalForecast] *)

Record Forecast : Type := mkForecast {
  monthsToGoal : num;
  projectedCompletionDate : option string     (* [None] is [null] *)
}.

Definition computeGoalForecast (env : Env) (goal : value) : result Forecast :=
  do targetAmount <- get_field goal "targetAmount";
  do target <- ToNumber_or_zero targetAmount;
  do currentAmount <- get_field goal "currentAmount";
  do current <- ToNumber_or_zero currentAmount;
  do monthlyContribution <- get_field goal "monthlyContribution";
  do contrib <- ToNumber_or_zero monthlyContribution;
  let remaining := (target - current)%num in
  if (remaining <=? zero)%num || (contrib <=? zero)%num then
    Ok (mkForecast zero None)
  else
    let months := math_ceil (remaining / contrib)%num in
    let projected := Some (now env) in
    let projected := JSDate.setMonth (tza env) projected
                       (JSDate.getMonth (tza env) projected + months)%num in
    do iso <- JSDate.isoDate projected;
    Ok (mkForecast months (Some iso)).

(* ================================================================= *)
(** ** Plan Composer: [POST /api/orbit/plan] *)

Record Plan : Type := mkPlan {
  categories : list value;
  goals : list value;
  surplus : num;
  plannedSpending : num;
  plaidSnapshot : option Snapshot;
  orbitInsight : string
}.

(** [null] as the date of a forecast, or the string. *)
Definition date_value (d : option string) : value :=
  match d with
  | Some s => VStr s
  | None => VNull
  end.

(** [{ ...goal, monthlyContribution }] *)
Definition with_contribution (goal monthlyContribution : value) : value :=
  VObj (set_prop (own_props goal) "monthlyContribution" monthlyContribution).

(** [{ ...goal, monthlyContribution, ...forecast }] *)
Definition with_forecast (goal monthlyContribution : value) (f : Forecast)
  : value :=
  VObj (set_prop
          (set_prop
             (set_prop (own_props goal) "monthlyContribution" monthlyContribution)
             "monthsToGoal" (VNum (monthsToGoal f)))
          "projectedCompletionDate" (date_value (projectedCompletionDate f))).

(** The default the fallback path hands to a goal without a contribution. *)
Definition perGoalAmount (baseSurplus : num) (goalCount : nat) : num :=
  if (baseSurplus >? zero)%num && Nat.ltb 0 goalCount
  then math_max (math_round ((baseSurplus * Fin (2 # 10)) / of_nat goalCount)%num)
                zero
  else zero.

(** The callback of [baseGoals.map] in the fallback path. *)
Definition goalWithContrib (env : Env) (perGoal : num) (goal : value)
  : result value :=
  do mc <- get_field goal "monthlyContribution";
  let monthlyContribution :=
    if String.eqb (typeof mc) "number" then mc else VNum perGoal in
  do forecast <- computeGoalForecast env (with_contribution goal monthlyContribution);
  Ok (with_forecast goal monthlyContribution forecast).

(** [Array.isArray(v) ? v : []] *)
Definition array_or_empty (v : value) : list value :=
  match v with
  | VArr l => l
  | _ => []
  end.

(** The callback of [categories.reduce]. *)
Definition add_planned (sum : num) (cat : value) : result num :=
  do p <- get_field cat "planned";
  do planned <- ToNumber_or_zero p;
  Ok (sum + planned)%num.

(** The body of the [try] block, after the validation of [state]. *)
Definition compose (env : Env) (state : value) : result (Response Plan) :=
  do inc <- get_field state "income";
  do income <- ToNumber_or_zero inc;
  do cs <- get_field state "categories";
  let categories := array_or_empty cs in
  do gs <- get_field state "goals";
  let baseGoals := array_or_empty gs in
  do basePlannedSpending <- foldM add_planned categories zero;
  let baseSurplus := (income - basePlannedSpending)%num in
  let plaidSnapshot :=
    match buildPlaidSnapshot env with
    | Ok s => s
    | Throw _ => None
    end in
  if negb (present (OPENAI_API_KEY env)) then
    let perGoal := perGoalAmount baseSurplus (List.length baseGoals) in
    do goalsWithContrib <- mapM (goalWithContrib env perGoal) baseGoals;
    Ok (Json (mkPlan categories goalsWithContrib baseSurplus basePlannedSpending
                plaidSnapshot
                "Orbit used a simple rule-of-thumb plan (no AI key configured)."))
  else
    Ok (Json (mkPlan categories baseGoals baseSurplus basePlannedSpending
                plaidSnapshot
                "Orbit route is wired. (AI planning logic can be added next.)")).

(** The handler; [body] is [req.body]. *)
Definition orbit_plan (env : Env) (body : value) : Response Plan :=
  catching "Failed to build Orbit plan"
    (let state := get_field_opt body "state" in
     if negb (truthy state) || negb (String.eqb (typeof state) "object") then
       Ok (Error 400 "Missing or invalid budget state in request body")
     else compose env state).

(* ================================================================= *)
(** ** Accounts: [mapAccounts], [exchangeAndFetch], [sandbox_connect] *)

(** An account as the Plaid client supplies it; [None] is a field that is
    [null] or missing.  The three balance fields are those of
    [a.balances]. *)
Module Account.
Record t : Type := mk {
  account_id : string;
  name : option string;
  official_name : option string;
  type : option string;
  subtype : option string;
  current : option num;
  available : option num;
  iso_currency_code : option string
}.
End Account.

Module Mapped.
Record t : Type := mk {
  id : string;
  name : string;
  type : string;
  subtype : string;
  balance : num;
  currency : string
}.
End Mapped.

(** [a ?? b] *)
Definition coalesce {A : Type} (a : option A) (b : A) : A :=
  match a with
  | Some x => x
  | None => b
  end.

(** The callback of [accounts.map]. *)
Definition mapAccount (a : Account.t) : Mapped.t :=
  Mapped.mk (Account.account_id a)
            (if present (Account.name a) then or_empty (Account.name a)
             else or_else (Account.official_name a) "Account")
            (or_else (Account.type a) "other")
            (or_else (Account.subtype a) "")
            (coalesce (Account.current a) (coalesce (Account.available a) zero))
            (or_else (Account.iso_currency_code a) "USD").

Definition mapAccounts (accounts : list Account.t) : list Mapped.t :=
  map mapAccount accounts.

(** [accounts.reduce((sum, a) => sum + (a.balance || 0), 0)] *)
Definition totalBalance (accounts : list Mapped.t) : num :=
  fold_left (fun sum a => (sum + Num.or_zero (Mapped.balance a))%num)
            accounts zero.

(** The three calls of the Plaid client the connection makes; a [Throw] is
    a rejected promise. *)
Record PlaidClient : Type := mkClient {
  sandboxPublicTokenCreate : result string;           (* its [public_token] *)
  itemPublicTokenExchange : string -> result string;  (* its [access_token] *)
  accountsBalanceGet : string -> result (list Account.t)
}.

(** [exchangeAndFetch(public_token)], from the value [lastAccessToken] has
    before the call: the value it has afterwards, and the result. *)
Definition exchangeAndFetch (client : PlaidClient)
  (lastAccessToken : option string) (public_token : string)
  : option string * result (list Mapped.t * num) :=
  match itemPublicTokenExchange client public_token with
  | Throw e => (lastAccessToken, Throw e)
  | Ok access_token =>
      let lastAccessToken := Some access_token in
      match accountsBalanceGet client access_token with
      | Throw e => (lastAccessToken, Throw e)
      | Ok accts =>
          let accounts := mapAccounts accts in
          (lastAccessToken, Ok (accounts, totalBalance accounts))
      end
  end.

(** [POST /api/plaid/sandbox_connect]: the value of [lastAccessToken]
    afterwards and the response [{ accounts, totalBalance }]. *)
Definition sandbox_connect (client : PlaidClient)
  (lastAccessToken : option string)
  : option string * Response (list Mapped.t * num) :=
  match sandboxPublicTokenCreate client with
  | Throw _ => (lastAccessToken, Error 500 "Unable to connect sandbox accounts")
  | Ok public_token =>
      let (token, r) := exchangeAndFetch client lastAccessToken public_token in
      (token,
       match r with
       | Ok body => Json body
       | Throw _ => Error 500 "Unable to connect sandbox accounts"
       end)
  end.

(* ================================================================= *)
(** ** The authentication middleware: [requireUser] *)

(** The user object of a Supabase session. *)
Record User : Type := mkUser { user_id : string }.

(** What [supabaseAdmin.auth.getUser(token)] resolves with: [error], and
    [data?.user]. *)
Record GetUser : Type := mkGetUser {
  error : option string;
  data_user : option User
}.

(** What the middleware does with the request: it calls [next()] with
    [req.user] set, or it answers. *)
Inductive Middleware : Type :=
| Next (user : User)
| Halt (status : Z) (error : string).

(** [auth.startsWith("Bearer ") ? auth.slice(7) : null] *)
Definition bearer_token (auth : string) : option string :=
  if prefix "Bearer " auth
  then Some (substring 7 (String.length auth - 7) auth)
  else None.

(** [authorization] is [req.headers.authorization]. *)
Definition requireUser (getUser : string -> result GetUser)
  (authorization : option string) : Middleware :=
  let auth := or_else authorization "" in
  let token := bearer_token auth in
  if negb (present token) then Halt 401 "Missing Authorization Bearer token"
  else
    match getUser (or_empty token) with
    | Throw _ => Halt 401 "Unauthorized"
    | Ok r =>
        match error r, data_user r with
        | None, Some user => Next user
        | _, _ => Halt 401 "Invalid auth token"
        end
    end.

(* ================================================================= *)
(** ** The window of the listing *)

(** [Math.max(1, Math.min(Number(req.query.days) || 14, 90))] *)
Definition query_days (days : value) : num :=
  math_max (of_Z 1)
    (math_min (let d := to_number days in
               if Num.truthy d then d else of_Z 14) (of_Z 90)).

(* ================================================================= *)
(** ** Vocabulary of the statements *)

(** A budget state the composer accepts: a non-null value whose [typeof]
    is "object", that is an object or an array. *)
Definition is_structured (v : value) : bool :=
  match v with
  | VArr _ | VObj _ => true
  | _ => false
  end.

(** A category the reduction reads without raising: it is not [null] or
    [undefined], and its planned amount converts. *)
Definition category_converts (c : value) : bool :=
  negb (nullish c) && negb (to_string_throws (get_field_opt c "planned")).

(** The three amounts the forecaster reads convert without raising. *)
Definition amounts_convert (ps : list (string * value)) : bool :=
  negb (to_string_throws (read_prop ps "targetAmount")) &&
  negb (to_string_throws (read_prop ps "currentAmount")) &&
  negb (to_string_throws (read_prop ps "monthlyContribution")).

(** The sum [categories.reduce] computes when no element makes it throw. *)
Definition planned_sum (cats : list value) : num :=
  fold_left (fun sum cat =>
               (sum + number_or_zero (get_field_opt cat "planned"))%num)
            cats zero.

(** The contribution the fallback path settles on for a goal. *)
Definition chosen_contribution (perGoal : num) (goal : value) : value :=
  let mc := get_field_opt goal "monthlyContribution" in
  if String.eqb (typeof mc) "number" then mc else VNum perGoal.

(** A goal carries an explicit numeric [monthlyContribution]. *)
Definition has_contribution (goal : value) : bool :=
  String.eqb (typeof (get_field_opt goal "monthlyContribution")) "number".

(** The number of goals lacking a contribution, and the default the
    specification words from it. *)
Definition goalCountNeedingDefault (gs : list value) : nat :=
  List.length (filter (fun g => negb (has_contribution g)) gs).

Definition default_as_specified (surplus : num) (gs : list value) : num :=
  math_max (math_round ((surplus * Fin (2 # 10))
                        / of_nat (goalCountNeedingDefault gs))%num) zero.

(** The three fields the fallback path attaches to a goal. *)
Definition derived_field (k : string) : bool :=
  String.eqb k "monthlyContribution" || String.eqb k "monthsToGoal" ||
  String.eqb k "projectedCompletionDate".

(** The day number of the first day of month [M], counted from January of
    year [y]: what [MakeDay] adds the date to. *)
Definition firstOfMonth (y M : Z) : Z :=
  let ym := y + M / 12 in
  JSDate.DayFromYear ym
  + JSDate.DaysBeforeMonth (if JSDate.isLeapYear ym then 1 else 0) (M mod 12).

(** The totals of two runs of the loop are the same numbers. *)
Definition same_category_totals (a b : CategoryTotals) : Prop :=
  forall c : CoreCategory, (total_of a c == total_of b c)%num.

Definition same_totals (a b : Acc) : Prop :=
  same_category_totals (categoryTotals a) (categoryTotals b) /\
  (totalIncome a == totalIncome b)%num /\
  (totalSpending a == totalSpending b)%num.

(** The sum of the magnitudes of the amounts of a list of transactions. *)
Definition total_magnitude (txs : list RawTx.t) : num :=
  fold_left (fun sum tx =>
               (sum + math_abs (number_or_zero (RawTx.amount tx)))%num)
            txs zero.

(** A transaction the loop counts as income, the bucket the loop files
    another one under, and the transactions counted in the bucket [c]. *)
Definition is_income_tx (tx : RawTx.t) : bool :=
  isIncome (primary_label tx) (or_else (RawTx.name tx) "").

Definition bucket_of (tx : RawTx.t) : CoreCategory :=
  mapPlaidCategoryToCore (Some (primary_label tx))
                         (Some (or_else (RawTx.name tx) "")).

Definition counts_in (c : CoreCategory) (tx : RawTx.t) : bool :=
  negb (is_income_tx tx) && CoreCategory_eqb (bucket_of tx) c.

(** The sum of the signed amounts of a listing. *)
Definition net_flow (l : list Listed.t) : num :=
  fold_left (fun sum t => (sum + Listed.amount t)%num) l zero.

(** The rational [q] is the integer [k]. *)
Definition is_integer (q : Q) (k : Z) : Prop := (q == inject_Z k)%Q.

(* ================================================================= *)
(** ** Example inputs *)

(** The example of the specification: label "PAYROLL", name
    "ACME CORP DIRECT DEP", amount -2500. *)
Definition payroll_tx : RawTx.t :=
  RawTx.mk (Some "t1") (VNum (of_Z (-2500))) (Some "ACME CORP DIRECT DEP")
           (Some "2025-12-02") (Some (Some "PAYROLL")) None.

(** A clock at 2026-11-02T12:34:56.789Z in a UTC process, with no
    OpenAI key and no access token. *)
Definition env_demo : Env :=
  mkEnv 1793622896789 (JSDate.fixed_zone 0) None None (fun _ _ => Rejected).

Definition rent_tx : RawTx.t :=
  RawTx.mk (Some "t2") (VNum (of_Z 1600)) (Some "Rent payment")
           (Some "2025-12-01") None (Some ["Rent"]).

(** A transaction without a name, labelled as income. *)
Definition nameless_tx : RawTx.t :=
  RawTx.mk (Some "t3") (VNum (of_Z (-75))) None (Some "2025-12-03")
           (Some (Some "INCOME_INTEREST")) None.

(** The same clock with an access token and a Plaid answer. *)
Definition env_live : Env :=
  mkEnv 1793622896789 (JSDate.fixed_zone 0) None (Some "access-sandbox-1")
        (fun _ _ => Resolved (Some [payroll_tx; rent_tx])).

(** US Eastern time in 2026 and 2027: daylight saving time (UTC-4) from
    2026-03-08T07:00Z to 2026-11-01T06:00Z and from 2027-03-14T07:00Z to
    2027-11-07T06:00Z, and standard time (UTC-5) otherwise.  A local time
    that a change skips or repeats takes the offset in force before the
    change. *)
Definition eastern_2026 : JSDate.Zone :=
  fun t isUTC =>
    let within (a b : Z) := ((a <=? t) && (t <? b))%Z in
    if (if isUTC
        then within 1772953200000%Z 1793512800000%Z ||
             within 1805007600000%Z 1825567200000%Z
        else within 1772938800000%Z 1793498400000%Z ||
             within 1804993200000%Z 1825552800000%Z)
    then (-14400000)%Z
    else (-18000000)%Z.

(** A host in US Eastern time at 2026-11-03T00:30:00Z, the evening of
    2 November there, connected to Plaid, which has no transactions. *)
Definition env_eastern : Env :=
  mkEnv 1793665800000 eastern_2026 None (Some "access-sandbox-1")
        (fun _ _ => Resolved (Some [])).

(** The same clock with an OpenAI key configured. *)
Definition env_keyed : Env :=
  mkEnv 1793622896789 (JSDate.fixed_zone 0) (Some "sk-test") None (fun _ _ => Rejected).

Definition obj_state (income : Z) (planned : Z) (goals : list value) : value :=
  VObj [("state",
         VObj [("income", VNum (of_Z income));
               ("categories", VArr [VObj [("planned", VNum (of_Z planned))]]);
               ("goals", VArr goals)])].

(** Income 5000 and planned 4000 with two goals lacking a contribution. *)
Definition body_two_goals : value :=
  obj_state 5000 4000
    [VObj [("targetAmount", VNum (of_Z 1200))];
     VObj [("targetAmount", VNum (of_Z 600))]].

(** The same budget where the first goal has an explicit contribution. *)
Definition goal_explicit : value :=
  VObj [("targetAmount", VNum (of_Z 1200)); ("monthlyContribution", VNum (of_Z 50))].

Definition goal_plain : value := VObj [("targetAmount", VNum (of_Z 600))].

Definition body_mixed_goals : value :=
  obj_state 5000 4000 [goal_explicit; goal_plain].

(** Goals whose contribution is a numeric string, and NaN. *)
Definition goal_string : value :=
  VObj [("targetAmount", VNum (of_Z 1200)); ("monthlyContribution", VStr "100")].

Definition goal_nan : value :=
  VObj [("targetAmount", VNum (of_Z 1200)); ("monthlyContribution", VNum NaN)].

(** A goal whose target amount is an object with an own property
    [toString], which [Number] cannot convert. *)
Definition unconvertible : value := VObj [("toString", VNum (of_Z 1))].

Definition goal_nan_unconvertible : value :=
  VObj [("targetAmount", unconvertible); ("monthlyContribution", VNum NaN)].

(** The forecast example: target 1200, current 0, contribution 100. *)
Definition goal_1200 : value :=
  VObj [("targetAmount", VNum (of_Z 1200)); ("currentAmount", VNum (of_Z 0));
        ("monthlyContribution", VNum (of_Z 100))].

(** A goal of five million saved one unit a month. *)
Definition goal_far : value :=
  VObj [("targetAmount", VNum (of_Z 5000000)); ("currentAmount", VNum (of_Z 0));
        ("monthlyContribution", VNum (of_Z 1))].

(** A budget state whose [categories] holds [null]. *)
Definition body_null_category : value :=
  VObj [("state", VObj [("income", VNum (of_Z 5000));
                        ("categories", VArr [VNull])])].

(** A budget state whose income [Number] cannot convert. *)
Definition body_unconvertible_income : value :=
  VObj [("state", VObj [("income", unconvertible)])].

(** A checking account with a current balance of 0 and an available
    balance of 250, and an account with neither name nor balance. *)
Definition account_zero : Account.t :=
  Account.mk "acc-1" (Some "Checking") None (Some "depository") (Some "checking")
             (Some zero) (Some (of_Z 250)) (Some "USD").

Definition account_bare : Account.t :=
  Account.mk "acc-2" None None None None None None None.

(** A Plaid client whose three calls succeed, and one whose balance call
    fails after the exchange. *)
Definition client_ok : PlaidClient :=
  mkClient (Ok "public-sandbox-1") (fun _ => Ok "access-sandbox-1")
           (fun _ => Ok [account_zero; account_bare]).

Definition client_no_balance : PlaidClient :=
  mkClient (Ok "public-sandbox-1") (fun _ => Ok "access-sandbox-1")
           (fun _ => Throw ApiError).

(** A Supabase that knows one token. *)
Definition getUser_one (token : string) : result GetUser :=
  if String.eqb token "jwt-1" then Ok (mkGetUser None (Some (mkUser "user-1")))
  else Ok (mkGetUser (Some "invalid JWT") None).

(** The clock of [env_demo] with an access token and a Plaid that resolves
    with no transactions. *)
Definition env_empty : Env :=
  mkEnv 1793622896789 (JSDate.fixed_zone 0) None (Some "access-sandbox-1")
        (fun _ _ => Resolved (Some [])).

(* ================================================================= *)
(** * Properties *)

(* ================================================================= *)
(** ** Strings *)

Lemma lower_ascii_idem (c : ascii) :
  Str.lower_ascii (Str.lower_ascii c) = Str.lower_ascii c.
Proof.
  destruct c as [[] [] [] [] [] [] [] []]; reflexivity.
Qed.

Lemma toLowerCase_idem (s : string) :
  Str.toLowerCase (Str.toLowerCase s) = Str.toLowerCase s.
Proof.
  induction s as [|c r IH]; simpl; [reflexivity|].
  now rewrite lower_ascii_idem, IH.
Qed.

(* ================================================================= *)
(** ** Category Classifier *)

(** Destructs the substring tests of the goal one after the other. *)
Ltac split_includes :=
  repeat match goal with
         | |- context [Str.includes ?h ?k] =>
             destruct (Str.includes h k); simpl; try reflexivity
         end.

Lemma classifier_refines_rule_list (label name : option string) :
  mapPlaidCategoryToCore label name = classify_spec label name.
Proof.
  unfold mapPlaidCategoryToCore, classify_spec.
  generalize (Str.toLowerCase (or_empty label)) as p.
  generalize (Str.toLowerCase (or_empty name)) as n.
  intros n p.
  unfold rule_groups, first_match, rule_matches, Str.includes_any,
    label_keywords, name_keywords, bucket, existsb.
  split_includes.
Qed.

(** First match wins, for any list of rule groups: the bucket is that of
    the group at position [i] when it matches and no earlier one does. *)
Lemma first_match_at (p n : string) (rs : list RuleGroup) :
  forall (i : nat) (r : RuleGroup),
    nth_error rs i = Some r ->
    rule_matches p n r = true ->
    (forall j r', (j < i)%nat -> nth_error rs j = Some r' ->
                  rule_matches p n r' = false) ->
    first_match p n rs = bucket r.
Proof.
  induction rs as [|r0 rest IH]; intros i r Hi Hm Hbefore.
  - destruct i; discriminate.
  - destruct i as [|i]; simpl in *.
    + injection Hi as ->. now rewrite Hm.
    + rewrite (Hbefore 0%nat r0) by (simpl; auto with arith).
      apply (IH i r Hi Hm).
      intros j r' Hj Hnth. apply (Hbefore (S j) r'); [lia | exact Hnth].
Qed.

Lemma first_match_none (p n : string) (rs : list RuleGroup) :
  (forall r, In r rs -> rule_matches p n r = false) ->
  first_match p n rs = Other.
Proof.
  induction rs as [|r0 rest IH]; intros H; simpl; [reflexivity|].
  rewrite (H r0) by (left; reflexivity).
  apply IH. intros r Hr. apply H. now right.
Qed.

(** C6. [mapPlaidCategoryToCore] is the priority-ordered decision list of
    the five rule groups Housing, Food & Dining, Transportation, Health &
    Fitness, Lifestyle: it matches keywords as substrings of the lowercased
    label and name (so the case of the input does not matter), returns the
    bucket of the first group that matches and [Other] when none does; a
    label containing both "rent" and "food" therefore classifies as
    Housing. *)
Theorem classify_priority_order (label name : option string) :
  let p := Str.toLowerCase (or_empty label) in
  let n := Str.toLowerCase (or_empty name) in
  map bucket rule_groups
    = [Housing; FoodDining; Transportation; HealthFitness; Lifestyle] /\
  mapPlaidCategoryToCore label name = first_match p n rule_groups /\
  mapPlaidCategoryToCore (Some p) (Some n) = mapPlaidCategoryToCore label name /\
  (forall i r,
      nth_error rule_groups i = Some r ->
      rule_matches p n r = true ->
      (forall j r', (j < i)%nat -> nth_error rule_groups j = Some r' ->
                    rule_matches p n r' = false) ->
      mapPlaidCategoryToCore label name = bucket r) /\
  ((forall r, In r rule_groups -> rule_matches p n r = false) ->
   mapPlaidCategoryToCore label name = Other) /\
  (Str.includes p "rent" = true -> Str.includes p "food" = true ->
   mapPlaidCategoryToCore label name = Housing).
Proof.
  intros p n. repeat split.
  - apply classifier_refines_rule_list.
  - subst p n. unfold mapPlaidCategoryToCore. simpl or_empty.
    now rewrite !toLowerCase_idem.
  - intros i r Hi Hm Hbefore. rewrite classifier_refines_rule_list.
    now apply (first_match_at p n rule_groups i r).
  - intros Hnone. rewrite classifier_refines_rule_list.
    now apply first_match_none.
  - intros Hrent _. unfold mapPlaidCategoryToCore. fold p. now rewrite Hrent.
Qed.

Lemma classify_priority_order_witness :
  mapPlaidCategoryToCore (Some "RENT and Food") (Some "Corner Cafe") = Housing.
Proof.
  apply (classify_priority_order (Some "RENT and Food") (Some "Corner Cafe"));
    reflexivity.
Defined.

(* ================================================================= *)
(** ** Numbers *)

#[export] Instance eqv_Equivalence : Equivalence Num.eqv.
Proof.
  split.
  - intros [x|s|]; simpl; [reflexivity | reflexivity | exact I].
  - intros [x|s|] [y|s'|]; simpl; intros H; try easy; now symmetry.
  - intros [x|s|] [y|s'|] [z|s''|]; simpl; intros H1 H2; try easy;
      try congruence; now transitivity y.
Qed.

#[export] Instance add_Proper : Proper (Num.eqv ==> Num.eqv ==> Num.eqv) Num.add.
Proof.
  intros [x|s|] [y|s'|] H1 [u|t|] [v|t'|] H2; simpl in *; try easy;
    subst; try (now rewrite H1, H2); now destruct (Bool.eqb s' t').
Qed.

#[export] Instance add_Associative : Associative Num.eqv Num.add.
Proof.
  intros [x|s|] [y|s'|] [z|s''|]; simpl; try easy;
    try apply Qplus_assoc;
    repeat match goal with b : bool |- _ => destruct b end; now simpl.
Qed.

#[export] Instance add_Commutative : Commutative Num.eqv Num.add.
Proof.
  intros [x|s|] [y|s'|]; simpl; try easy;
    try apply Qplus_comm; now destruct s, s'.
Qed.

(** Adding to one bucket adds as much to the sum of the buckets. *)
Lemma sum_totals_add_to (ct : CategoryTotals) (c : CoreCategory) (amt : num) :
  (sum_totals (add_to ct c amt) == sum_totals ct + amt)%num.
Proof.
  destruct ct as [h f t l hf o], c; unfold sum_totals, add_to; simpl;
    aac_reflexivity.
Qed.

(** Only the bucket named is changed. *)
Lemma total_of_add_to (ct : CategoryTotals) (c c' : CoreCategory) (amt : num) :
  total_of (add_to ct c amt) c'
    = if CoreCategory_eqb c c' then (total_of ct c' + amt)%num else total_of ct c'.
Proof. destruct c, c'; reflexivity. Qed.

(** The loop keeps [totalSpending] equal to the sum of the buckets. *)
Lemma snapshot_step_invariant (a : Acc) (tx : RawTx.t) :
  (totalSpending a == sum_totals (categoryTotals a))%num ->
  (totalSpending (snapshot_step a tx)
     == sum_totals (categoryTotals (snapshot_step a tx)))%num.
Proof.
  intros H. unfold snapshot_step.
  destruct (isIncome _ _); simpl; [exact H|].
  rewrite sum_totals_add_to. now rewrite H.
Qed.

Lemma fold_snapshot_invariant (txs : list RawTx.t) :
  forall a : Acc,
    (totalSpending a == sum_totals (categoryTotals a))%num ->
    (totalSpending (fold_left snapshot_step txs a)
       == sum_totals (categoryTotals (fold_left snapshot_step txs a)))%num.
Proof.
  induction txs as [|tx rest IH]; intros a H; simpl; [exact H|].
  apply IH. now apply snapshot_step_invariant.
Qed.

(** A snapshot that [buildPlaidSnapshot] returns is the aggregate of the
    transactions the Plaid client resolved with. *)
Lemma buildPlaidSnapshot_aggregate (env : Env) (s : Snapshot) :
  buildPlaidSnapshot env = Ok (Some s) ->
  exists (txs : list RawTx.t) (startDate endDate : string),
    fetched (transactionsGet env startDate endDate) = Ok txs /\
    s = aggregate txs startDate endDate.
Proof.
  unfold buildPlaidSnapshot.
  destruct (present (lastAccessToken env)); cbn [negb]; [|discriminate].
  destruct (JSDate.isoDate (Some (now env))) as [e|]; cbn [bind];
    [|discriminate].
  destruct (JSDate.isoDate _) as [b|]; cbn [bind]; [|discriminate].
  destruct (fetched (transactionsGet env b e)) as [txs|] eqn:Hf; cbn [bind];
    [|discriminate].
  intros H. injection H as <-. now exists txs, b, e.
Qed.

(** The loop adds up, in [totalIncome], in [totalSpending] and in each
    bucket, the magnitudes of the transactions that belong there. *)
Lemma fold_snapshot_income (txs : list RawTx.t) :
  forall (a : Acc) (m : num),
    (totalIncome a == m)%num ->
    (totalIncome (fold_left snapshot_step txs a)
     == fold_left (fun sum tx =>
                     (sum + math_abs (number_or_zero (RawTx.amount tx)))%num)
                  (filter is_income_tx txs) m)%num.
Proof.
  induction txs as [|tx rest IH]; intros a m H; cbn [fold_left filter];
    [exact H|].
  unfold is_income_tx at 1, snapshot_step.
  destruct (isIncome _ _); cbn [fold_left]; apply IH;
    cbn [totalIncome]; [now rewrite H | exact H].
Qed.

Lemma fold_snapshot_spending (txs : list RawTx.t) :
  forall (a : Acc) (m : num),
    (totalSpending a == m)%num ->
    (totalSpending (fold_left snapshot_step txs a)
     == fold_left (fun sum tx =>
                     (sum + math_abs (number_or_zero (RawTx.amount tx)))%num)
                  (filter (fun tx => negb (is_income_tx tx)) txs) m)%num.
Proof.
  induction txs as [|tx rest IH]; intros a m H; cbn [fold_left filter];
    [exact H|].
  unfold is_income_tx at 1, snapshot_step.
  destruct (isIncome _ _); cbn [negb fold_left]; apply IH;
    cbn [totalSpending]; [exact H | now rewrite H].
Qed.

Lemma fold_snapshot_bucket (c : CoreCategory) (txs : list RawTx.t) :
  forall (a : Acc) (m : num),
    (total_of (categoryTotals a) c == m)%num ->
    (total_of (categoryTotals (fold_left snapshot_step txs a)) c
     == fold_left (fun sum tx =>
                     (sum + math_abs (number_or_zero (RawTx.amount tx)))%num)
                  (filter (counts_in c) txs) m)%num.
Proof.
  induction txs as [|tx rest IH]; intros a m H; cbn [fold_left filter];
    [exact H|].
  unfold counts_in at 1, is_income_tx, bucket_of, snapshot_step.
  destruct (isIncome _ _); cbn [negb andb fold_left].
  - apply IH. exact H.
  - destruct (CoreCategory_eqb _ c) eqn:Hc; cbn [fold_left]; apply IH;
      cbn [categoryTotals]; rewrite total_of_add_to, Hc;
      [now rewrite H | exact H].
Qed.

(** C4. For every sequence of raw transactions, the snapshot's
    [totalSpendingEstimate] equals the sum of the six [categoryTotals]
    values (numbers as exact values).  The totals come from the
    transactions: [totalSpendingEstimate] is the sum of the magnitudes of
    the transactions that are not income, each bucket of [categoryTotals]
    is the sum of the magnitudes of the non-income transactions the
    classifier files under it, and [totalIncomeEstimate] is the sum of the
    magnitudes of the income transactions.  One pass of the loop over an
    income transaction leaves [categoryTotals] and [totalSpending] as they
    are, and over any other transaction adds its magnitude to
    [totalSpending] and to exactly one bucket, the one the classifier
    names. *)
Theorem spending_is_sum_of_category_totals
  (txs : list RawTx.t) (startDate endDate : string) :
  let s := aggregate txs startDate endDate in
  (totalSpendingEstimate s == sum_totals (snapCategoryTotals s))%num /\
  (totalSpendingEstimate s
     == total_magnitude (filter (fun tx => negb (is_income_tx tx)) txs))%num /\
  (forall c : CoreCategory,
      (total_of (snapCategoryTotals s) c
         == total_magnitude (filter (counts_in c) txs))%num) /\
  (totalIncomeEstimate s == total_magnitude (filter is_income_tx txs))%num /\
  (forall (a : Acc) (tx : RawTx.t),
      let name := or_else (RawTx.name tx) "" in
      let amt := math_abs (number_or_zero (RawTx.amount tx)) in
      let a' := snapshot_step a tx in
      if isIncome (primary_label tx) name
      then categoryTotals a' = categoryTotals a /\
           totalSpending a' = totalSpending a
      else
        let core := mapPlaidCategoryToCore (Some (primary_label tx)) (Some name) in
        totalSpending a' = (totalSpending a + amt)%num /\
        forall c : CoreCategory,
          total_of (categoryTotals a') c
            = if CoreCategory_eqb core c
              then (total_of (categoryTotals a) c + amt)%num
              else total_of (categoryTotals a) c).
Proof.
  intros s. split; [|split; [|split; [|split]]].
  - subst s. unfold aggregate, snapshot_loop. simpl.
    apply fold_snapshot_invariant. reflexivity.
  - subst s. unfold aggregate, snapshot_loop, total_magnitude.
    cbn [totalSpendingEstimate].
    apply fold_snapshot_spending. reflexivity.
  - intros c. subst s. unfold aggregate, snapshot_loop, total_magnitude.
    cbn [snapCategoryTotals].
    apply fold_snapshot_bucket. destruct c; reflexivity.
  - subst s. unfold aggregate, snapshot_loop, total_magnitude.
    cbn [totalIncomeEstimate].
    apply fold_snapshot_income. reflexivity.
  - intros a tx name amt a'. subst a'. unfold snapshot_step. fold name.
    destruct (isIncome _ name); simpl; [split; reflexivity|].
    split; [reflexivity|]. intros c. apply total_of_add_to.
Qed.

(** The transactions of the example: the payroll deposit of 2500 is the
    income, the rent of 1600 is the spending and the Housing bucket. *)
Example snapshot_totals_of_example :
  let s := aggregate [payroll_tx; rent_tx] "2026-10-02" "2026-11-02" in
  totalIncomeEstimate s = of_Z 2500 /\
  totalSpendingEstimate s = of_Z 1600 /\
  total_of (snapCategoryTotals s) Housing = of_Z 1600 /\
  total_of (snapCategoryTotals s) Other = zero.
Proof. vm_compute. repeat split; reflexivity. Qed.

(* ================================================================= *)
(** ** Transaction Normalizer *)

Lemma or_else_empty (a : option string) : or_else a "" = or_empty a.
Proof.
  unfold or_else, present. destruct a as [x|]; [|reflexivity].
  destruct (String.eqb_spec x ""); simpl; [now subst|reflexivity].
Qed.

Lemma isIncome_spec_form (primary name : string) :
  isIncome primary name
    = Str.includes_any (Str.toLowerCase primary) ["income"; "payroll"] ||
      Str.includes_any (Str.toLowerCase name) ["payroll"; "salary"; "deposit"].
Proof.
  unfold isIncome, Str.includes_any, existsb.
  split_includes.
Qed.

(** The default name of the listing holds none of the income keywords. *)
Lemma isIncome_default_name (tx : RawTx.t) :
  isIncome (primary_label tx) (or_else (RawTx.name tx) "Transaction")
    = isIncome (primary_label tx) (or_else (RawTx.name tx) "").
Proof.
  unfold or_else. destruct (present (RawTx.name tx)); [reflexivity|].
  rewrite !isIncome_spec_form. reflexivity.
Qed.

Lemma isIncome_snapshot (tx : RawTx.t) :
  isIncome (primary_label tx) (or_else (RawTx.name tx) "") = income_by_spec tx.
Proof. rewrite or_else_empty. apply isIncome_spec_form. Qed.

Lemma isIncome_listing (tx : RawTx.t) :
  isIncome (primary_label tx) (or_else (RawTx.name tx) "Transaction")
    = income_by_spec tx.
Proof. rewrite isIncome_default_name. apply isIncome_snapshot. Qed.

(** [Number(v) || 0] is never NaN, so its magnitude is a number [>= 0]. *)
Lemma abs_amount_nonneg (v : value) : Num.nonneg (math_abs (number_or_zero v)).
Proof.
  unfold number_or_zero, Num.or_zero.
  destruct (to_number v) as [x|s|].
  - unfold Num.truthy. destruct (Qeq_bool x 0);
      cbn [negb math_abs Num.nonneg Num.zero]; apply Qabs_nonneg.
  - reflexivity.
  - simpl. discriminate.
Qed.

(** C7. A raw transaction is income exactly when its primary label holds
    "income" or "payroll" or its name holds "payroll", "salary" or
    "deposit", case-insensitively, at both sites of the test; an income
    transaction is listed with type "income" and the magnitude of its raw
    amount whatever the sign received, and in the snapshot it adds that
    magnitude to the income total and touches no category bucket. *)
Theorem income_detection (tx : RawTx.t) :
  let raw := number_or_zero (RawTx.amount tx) in
  isIncome (primary_label tx) (or_else (RawTx.name tx) "") = income_by_spec tx /\
  isIncome (primary_label tx) (or_else (RawTx.name tx) "Transaction")
    = income_by_spec tx /\
  (Listed.type (normalize tx) = "income" <-> income_by_spec tx = true) /\
  (income_by_spec tx = true ->
   Listed.amount (normalize tx) = math_abs raw /\ Num.nonneg (math_abs raw)) /\
  (income_by_spec tx = true ->
   forall a : Acc,
     categoryTotals (snapshot_step a tx) = categoryTotals a /\
     totalSpending (snapshot_step a tx) = totalSpending a /\
     totalIncome (snapshot_step a tx) = (totalIncome a + math_abs raw)%num) /\
  (income_by_spec tx = false ->
   forall a : Acc, totalIncome (snapshot_step a tx) = totalIncome a).
Proof.
  intros raw. split; [apply isIncome_snapshot|].
  split; [apply isIncome_listing|].
  split; [|split; [|split]].
  - unfold normalize. rewrite isIncome_listing.
    destruct (income_by_spec tx); simpl; split; intros H;
      try reflexivity; discriminate.
  - intros H. unfold normalize. rewrite isIncome_listing, H. simpl.
    split; [reflexivity | apply abs_amount_nonneg].
  - intros H a. unfold snapshot_step. rewrite isIncome_snapshot, H. simpl.
    repeat split; reflexivity.
  - intros H a. unfold snapshot_step. rewrite isIncome_snapshot, H.
    reflexivity.
Qed.

Lemma income_detection_witness :
  income_by_spec payroll_tx = true /\
  Listed.type (normalize payroll_tx) = "income" /\
  (Listed.amount (normalize payroll_tx) == of_Z 2500)%num.
Proof.
  pose proof (income_detection payroll_tx) as (_ & _ & Htype & Hamt & _).
  assert (income_by_spec payroll_tx = true) as Hinc by reflexivity.
  split; [exact Hinc|]. split.
  - apply Htype. exact Hinc.
  - destruct (Hamt Hinc) as [-> _]. reflexivity.
Defined.

(* ================================================================= *)
(** ** The sample of the snapshot *)

Lemma snapshot_step_sample (a : Acc) (tx : RawTx.t) :
  sample (snapshot_step a tx)
    = if Nat.ltb (List.length (sample a)) 10
      then (sample a ++ [sample_entry tx])%list
      else sample a.
Proof.
  unfold snapshot_step, sample_entry.
  destruct (isIncome _ _); reflexivity.
Qed.

Lemma fold_snapshot_sample (txs : list RawTx.t) :
  forall a : Acc,
    (List.length (sample a) <= 10)%nat ->
    sample (fold_left snapshot_step txs a)
      = firstn 10 (sample a ++ map sample_entry txs)%list.
Proof.
  induction txs as [|tx rest IH]; intros a Hlen; cbn [fold_left map].
  - rewrite app_nil_r. symmetry. now apply firstn_all2.
  - rewrite IH; rewrite snapshot_step_sample.
    + destruct (Nat.ltb_spec (List.length (sample a)) 10) as [Hlt|Hge].
      * now rewrite <- app_assoc.
      * assert (List.length (sample a) = 10%nat) as H10 by lia.
        rewrite !firstn_app, H10, !Nat.sub_diag. reflexivity.
    + destruct (Nat.ltb_spec (List.length (sample a)) 10) as [Hlt|Hge];
        [|exact Hlen].
      rewrite length_app. cbn [List.length]. lia.
Qed.

(** C8. The sample of the snapshot is the entries of the first ten
    transactions, in input order, income or not: it has
    [min 10 (length txs)] entries, so ten for fifteen transactions. *)
Theorem sample_is_first_ten
  (txs : list RawTx.t) (startDate endDate : string) :
  let s := aggregate txs startDate endDate in
  sampleTransactions s = map sample_entry (firstn 10 txs) /\
  List.length (sampleTransactions s) = Nat.min 10 (List.length txs) /\
  (List.length txs = 15%nat -> List.length (sampleTransactions s) = 10%nat).
Proof.
  intros s.
  assert (sampleTransactions s = map sample_entry (firstn 10 txs)) as Hs.
  { subst s. unfold aggregate, snapshot_loop. cbn [sampleTransactions].
    rewrite fold_snapshot_sample by (cbn; lia).
    cbn [acc0 sample app]. now rewrite firstn_map. }
  assert (List.length (sampleTransactions s) = Nat.min 10 (List.length txs))
    as Hl.
  { rewrite Hs, length_map. apply length_firstn. }
  repeat split; [exact Hs | exact Hl |].
  intros H15. rewrite Hl, H15. reflexivity.
Qed.

Lemma sample_is_first_ten_witness :
  List.length (sampleTransactions
                 (aggregate (repeat payroll_tx 15) "2025-11-02" "2025-12-02"))
    = 10%nat.
Proof.
  apply (sample_is_first_ten (repeat payroll_tx 15) "2025-11-02" "2025-12-02").
  reflexivity.
Defined.

(* ================================================================= *)
(** ** Per-transaction listing *)

(** What [normalize] gives one transaction: a tag and a signed amount. *)
Lemma normalize_type_and_sign (tx : RawTx.t) :
  let raw := number_or_zero (RawTx.amount tx) in
  let t := normalize tx in
  (Listed.type t = "income" /\ Listed.amount t = math_abs raw /\
   (zero <=? Listed.amount t)%num = true) \/
  (Listed.type t = "spending" /\ Listed.amount t = Num.neg (math_abs raw) /\
   (Listed.amount t <=? zero)%num = true).
Proof.
  intros raw t. subst t. unfold normalize. fold raw.
  pose proof (abs_amount_nonneg (RawTx.amount tx)) as Hnn. fold raw in Hnn.
  destruct (isIncome _ _); [left | right]; cbn [Listed.type Listed.amount];
    (split; [reflexivity | split; [reflexivity|]]);
    destruct (math_abs raw) as [x|s|]; cbn in Hnn |- *; try contradiction.
  - now apply Qle_bool_iff.
  - now subst s.
  - apply Qle_bool_iff. lra.
  - now subst s.
Qed.

(** The response of the handler, by its two gates. *)
Lemma plaid_transactions_cases (env : Env) (days : value) :
  (present (lastAccessToken env) = false /\
   plaid_transactions env days = Json demo_transactions) \/
  (present (lastAccessToken env) = true /\
   ((exists txs, plaid_transactions env days = Json (map normalize txs)) \/
    plaid_transactions env days = Error 500 "Failed to fetch transactions")).
Proof.
  unfold plaid_transactions.
  destruct (present (lastAccessToken env)); [right | left]; split;
    try reflexivity.
  destruct (JSDate.isoDate (Some (now env))) as [e|]; cbn [bind catching];
    [|now right].
  destruct (JSDate.isoDate _) as [s|]; cbn [bind catching]; [|now right].
  destruct (fetched _) as [txs|]; cbn [bind catching]; [|now right].
  left. now exists txs.
Qed.

(** C3, as stated, fails: without an access token the listing answers its
    demo list, whose second record carries the tag "bill". *)
Lemma listing_demo_has_bill_tag :
  exists (l : list Listed.t) (t : Listed.t),
    plaid_transactions env_demo VUndefined = Json l /\
    In t l /\
    Listed.type t = "bill" /\
    ~ (Listed.type t = "income" \/ Listed.type t = "spending").
Proof.
  exists demo_transactions, (Listed.mk (Some "tx2") "Rent" (Some "2025-12-01")
                                       (of_Z (-1600)) "bill").
  split; [reflexivity|]. split; [right; left; reflexivity|].
  split; [reflexivity|]. cbn. intros [H|H]; discriminate.
Qed.

(** C3, amended. With an access token, every record the listing returns is
    the normalization of a fetched transaction: its tag is "income" with
    the amount |raw| (at least 0), or "spending" with the amount -|raw| (at
    most 0), and never anything else.  Without an access token the listing
    returns the fixed demo list. *)
Theorem listing_tags_and_signs (env : Env) (days : value) :
  (present (lastAccessToken env) = true ->
   forall l : list Listed.t,
     plaid_transactions env days = Json l ->
     forall t : Listed.t,
       In t l ->
       exists tx : RawTx.t,
         let raw := number_or_zero (RawTx.amount tx) in
         t = normalize tx /\
         ((Listed.type t = "income" /\ Listed.amount t = math_abs raw /\
           (zero <=? Listed.amount t)%num = true) \/
          (Listed.type t = "spending" /\
           Listed.amount t = Num.neg (math_abs raw) /\
           (Listed.amount t <=? zero)%num = true))) /\
  (present (lastAccessToken env) = false ->
   plaid_transactions env days = Json demo_transactions).
Proof.
  destruct (plaid_transactions_cases env days) as [[Hno Hdemo]|[Hyes Hlive]];
    split; intros Htok; try congruence.
  intros l Hl t Hin.
  destruct Hlive as [[txs Htxs]|Herr]; [|congruence].
  rewrite Htxs in Hl. injection Hl as <-.
  apply in_map_iff in Hin as (tx & <- & _).
  exists tx. split; [reflexivity|]. apply normalize_type_and_sign.
Qed.

Lemma listing_tags_and_signs_witness :
  exists tx : RawTx.t,
    let raw := number_or_zero (RawTx.amount tx) in
    normalize rent_tx = normalize tx /\
    ((Listed.type (normalize rent_tx) = "income" /\
      Listed.amount (normalize rent_tx) = math_abs raw /\
      (zero <=? Listed.amount (normalize rent_tx))%num = true) \/
     (Listed.type (normalize rent_tx) = "spending" /\
      Listed.amount (normalize rent_tx) = Num.neg (math_abs raw) /\
      (Listed.amount (normalize rent_tx) <=? zero)%num = true)).
Proof.
  assert (plaid_transactions env_live VUndefined
          = Json [normalize payroll_tx; normalize rent_tx]) as Hl
    by (vm_compute; reflexivity).
  exact (proj1 (listing_tags_and_signs env_live VUndefined) eq_refl
               [normalize payroll_tx; normalize rent_tx] Hl
               (normalize rent_tx) (or_intror (or_introl eq_refl))).
Defined.

(* ================================================================= *)
(** ** Objects *)

Lemma lookup_set_prop_same (ps : list (string * value)) (k : string) (v : value) :
  lookup k (set_prop ps k v) = Some v.
Proof.
  induction ps as [|[k' v'] rest IH]; simpl.
  - now rewrite String.eqb_refl.
  - destruct (String.eqb_spec k k') as [->|Hne]; simpl.
    + now rewrite String.eqb_refl.
    + now destruct (String.eqb_spec k k').
Qed.

Lemma lookup_set_prop_other (ps : list (string * value)) (k k' : string) (v : value) :
  k <> k' -> lookup k' (set_prop ps k v) = lookup k' ps.
Proof.
  intros Hne. induction ps as [|[k0 v0] rest IH]; simpl.
  - destruct (String.eqb_spec k' k); [congruence | reflexivity].
  - destruct (String.eqb_spec k k0) as [->|Hk]; simpl.
    + destruct (String.eqb_spec k' k0); [congruence | reflexivity].
    + destruct (String.eqb_spec k' k0); [reflexivity | exact IH].
Qed.

Lemma read_set_prop_same (ps : list (string * value)) (k : string) (v : value) :
  read_prop (set_prop ps k v) k = v.
Proof. unfold read_prop. now rewrite lookup_set_prop_same. Qed.

Lemma read_set_prop_other (ps : list (string * value)) (k k' : string) (v : value) :
  k <> k' -> read_prop (set_prop ps k v) k' = read_prop ps k'.
Proof. intros H. unfold read_prop. now rewrite lookup_set_prop_other. Qed.

(** The fields of [{ ...goal, monthlyContribution, ...forecast }]. *)
Lemma with_forecast_fields (goal mc : value) (f : Forecast) :
  get_field (with_forecast goal mc f) "monthlyContribution" = Ok mc /\
  get_field (with_forecast goal mc f) "monthsToGoal" = Ok (VNum (monthsToGoal f)) /\
  get_field (with_forecast goal mc f) "projectedCompletionDate"
    = Ok (date_value (projectedCompletionDate f)) /\
  (forall k, derived_field k = false ->
             get_field (with_forecast goal mc f) k
               = Ok (read_prop (own_props goal) k)).
Proof.
  unfold with_forecast, get_field. repeat split.
  - rewrite !read_set_prop_other by discriminate.
    now rewrite read_set_prop_same.
  - rewrite read_set_prop_other by discriminate.
    now rewrite read_set_prop_same.
  - now rewrite read_set_prop_same.
  - intros k Hk. unfold derived_field in Hk.
    apply orb_false_iff in Hk as [Hk H3]. apply orb_false_iff in Hk as [H1 H2].
    apply String.eqb_neq in H1, H2, H3.
    rewrite !read_set_prop_other by congruence. reflexivity.
Qed.

(** A property read throws on [null] and [undefined] only. *)
Lemma get_field_nullish (v : value) (k : string) :
  nullish v = true -> get_field v k = Throw TypeError.
Proof. destruct v; simpl; intros H; try discriminate; reflexivity. Qed.

Lemma get_field_not_nullish (v : value) (k : string) :
  nullish v = false -> get_field v k = Ok (get_field_opt v k).
Proof.
  unfold get_field_opt. destruct v; simpl; intros H; try discriminate;
    reflexivity.
Qed.

Lemma is_structured_test (v : value) :
  negb (truthy v) || negb (String.eqb (typeof v) "object")
    = negb (is_structured v).
Proof.
  destruct v as [| |b|n|s| |]; simpl; try reflexivity.
  - now destruct b.
  - now rewrite orb_true_r.
  - now rewrite orb_true_r.
Qed.

Lemma is_structured_not_nullish (v : value) :
  is_structured v = true -> nullish v = false.
Proof. destruct v; simpl; intros H; try discriminate; reflexivity. Qed.

(* ================================================================= *)
(** ** Callbacks that can throw *)

Lemma mapM_nth {A B : Type} (f : A -> result B) (xs : list A) :
  forall ys : list B,
    mapM f xs = Ok ys ->
    List.length ys = List.length xs /\
    forall (i : nat) (x : A),
      nth_error xs i = Some x ->
      exists y, nth_error ys i = Some y /\ f x = Ok y.
Proof.
  induction xs as [|x0 rest IH]; intros ys H; simpl in H.
  - injection H as <-. split; [reflexivity|]. intros [|i] x Hx; discriminate.
  - destruct (f x0) as [y0|e] eqn:Hf; simpl in H; [|discriminate].
    destruct (mapM f rest) as [ys'|e] eqn:Hm; simpl in H; [|discriminate].
    injection H as <-. destruct (IH ys' eq_refl) as [Hlen Hnth].
    split; [simpl; now rewrite Hlen|].
    intros [|i] x Hx; simpl in Hx.
    + injection Hx as <-. exists y0. now split.
    + apply (Hnth i x Hx).
Qed.

Lemma mapM_all_ok {A B : Type} (f : A -> result B) (xs : list A) :
  Forall (fun x => exists y, f x = Ok y) xs ->
  exists ys, mapM f xs = Ok ys.
Proof.
  induction 1 as [|x rest [y Hy] _ [ys Hys]]; simpl.
  - now exists [].
  - rewrite Hy, Hys. simpl. now exists (y :: ys).
Qed.

Lemma mapM_throws {A B : Type} (f : A -> result B) (xs : list A) :
  (exists x e, In x xs /\ f x = Throw e) ->
  exists e, mapM f xs = Throw e.
Proof.
  induction xs as [|x0 rest IH]; intros (x & e & Hin & Hf); [destruct Hin|].
  simpl. destruct (f x0) as [y0|e0] eqn:H0; simpl; [|now exists e0].
  destruct Hin as [->|Hin]; [congruence|].
  destruct IH as [e' He']; [now exists x, e|].
  rewrite He'. simpl. now exists e'.
Qed.

(** White space outside ASCII is trimmed too: a no-break space (U+00A0,
    bytes C2 A0) before and a byte order mark (U+FEFF, bytes EF BB BF)
    after the digits leave the number 12. *)
Example number_trims_unicode_space :
  string_to_number
    (String (ascii_of_nat 194) (String (ascii_of_nat 160)
       (" 12" ++ String (ascii_of_nat 239) (String (ascii_of_nat 187)
                    (String (ascii_of_nat 191) "")))))
    = of_Z 12.
Proof. vm_compute. reflexivity. Qed.

(** [Number] of an object with an own [toString], and of an array that
    holds one, raises; of a plain object it is NaN. *)
Example number_of_objects :
  ToNumber unconvertible = Throw TypeError /\
  ToNumber (VArr [VArr [unconvertible]]) = Throw TypeError /\
  ToNumber (VArr [VNum (of_Z 1); unconvertible]) = Throw TypeError /\
  ToNumber (VObj [("valueOf", VNum (of_Z 1))]) = Ok NaN /\
  ToNumber (VArr [VStr "7"]) = Ok (of_Z 7).
Proof. repeat split; vm_compute; reflexivity. Qed.

(** [Number(v) || 0] raises exactly when the string conversion does. *)
Lemma ToNumber_or_zero_returns (v : value) :
  to_string_throws v = false ->
  ToNumber_or_zero v = Ok (number_or_zero v).
Proof. intros H. unfold ToNumber_or_zero, ToNumber. now rewrite H. Qed.

Lemma ToNumber_or_zero_throws (v : value) :
  to_string_throws v = true ->
  ToNumber_or_zero v = Throw TypeError.
Proof. intros H. unfold ToNumber_or_zero, ToNumber. now rewrite H. Qed.

Lemma ToNumber_or_zero_Ok (v : value) (n : num) :
  ToNumber_or_zero v = Ok n ->
  to_string_throws v = false /\ n = number_or_zero v.
Proof.
  destruct (to_string_throws v) eqn:H.
  - rewrite (ToNumber_or_zero_throws v H). discriminate.
  - rewrite (ToNumber_or_zero_returns v H). intros [= <-]. now split.
Qed.

(** [categories.reduce] over elements that are not [null] or [undefined]
    and whose planned amount converts. *)
Lemma foldM_add_planned (cats : list value) :
  Forall (fun c => category_converts c = true) cats ->
  forall init : num,
    foldM add_planned cats init
      = Ok (fold_left (fun sum cat =>
                         (sum + number_or_zero (get_field_opt cat "planned"))%num)
                      cats init).
Proof.
  induction 1 as [|c rest Hc _ IH]; intros init; simpl; [reflexivity|].
  unfold category_converts in Hc.
  apply andb_true_iff in Hc as [Hn Ht].
  apply negb_true_iff in Hn. apply negb_true_iff in Ht.
  unfold add_planned at 1. rewrite (get_field_not_nullish c _ Hn).
  cbn [bind]. rewrite (ToNumber_or_zero_returns _ Ht). cbn [bind].
  apply IH.
Qed.

(** When [categories.reduce] returns, it returns the plain sum. *)
Lemma foldM_add_planned_Ok (cats : list value) :
  forall init r : num,
    foldM add_planned cats init = Ok r ->
    Forall (fun c => category_converts c = true) cats /\
    r = fold_left (fun sum cat =>
                     (sum + number_or_zero (get_field_opt cat "planned"))%num)
                  cats init.
Proof.
  induction cats as [|c rest IH]; intros init r H; simpl in H.
  - injection H as <-. now split.
  - unfold add_planned at 1 in H.
    destruct (nullish c) eqn:Hn.
    { rewrite (get_field_nullish c _ Hn) in H. discriminate. }
    rewrite (get_field_not_nullish c _ Hn) in H. cbn [bind] in H.
    destruct (to_string_throws (get_field_opt c "planned")) eqn:Ht.
    { rewrite (ToNumber_or_zero_throws _ Ht) in H. discriminate. }
    rewrite (ToNumber_or_zero_returns _ Ht) in H. cbn [bind] in H.
    destruct (IH _ _ H) as [Hall ->]. split; [|reflexivity].
    constructor; [|exact Hall].
    unfold category_converts. now rewrite Hn, Ht.
Qed.

(** A category that is [null] or [undefined], or whose planned amount does
    not convert, makes [categories.reduce] raise a TypeError. *)
Lemma foldM_add_planned_throws (cats : list value) :
  (exists c, In c cats /\ category_converts c = false) ->
  forall init : num, foldM add_planned cats init = Throw TypeError.
Proof.
  induction cats as [|c0 rest IH]; intros (c & Hin & Hc) init; [destruct Hin|].
  simpl. unfold add_planned at 1.
  destruct (nullish c0) eqn:H0.
  { now rewrite (get_field_nullish c0 _ H0). }
  rewrite (get_field_not_nullish c0 _ H0). cbn [bind].
  destruct (to_string_throws (get_field_opt c0 "planned")) eqn:Ht.
  { now rewrite (ToNumber_or_zero_throws _ Ht). }
  rewrite (ToNumber_or_zero_returns _ Ht). cbn [bind].
  destruct Hin as [->|Hin].
  - unfold category_converts in Hc. rewrite H0, Ht in Hc. discriminate.
  - apply IH. now exists c.
Qed.

(* ================================================================= *)
(** ** Goal Forecaster *)

(** On an object the forecaster reads its three fields without throwing;
    each conversion to a number can raise. *)
Lemma computeGoalForecast_object (env : Env) (ps : list (string * value)) :
  computeGoalForecast env (VObj ps)
    = do target <- ToNumber_or_zero (read_prop ps "targetAmount");
      do current <- ToNumber_or_zero (read_prop ps "currentAmount");
      do contrib <- ToNumber_or_zero (read_prop ps "monthlyContribution");
      let remaining := (target - current)%num in
      if (remaining <=? zero)%num || (contrib <=? zero)%num
      then Ok (mkForecast zero None)
      else
        let months := math_ceil (remaining / contrib)%num in
        do iso <- JSDate.isoDate
                    (JSDate.setMonth (tza env) (Some (now env))
                       (JSDate.getMonth (tza env) (Some (now env)) + months)%num);
        Ok (mkForecast months (Some iso)).
Proof. reflexivity. Qed.

(** When the three amounts convert, the forecast is computed from their
    numbers. *)
Lemma computeGoalForecast_converted (env : Env) (ps : list (string * value)) :
  amounts_convert ps = true ->
  computeGoalForecast env (VObj ps)
    = let target := number_or_zero (read_prop ps "targetAmount") in
      let current := number_or_zero (read_prop ps "currentAmount") in
      let contrib := number_or_zero (read_prop ps "monthlyContribution") in
      let remaining := (target - current)%num in
      if (remaining <=? zero)%num || (contrib <=? zero)%num
      then Ok (mkForecast zero None)
      else
        let months := math_ceil (remaining / contrib)%num in
        do iso <- JSDate.isoDate
                    (JSDate.setMonth (tza env) (Some (now env))
                       (JSDate.getMonth (tza env) (Some (now env)) + months)%num);
        Ok (mkForecast months (Some iso)).
Proof.
  unfold amounts_convert. intros H.
  apply andb_true_iff in H as [H H3]. apply andb_true_iff in H as [H1 H2].
  apply negb_true_iff in H1. apply negb_true_iff in H2.
  apply negb_true_iff in H3.
  rewrite computeGoalForecast_object.
  rewrite (ToNumber_or_zero_returns _ H1). cbn [bind].
  rewrite (ToNumber_or_zero_returns _ H2). cbn [bind].
  rewrite (ToNumber_or_zero_returns _ H3). cbn [bind].
  reflexivity.
Qed.

(** When one of them does not, the forecaster raises a TypeError. *)
Lemma computeGoalForecast_unconverted (env : Env) (ps : list (string * value)) :
  amounts_convert ps = false ->
  computeGoalForecast env (VObj ps) = Throw TypeError.
Proof.
  unfold amounts_convert. intros H.
  rewrite computeGoalForecast_object.
  destruct (to_string_throws (read_prop ps "targetAmount")) eqn:H1.
  { now rewrite (ToNumber_or_zero_throws _ H1). }
  rewrite (ToNumber_or_zero_returns _ H1). cbn [bind].
  destruct (to_string_throws (read_prop ps "currentAmount")) eqn:H2.
  { now rewrite (ToNumber_or_zero_throws _ H2). }
  rewrite (ToNumber_or_zero_returns _ H2). cbn [bind].
  destruct (to_string_throws (read_prop ps "monthlyContribution")) eqn:H3.
  { now rewrite (ToNumber_or_zero_throws _ H3). }
  discriminate.
Qed.

Lemma computeGoalForecast_Ok_converts
  (env : Env) (ps : list (string * value)) (f : Forecast) :
  computeGoalForecast env (VObj ps) = Ok f ->
  amounts_convert ps = true.
Proof.
  intros H. destruct (amounts_convert ps) eqn:Hc; [reflexivity|].
  rewrite (computeGoalForecast_unconverted env ps Hc) in H. discriminate.
Qed.

Lemma isoDate_cases (d : JSDate.timeValue) :
  (exists s, JSDate.isoDate d = Ok s) \/ JSDate.isoDate d = Throw RangeError.
Proof.
  destruct d as [t|]; [left | right]; [|reflexivity].
  unfold JSDate.isoDate, JSDate.toISOString. simpl bind. eauto.
Qed.

(** The exceptions the forecaster raises on an object are the [TypeError]
    of a conversion and the [RangeError] of [toISOString]. *)
Lemma computeGoalForecast_object_cases (env : Env) (ps : list (string * value)) :
  (exists f, computeGoalForecast env (VObj ps) = Ok f) \/
  (amounts_convert ps = true /\
   computeGoalForecast env (VObj ps) = Throw RangeError) \/
  (amounts_convert ps = false /\
   computeGoalForecast env (VObj ps) = Throw TypeError).
Proof.
  destruct (amounts_convert ps) eqn:Hc.
  2:{ right. right. split; [reflexivity|].
      now apply computeGoalForecast_unconverted. }
  rewrite (computeGoalForecast_converted env ps Hc). cbv zeta.
  destruct (_ || _); [left; eauto|].
  destruct (isoDate_cases
              (JSDate.setMonth (tza env) (Some (now env))
                 (JSDate.getMonth (tza env) (Some (now env))
                  + math_ceil
                      ((number_or_zero (read_prop ps "targetAmount")
                        - number_or_zero (read_prop ps "currentAmount"))
                       / number_or_zero (read_prop ps "monthlyContribution")))%num))
    as [[s Hs]|Hs]; rewrite Hs; simpl; [left; eauto | right; left; now split].
Qed.

(** A contribution that coerces to 0, such as NaN, gives the steady state. *)
Lemma computeGoalForecast_no_contribution (env : Env) (ps : list (string * value)) :
  amounts_convert ps = true ->
  number_or_zero (read_prop ps "monthlyContribution") = zero ->
  computeGoalForecast env (VObj ps) = Ok (mkForecast zero None).
Proof.
  intros Hc H. rewrite (computeGoalForecast_converted env ps Hc).
  cbv zeta. rewrite H.
  replace (zero <=? zero)%num with true by reflexivity.
  now rewrite orb_true_r.
Qed.

(* ================================================================= *)
(** ** Plan Composer *)

Lemma chosen_contribution_read (perGoal : num) (goal : value) :
  read_prop (set_prop (own_props goal) "monthlyContribution"
                      (chosen_contribution perGoal goal))
            "monthlyContribution"
    = chosen_contribution perGoal goal.
Proof. apply read_set_prop_same. Qed.

(** The callback on a goal that is not [null] or [undefined]. *)
Lemma goalWithContrib_not_nullish (env : Env) (perGoal : num) (goal : value) :
  nullish goal = false ->
  goalWithContrib env perGoal goal
    = do f <- computeGoalForecast env
                (with_contribution goal (chosen_contribution perGoal goal));
      Ok (with_forecast goal (chosen_contribution perGoal goal) f).
Proof.
  intros H. unfold goalWithContrib.
  rewrite (get_field_not_nullish goal _ H). reflexivity.
Qed.

Lemma goalWithContrib_inv (env : Env) (perGoal : num) (goal out : value) :
  goalWithContrib env perGoal goal = Ok out ->
  nullish goal = false /\
  exists f,
    computeGoalForecast env
      (with_contribution goal (chosen_contribution perGoal goal)) = Ok f /\
    out = with_forecast goal (chosen_contribution perGoal goal) f.
Proof.
  intros H. destruct (nullish goal) eqn:Hn.
  - unfold goalWithContrib in H. rewrite (get_field_nullish goal _ Hn) in H.
    discriminate.
  - split; [reflexivity|].
    rewrite (goalWithContrib_not_nullish env perGoal goal Hn) in H.
    destruct (computeGoalForecast _ _) as [f|e]; simpl in H; [|discriminate].
    injection H as <-. now exists f.
Qed.

(** What a 200 response of the handler says about the request. *)
Lemma orbit_plan_Json_inv (env : Env) (body : value) (plan : Plan) :
  orbit_plan env body = Json plan ->
  let state := get_field_opt body "state" in
  let income := number_or_zero (get_field_opt state "income") in
  let cats := array_or_empty (get_field_opt state "categories") in
  let baseGoals := array_or_empty (get_field_opt state "goals") in
  is_structured state = true /\
  foldM add_planned cats zero = Ok (plannedSpending plan) /\
  categories plan = cats /\
  surplus plan = (income - plannedSpending plan)%num /\
  (if present (OPENAI_API_KEY env)
   then goals plan = baseGoals
   else mapM (goalWithContrib env
                (perGoalAmount (surplus plan) (List.length baseGoals)))
             baseGoals = Ok (goals plan)).
Proof.
  intros H state income cats baseGoals.
  unfold orbit_plan in H. fold state in H.
  rewrite is_structured_test in H.
  destruct (is_structured state) eqn:Hs; simpl in H; [|discriminate].
  split; [reflexivity|].
  unfold compose in H.
  rewrite !(get_field_not_nullish state _ (is_structured_not_nullish _ Hs)) in H.
  cbn [bind] in H.
  destruct (ToNumber_or_zero (get_field_opt state "income")) as [inc|e] eqn:Hi;
    cbn [bind] in H; [|discriminate].
  apply ToNumber_or_zero_Ok in Hi as [_ ->].
  fold income cats baseGoals in H.
  destruct (foldM add_planned cats zero) as [planned|e]; cbn [bind] in H;
    [|discriminate].
  destruct (present (OPENAI_API_KEY env)); cbn [negb] in H.
  - cbn [catching] in H. injection H as <-. simpl. repeat split.
  - destruct (mapM _ baseGoals) as [gs|e] eqn:Hm; cbn [bind catching] in H;
      [|discriminate].
    injection H as <-. simpl. repeat split. exact Hm.
Qed.

Lemma perGoalAmount_positive (baseSurplus : num) (goalCount : nat) :
  (baseSurplus >? zero)%num = true ->
  (0 < goalCount)%nat ->
  perGoalAmount baseSurplus goalCount
    = math_max (math_round ((baseSurplus * Fin (2 # 10)) / of_nat goalCount)%num)
               zero.
Proof.
  intros Hs Hn. unfold perGoalAmount. rewrite Hs.
  apply Nat.ltb_lt in Hn. now rewrite Hn.
Qed.

Lemma nth_error_length_pos {A : Type} (xs : list A) (i : nat) (x : A) :
  nth_error xs i = Some x -> (0 < List.length xs)%nat.
Proof. destruct xs; [destruct i; discriminate | simpl; lia]. Qed.

(** C1, as stated, fails: with income 5000, planned spending 4000 and two
    goals of which only the second lacks a contribution, that goal gets
    round(1000 * 0.2 / 2) = 100, not the round(1000 * 0.2 / 1) = 200 that
    dividing by the number of goals lacking a contribution would give. *)
Lemma default_divides_by_all_goals :
  exists (plan : Plan) (out : value) (n : num),
    orbit_plan env_demo body_mixed_goals = Json plan /\
    (surplus plan >? zero)%num = true /\
    nth_error (goals plan) 1 = Some out /\
    has_contribution goal_plain = false /\
    get_field out "monthlyContribution" = Ok (VNum n) /\
    (n == of_Z 100)%num /\
    (default_as_specified (surplus plan) [goal_explicit; goal_plain]
       == of_Z 200)%num /\
    ~ (n == default_as_specified (surplus plan) [goal_explicit; goal_plain])%num.
Proof.
  eexists. eexists. eexists.
  split; [vm_compute; reflexivity|].
  split; [reflexivity|].
  split; [reflexivity|].
  split; [reflexivity|].
  split; [reflexivity|].
  split; [reflexivity|].
  split; [reflexivity|].
  intros H. vm_compute in H. discriminate.
Qed.

(** C1, amended. In the fallback path (no OpenAI key), when the composer
    answers a plan whose surplus is above 0, every output goal stands at
    the position of its input goal; a goal whose [monthlyContribution] has
    type number keeps it unchanged, and every other goal is assigned
    max(round(surplus * 0.2 / goalCount), 0), where goalCount is the number
    of all goals of the budget state. *)
Theorem fallback_default_contribution (env : Env) (body : value) (plan : Plan) :
  present (OPENAI_API_KEY env) = false ->
  orbit_plan env body = Json plan ->
  (surplus plan >? zero)%num = true ->
  let state := get_field_opt body "state" in
  let baseGoals := array_or_empty (get_field_opt state "goals") in
  let default :=
    math_max (math_round ((surplus plan * Fin (2 # 10))
                          / of_nat (List.length baseGoals))%num) zero in
  List.length (goals plan) = List.length baseGoals /\
  forall (i : nat) (goal : value),
    nth_error baseGoals i = Some goal ->
    exists out : value,
      nth_error (goals plan) i = Some out /\
      get_field out "monthlyContribution"
        = Ok (if has_contribution goal
              then get_field_opt goal "monthlyContribution"
              else VNum default).
Proof.
  intros Hkey Hplan Hpos state baseGoals default.
  destruct (orbit_plan_Json_inv env body plan Hplan) as (_ & _ & _ & _ & Hg).
  rewrite Hkey in Hg. fold state baseGoals in Hg.
  destruct (mapM_nth _ _ _ Hg) as [Hlen Hnth].
  split; [exact Hlen|].
  intros i goal Hi. destruct (Hnth i goal Hi) as (out & Hout & Hcb).
  exists out. split; [exact Hout|].
  apply goalWithContrib_inv in Hcb as (_ & f & _ & ->).
  destruct (with_forecast_fields goal
              (chosen_contribution
                 (perGoalAmount (surplus plan) (List.length baseGoals)) goal) f)
    as (-> & _).
  unfold chosen_contribution, has_contribution.
  rewrite (perGoalAmount_positive _ _ Hpos (nth_error_length_pos _ _ _ Hi)).
  reflexivity.
Qed.

Lemma fallback_default_contribution_witness :
  exists out : value,
    nth_error
      [VObj [("targetAmount", VNum (of_Z 1200));
             ("monthlyContribution", VNum (of_Z 100));
             ("monthsToGoal", VNum (of_Z 12));
             ("projectedCompletionDate", VStr "2027-11-02")];
       VObj [("targetAmount", VNum (of_Z 600));
             ("monthlyContribution", VNum (of_Z 100));
             ("monthsToGoal", VNum (of_Z 6));
             ("projectedCompletionDate", VStr "2027-05-02")]] 0 = Some out /\
    get_field out "monthlyContribution" = Ok (VNum (of_Z 100)).
Proof.
  assert (orbit_plan env_demo body_two_goals
          = Json (mkPlan
                    [VObj [("planned", VNum (of_Z 4000))]]
                    [VObj [("targetAmount", VNum (of_Z 1200));
                           ("monthlyContribution", VNum (of_Z 100));
                           ("monthsToGoal", VNum (of_Z 12));
                           ("projectedCompletionDate", VStr "2027-11-02")];
                     VObj [("targetAmount", VNum (of_Z 600));
                           ("monthlyContribution", VNum (of_Z 100));
                           ("monthsToGoal", VNum (of_Z 6));
                           ("projectedCompletionDate", VStr "2027-05-02")]]
                    (Fin (1000 # 1)) (of_Z 4000) None
                    "Orbit used a simple rule-of-thumb plan (no AI key configured)."))
    as Hplan by (vm_compute; reflexivity).
  exact (proj2 (fallback_default_contribution env_demo body_two_goals _
                  eq_refl Hplan eq_refl)
               0%nat (VObj [("targetAmount", VNum (of_Z 1200))]) eq_refl).
Defined.

(** C2, as stated, fails: with an OpenAI key configured the composer echoes
    the goals as received, without [monthlyContribution], [monthsToGoal] or
    [projectedCompletionDate]. *)
Lemma keyed_goals_lack_forecast :
  exists (plan : Plan) (out : value),
    orbit_plan env_keyed body_two_goals = Json plan /\
    nth_error (goals plan) 0 = Some out /\
    get_field out "monthlyContribution" = Ok VUndefined /\
    get_field out "monthsToGoal" = Ok VUndefined /\
    get_field out "projectedCompletionDate" = Ok VUndefined.
Proof.
  eexists. eexists.
  split; [vm_compute; reflexivity|].
  repeat split; reflexivity.
Qed.

(** C2, amended. When the composer answers a plan in the fallback path (no
    OpenAI key), every output goal stands at the position of its input goal
    and is that goal's properties plus [monthlyContribution],
    [monthsToGoal] and [projectedCompletionDate], the last two being the
    result of the Goal Forecaster on the goal with that contribution.  With
    an OpenAI key the plan's goals are the input goals unchanged. *)
Theorem fallback_goals_carry_forecast (env : Env) (body : value) (plan : Plan) :
  orbit_plan env body = Json plan ->
  let state := get_field_opt body "state" in
  let baseGoals := array_or_empty (get_field_opt state "goals") in
  (present (OPENAI_API_KEY env) = false ->
   List.length (goals plan) = List.length baseGoals /\
   forall (i : nat) (goal : value),
     nth_error baseGoals i = Some goal ->
     exists (out mc : value) (f : Forecast),
       nth_error (goals plan) i = Some out /\
       computeGoalForecast env (with_contribution goal mc) = Ok f /\
       get_field out "monthlyContribution" = Ok mc /\
       get_field out "monthsToGoal" = Ok (VNum (monthsToGoal f)) /\
       get_field out "projectedCompletionDate"
         = Ok (date_value (projectedCompletionDate f)) /\
       forall k : string,
         derived_field k = false ->
         get_field out k = Ok (read_prop (own_props goal) k)) /\
  (present (OPENAI_API_KEY env) = true -> goals plan = baseGoals).
Proof.
  intros Hplan state baseGoals.
  destruct (orbit_plan_Json_inv env body plan Hplan) as (_ & _ & _ & _ & Hg).
  fold state baseGoals in Hg.
  split; intros Hkey; rewrite Hkey in Hg; [|exact Hg].
  destruct (mapM_nth _ _ _ Hg) as [Hlen Hnth].
  split; [exact Hlen|].
  intros i goal Hi. destruct (Hnth i goal Hi) as (out & Hout & Hcb).
  apply goalWithContrib_inv in Hcb as (_ & f & Hf & ->).
  eexists. eexists. exists f.
  split; [exact Hout|]. split; [exact Hf|].
  apply with_forecast_fields.
Qed.

Lemma fallback_goals_carry_forecast_witness :
  exists (out mc : value) (f : Forecast),
    nth_error
      [VObj [("targetAmount", VNum (of_Z 1200));
             ("monthlyContribution", VNum (of_Z 100));
             ("monthsToGoal", VNum (of_Z 12));
             ("projectedCompletionDate", VStr "2027-11-02")];
       VObj [("targetAmount", VNum (of_Z 600));
             ("monthlyContribution", VNum (of_Z 100));
             ("monthsToGoal", VNum (of_Z 6));
             ("projectedCompletionDate", VStr "2027-05-02")]] 1 = Some out /\
    computeGoalForecast env_demo
      (with_contribution (VObj [("targetAmount", VNum (of_Z 600))]) mc) = Ok f /\
    get_field out "monthlyContribution" = Ok mc /\
    get_field out "monthsToGoal" = Ok (VNum (monthsToGoal f)) /\
    get_field out "projectedCompletionDate"
      = Ok (date_value (projectedCompletionDate f)) /\
    forall k : string,
      derived_field k = false ->
      get_field out k
        = Ok (read_prop (own_props (VObj [("targetAmount", VNum (of_Z 600))])) k).
Proof.
  assert (orbit_plan env_demo body_two_goals
          = Json (mkPlan
                    [VObj [("planned", VNum (of_Z 4000))]]
                    [VObj [("targetAmount", VNum (of_Z 1200));
                           ("monthlyContribution", VNum (of_Z 100));
                           ("monthsToGoal", VNum (of_Z 12));
                           ("projectedCompletionDate", VStr "2027-11-02")];
                     VObj [("targetAmount", VNum (of_Z 600));
                           ("monthlyContribution", VNum (of_Z 100));
                           ("monthsToGoal", VNum (of_Z 6));
                           ("projectedCompletionDate", VStr "2027-05-02")]]
                    (Fin (1000 # 1)) (of_Z 4000) None
                    "Orbit used a simple rule-of-thumb plan (no AI key configured)."))
    as Hplan by (vm_compute; reflexivity).
  exact (proj2 (proj1 (fallback_goals_carry_forecast env_demo body_two_goals _
                         Hplan) eq_refl)
               1%nat (VObj [("targetAmount", VNum (of_Z 600))]) eq_refl).
Defined.




(** The same two goals through the handler: surplus 1000 and one goal give
    the default 200. *)
Example string_contribution_is_overwritten :
  orbit_plan env_demo (obj_state 5000 4000 [goal_string])
    = Json (mkPlan [VObj [("planned", VNum (of_Z 4000))]]
              [VObj [("targetAmount", VNum (of_Z 1200));
                     ("monthlyContribution", VNum (of_Z 200));
                     ("monthsToGoal", VNum (of_Z 6));
                     ("projectedCompletionDate", VStr "2027-05-02")]]
              (Fin (1000 # 1)) (of_Z 4000) None
              "Orbit used a simple rule-of-thumb plan (no AI key configured).").
Proof. vm_compute. reflexivity. Qed.

Example nan_contribution_is_preserved :
  orbit_plan env_demo (obj_state 5000 4000 [goal_nan])
    = Json (mkPlan [VObj [("planned", VNum (of_Z 4000))]]
              [VObj [("targetAmount", VNum (of_Z 1200));
                     ("monthlyContribution", VNum NaN);
                     ("monthsToGoal", VNum zero);
                     ("projectedCompletionDate", VNull)]]
              (Fin (1000 # 1)) (of_Z 4000) None
              "Orbit used a simple rule-of-thumb plan (no AI key configured).").
Proof. vm_compute. reflexivity. Qed.

(** The composer on a structured state whose income and planned amounts
    convert and whose categories are not [null] or [undefined]: the planned
    total is the plain sum. *)
Lemma compose_planned (env : Env) (state : value) :
  is_structured state = true ->
  let income := number_or_zero (get_field_opt state "income") in
  let cats := array_or_empty (get_field_opt state "categories") in
  let baseGoals := array_or_empty (get_field_opt state "goals") in
  let planned := planned_sum cats in
  let snapshot := match buildPlaidSnapshot env with
                  | Ok s => s
                  | Throw _ => None
                  end in
  to_string_throws (get_field_opt state "income") = false ->
  Forall (fun c => category_converts c = true) cats ->
  compose env state
    = if negb (present (OPENAI_API_KEY env))
      then
        do gs <- mapM (goalWithContrib env
                         (perGoalAmount (income - planned)
                                        (List.length baseGoals))) baseGoals;
        Ok (Json (mkPlan cats gs (income - planned)%num planned snapshot
                    "Orbit used a simple rule-of-thumb plan (no AI key configured)."))
      else
        Ok (Json (mkPlan cats baseGoals (income - planned)%num planned snapshot
                    "Orbit route is wired. (AI planning logic can be added next.)")).
Proof.
  intros Hs income cats baseGoals planned snapshot Hinc Hcats.
  unfold compose.
  rewrite !(get_field_not_nullish state _ (is_structured_not_nullish _ Hs)).
  cbn [bind]. rewrite (ToNumber_or_zero_returns _ Hinc). cbn [bind].
  fold income cats baseGoals.
  rewrite (foldM_add_planned cats Hcats zero). reflexivity.
Qed.

(** C9. Two requests whose budget state is a structured object are
    answered with status 500, neither with the status-400 rejection nor
    with a plan: a malformed nested field does not always coerce to a
    default.  With [categories] holding [null], reading [cat.planned]
    raises a TypeError; with an income that is an object with an own
    property [toString], [Number(state.income)] raises a TypeError.  The
    outcome is the same with and without an OpenAI key. *)
Theorem structured_state_answers_500 :
  is_structured (get_field_opt body_null_category "state") = true /\
  foldM add_planned [VNull] zero = Throw TypeError /\
  orbit_plan env_demo body_null_category
    = Error 500 "Failed to build Orbit plan" /\
  is_structured (get_field_opt body_unconvertible_income "state") = true /\
  ToNumber_or_zero unconvertible = Throw TypeError /\
  orbit_plan env_demo body_unconvertible_income
    = Error 500 "Failed to build Orbit plan" /\
  orbit_plan env_keyed body_null_category
    = Error 500 "Failed to build Orbit plan" /\
  orbit_plan env_keyed body_unconvertible_income
    = Error 500 "Failed to build Orbit plan".
Proof. repeat split; vm_compute; reflexivity. Qed.

(** The outcomes of the composer.  It
    answers the status-400 rejection exactly when the budget state is
    absent or not a structured object.  For a structured state, a missing
    or non-numeric income or planned amount counts as 0 and a missing or
    non-array [categories] or [goals] as the empty list, and the composer
    answers a plan provided the income converts, every element of
    [categories] is neither [null] nor [undefined] and has a planned
    amount that converts and, in the fallback path, no element of [goals]
    is [null] or [undefined] and every goal's forecast returns.  An income
    or a category that does not convert makes it answer status 500, and so
    does a [null] or [undefined] goal in the fallback path. *)
Lemma composer_validation_boundary (env : Env) (body : value) :
  let state := get_field_opt body "state" in
  let income := number_or_zero (get_field_opt state "income") in
  let cats := array_or_empty (get_field_opt state "categories") in
  let baseGoals := array_or_empty (get_field_opt state "goals") in
  let planned := planned_sum cats in
  let perGoal := perGoalAmount (income - planned) (List.length baseGoals) in
  (orbit_plan env body
     = Error 400 "Missing or invalid budget state in request body"
   <-> is_structured state = false) /\
  (is_structured state = true ->
   to_string_throws (get_field_opt state "income") = false ->
   Forall (fun c => category_converts c = true) cats ->
   (present (OPENAI_API_KEY env) = false ->
    Forall (fun g =>
              nullish g = false /\
              exists f,
                computeGoalForecast env
                  (with_contribution g (chosen_contribution perGoal g))
                  = Ok f) baseGoals) ->
   exists plan : Plan,
     orbit_plan env body = Json plan /\
     categories plan = cats /\
     plannedSpending plan = planned /\
     surplus plan = (income - planned)%num /\
     List.length (goals plan) = List.length baseGoals) /\
  (is_structured state = true ->
   to_string_throws (get_field_opt state "income") = true \/
   (exists c, In c cats /\ category_converts c = false) \/
   (to_string_throws (get_field_opt state "income") = false /\
    Forall (fun c => category_converts c = true) cats /\
    present (OPENAI_API_KEY env) = false /\
    exists g, In g baseGoals /\ nullish g = true) ->
   orbit_plan env body = Error 500 "Failed to build Orbit plan").
Proof.
  intros state income cats baseGoals planned perGoal.
  unfold orbit_plan. fold state. rewrite is_structured_test.
  split; [|split].
  - destruct (is_structured state) eqn:Hs; cbn [negb].
    + split; [|discriminate]. intros H. exfalso.
      unfold compose in H.
      rewrite !(get_field_not_nullish state _ (is_structured_not_nullish _ Hs))
        in H.
      cbn [bind] in H.
      destruct (ToNumber_or_zero _); cbn [bind catching] in H;
        [|discriminate].
      destruct (foldM add_planned _ zero); cbn [bind catching] in H;
        [|discriminate].
      destruct (negb (present (OPENAI_API_KEY env)));
        [|cbn [catching] in H; discriminate].
      destruct (mapM _ _); cbn [bind catching] in H; discriminate.
    + split; reflexivity.
  - intros Hs Hinc Hcats Hgoals. rewrite Hs. cbn [negb].
    rewrite (compose_planned env state Hs Hinc Hcats).
    fold income cats baseGoals planned perGoal.
    destruct (present (OPENAI_API_KEY env)) eqn:Hkey; cbn [negb].
    + cbn [catching]. eexists. repeat split.
    + destruct (mapM_all_ok (goalWithContrib env perGoal) baseGoals)
        as [gs Hgs].
      { specialize (Hgoals eq_refl).
        eapply Forall_impl; [|exact Hgoals].
        intros g [Hn [f Hf]]. cbv beta in Hn, Hf.
        rewrite (goalWithContrib_not_nullish env perGoal g Hn).
        rewrite Hf. cbn [bind]. eauto. }
      rewrite Hgs. cbn [bind catching]. eexists. repeat split.
      cbn [goals]. apply (mapM_nth _ _ _ Hgs).
  - intros Hs Hfail. rewrite Hs. cbn [negb].
    destruct Hfail as [Hinc | [Hc | (Hinc & Hcats & Hkey & g & Hin & Hg)]].
    + unfold compose.
      rewrite !(get_field_not_nullish state _ (is_structured_not_nullish _ Hs)).
      cbn [bind]. now rewrite (ToNumber_or_zero_throws _ Hinc).
    + unfold compose.
      rewrite !(get_field_not_nullish state _ (is_structured_not_nullish _ Hs)).
      cbn [bind]. fold cats.
      destruct (ToNumber_or_zero _); cbn [bind catching]; [|reflexivity].
      now rewrite (foldM_add_planned_throws cats Hc zero).
    + rewrite (compose_planned env state Hs Hinc Hcats).
      fold income cats baseGoals planned perGoal. rewrite Hkey. cbn [negb].
      destruct (mapM_throws (goalWithContrib env perGoal) baseGoals)
        as [e He].
      { exists g, TypeError. split; [exact Hin|].
        unfold goalWithContrib. now rewrite (get_field_nullish g _ Hg). }
      now rewrite He.
Qed.

Lemma composer_validation_boundary_example :
  exists plan : Plan,
    orbit_plan env_demo body_two_goals = Json plan /\
    categories plan = [VObj [("planned", VNum (of_Z 4000))]] /\
    plannedSpending plan = planned_sum [VObj [("planned", VNum (of_Z 4000))]] /\
    surplus plan
      = (of_Z 5000 - planned_sum [VObj [("planned", VNum (of_Z 4000))]])%num /\
    List.length (goals plan) = 2%nat.
Proof.
  apply (proj1 (proj2 (composer_validation_boundary env_demo body_two_goals))).
  - reflexivity.
  - reflexivity.
  - repeat constructor.
  - intros _. repeat constructor; eexists; vm_compute; reflexivity.
Defined.

(* ================================================================= *)
(** ** Calendar arithmetic *)

Module DateFacts.
Import JSDate.
Local Open Scope Z_scope.

(** [YearFromDay d] is the year whose days include day [d]. *)
Lemma YearFromDay_spec (d : Z) :
  DayFromYear (YearFromDay d) <= d < DayFromYear (YearFromDay d + 1).
Proof.
  unfold YearFromDay.
  destruct (Z.ltb_spec d (DayFromYear (1970 + d * 400 / 146097))) as [H1|H1].
  - unfold DayFromYear in *. Z.to_euclidean_division_equations. lia.
  - destruct (Z.leb_spec (DayFromYear (1970 + d * 400 / 146097 + 1)) d)
      as [H2|H2].
    + unfold DayFromYear in *. Z.to_euclidean_division_equations. lia.
    + lia.
Qed.

(** A year has [DaysInYear] days. *)
Lemma DayFromYear_succ (y : Z) :
  DayFromYear (y + 1) = DayFromYear y + DaysInYear y.
Proof.
  unfold DaysInYear, isLeapYear, DayFromYear.
  destruct (Z.eqb_spec (y mod 4) 0) as [H4|H4]; cbn [negb];
    [destruct (Z.eqb_spec (y mod 100) 0) as [H100|H100]; cbn [negb];
     [destruct (Z.eqb_spec (y mod 400) 0) as [H400|H400]|]|];
    Z.to_euclidean_division_equations; lia.
Qed.

Lemma DayWithinYear_range (t : Z) :
  0 <= DayWithinYear t < 365 + InLeapYear t.
Proof.
  unfold DayWithinYear, InLeapYear, YearFromTime.
  pose proof (YearFromDay_spec (Day t)) as H.
  rewrite DayFromYear_succ in H. unfold DaysInYear in H.
  destruct (isLeapYear _); lia.
Qed.

Lemma InLeapYear_range (t : Z) : 0 <= InLeapYear t <= 1.
Proof. unfold InLeapYear. destruct (isLeapYear _); lia. Qed.

Lemma MonthFromTime_range (t : Z) : 0 <= MonthFromTime t <= 11.
Proof.
  unfold MonthFromTime.
  repeat match goal with
         | |- context [if ?b then _ else _] => destruct b
         end; lia.
Qed.

Lemma DateFromTime_range (t : Z) : 1 <= DateFromTime t <= 31.
Proof.
  unfold DateFromTime, MonthFromTime.
  pose proof (DayWithinYear_range t) as Hd.
  pose proof (InLeapYear_range t) as Hl.
  repeat match goal with
         | |- context [Z.ltb ?a ?b] => destruct (Z.ltb_spec a b)
         end; cbn [DaysBeforeMonth]; lia.
Qed.

Lemma DaysBeforeMonth_range (leap m : Z) :
  0 <= leap <= 1 -> 0 <= DaysBeforeMonth leap m <= 335.
Proof.
  intros H. unfold DaysBeforeMonth.
  destruct m as [|p|p]; try lia.
  do 4 (destruct p as [p|p|]; try lia).
Qed.

Lemma DayFromYear_monotone (y y' : Z) :
  y <= y' -> DayFromYear y <= DayFromYear y'.
Proof.
  intros H. unfold DayFromYear. Z.to_euclidean_division_equations. lia.
Qed.

(** The year of a day between the first day of [lo] and the last of [hi]. *)
Lemma YearFromDay_between (d lo hi : Z) :
  DayFromYear lo <= d < DayFromYear (hi + 1) ->
  lo <= YearFromDay d <= hi.
Proof.
  intros [Hlo Hhi].
  pose proof (YearFromDay_spec d) as [H1 H2].
  split.
  - destruct (Z_le_gt_dec lo (YearFromDay d)) as [|Hgt]; [assumption|].
    pose proof (DayFromYear_monotone (YearFromDay d + 1) lo ltac:(lia)). lia.
  - destruct (Z_le_gt_dec (YearFromDay d) hi) as [|Hgt]; [assumption|].
    pose proof (DayFromYear_monotone (hi + 1) (YearFromDay d) ltac:(lia)). lia.
Qed.

Lemma is_digit_digit (n : Z) : is_digit (digit n) = true.
Proof.
  unfold digit.
  assert (0 <= n mod 10 < 10) as H by (apply Z.mod_pos_bound; lia).
  destruct (n mod 10) as [|p|p]; [reflexivity| |lia].
  do 4 (destruct p as [p|p|]; try reflexivity; try lia).
Qed.

(** The ISO date of a time in the years 0 to 9999 is a date-only value. *)
Lemma isoDate_date_only (t : Z) :
  TimeFromYear 0 <= t < TimeFromYear 10000 ->
  exists s, isoDate (Some t) = Ok s /\ is_date_only s = true.
Proof.
  intros Ht.
  assert (0 <= YearFromTime t <= 9999) as Hy.
  { apply YearFromDay_between. change (9999 + 1) with 10000.
    unfold TimeFromYear, Day, msPerDay in *.
    revert Ht. generalize (DayFromYear 0), (DayFromYear 10000). intros a b Ht.
    Z.to_euclidean_division_equations. lia. }
  unfold isoDate, toISOString, isoYear. cbn [bind].
  destruct (Z.leb_spec 0 (YearFromTime t)); [|lia].
  destruct (Z.leb_spec (YearFromTime t) 9999); [|lia].
  cbn [andb]. eexists. split; [reflexivity|].
  unfold pad4, pad3, pad2, Str.slice0.
  cbn [append substring is_date_only].
  rewrite !is_digit_digit. reflexivity.
Qed.

Lemma Qtrunc_add_Z (a b : Z) : Qtrunc (inject_Z a + inject_Z b)%Q = a + b.
Proof.
  rewrite <- inject_Z_plus. unfold Qtrunc.
  destruct (Qle_bool 0 (inject_Z (a + b))); [apply Qfloor_Z | apply Qceiling_Z].
Qed.

(** From a clock between 1970 and 2100, in a time zone whose offsets are
    at most a day, and at most 90000 months ahead, [setMonth] lands on a
    valid date in the years 0 to 9999. *)
Lemma setMonth_in_range (tza : Zone) (now k : Z) :
  0 <= now <= 4102444800000 ->
  (forall (t : Z) (isUTC : bool), - 86400000 <= tza t isUTC <= 86400000) ->
  0 <= k <= 90000 ->
  exists t : Z,
    setMonth tza (Some now) (getMonth tza (Some now) + of_Z k)%num = Some t /\
    TimeFromYear 0 <= t < TimeFromYear 10000.
Proof.
  intros Hnow Hzone Hk.
  unfold setMonth, getMonth, MakeDay, of_Z, Num.add, LocalTime, UTC, MakeDate.
  rewrite Qtrunc_add_Z.
  pose proof (Hzone now true) as Htza.
  set (t0 := now + tza now true).
  pose proof (MonthFromTime_range t0) as Hm.
  pose proof (DateFromTime_range t0) as Hd.
  assert (1969 <= YearFromTime t0 <= 2100) as Hy.
  { apply YearFromDay_between.
    change (DayFromYear 1969) with (-365).
    change (DayFromYear (2100 + 1)) with 47847.
    unfold Day, msPerDay. subst t0. Z.to_euclidean_division_equations. lia. }
  set (ym := YearFromTime t0 + (MonthFromTime t0 + k) / 12).
  assert (1969 <= ym <= 9601) as Hym
    by (subst ym; Z.to_euclidean_division_equations; lia).
  pose proof (DayFromYear_monotone 1969 ym ltac:(lia)) as Hlo.
  pose proof (DayFromYear_monotone ym 9601 ltac:(lia)) as Hhi.
  change (DayFromYear 1969) with (-365) in Hlo.
  change (DayFromYear 9601) with 2787166 in Hhi.
  pose proof (DaysBeforeMonth_range (if isLeapYear ym then 1 else 0)
                ((MonthFromTime t0 + k) mod 12)
                ltac:(destruct (isLeapYear ym); lia)) as Hb.
  assert (0 <= TimeWithinDay t0 < 86400000) as Hw
    by (apply Z.mod_pos_bound; reflexivity).
  match goal with
  | |- context [tza ?l false] =>
      pose proof (Hzone l false) as Hback; set (back := tza l false) in *
  end.
  eexists. unfold TimeClip, maxTime, msPerDay in *.
  match goal with
  | |- context [Z.leb ?a ?b] => destruct (Z.leb_spec a b) as [Hc|Hc]
  end.
  - split; [reflexivity|].
    unfold TimeFromYear, msPerDay.
    change (DayFromYear 0) with (-719528).
    change (DayFromYear 10000) with 2932897.
    lia.
  - exfalso. lia.
Qed.

End DateFacts.

(* ================================================================= *)
(** ** The forecast within the range of dates *)

Lemma Qle_bool_false (a b : Q) : (b < a)%Q -> Qle_bool a b = false.
Proof.
  intros H. apply not_true_is_false. intros Hle.
  apply Qle_bool_iff in Hle. apply (Qlt_not_le _ _ H Hle).
Qed.

Lemma Qeq_bool_false_pos (m : Q) : (0 < m)%Q -> Qeq_bool m 0 = false.
Proof.
  intros H. apply not_true_is_false. intros Heq.
  apply Qeq_bool_iff in Heq. rewrite Heq in H. now apply Qlt_irrefl in H.
Qed.

Lemma Qceiling_pos (q : Q) : (0 < q)%Q -> 1 <= Qceiling q.
Proof.
  intros H. pose proof (Qle_ceiling q) as Hc.
  assert (0 < Qceiling q); [|lia].
  rewrite Zlt_Qlt. now apply (Qlt_le_trans _ q).
Qed.

(** Goal already met, or no contribution: the steady state. *)
Lemma computeGoalForecast_steady (env : Env) (ps : list (string * value)) :
  let target := number_or_zero (read_prop ps "targetAmount") in
  let current := number_or_zero (read_prop ps "currentAmount") in
  let contrib := number_or_zero (read_prop ps "monthlyContribution") in
  amounts_convert ps = true ->
  (target - current <=? zero)%num = true \/ (contrib <=? zero)%num = true ->
  computeGoalForecast env (VObj ps) = Ok (mkForecast zero None).
Proof.
  intros target current contrib Hconv H.
  rewrite (computeGoalForecast_converted env ps Hconv).
  cbv zeta. fold target current contrib.
  replace ((target - current <=? zero)%num || (contrib <=? zero)%num)
    with true; [reflexivity|].
  symmetry. apply orb_true_iff. exact H.
Qed.

(** Otherwise the number of months is the ceiling of remaining over
    contribution, at least 1, and the date is [now] advanced by as many
    months. *)
Lemma computeGoalForecast_months
  (env : Env) (ps : list (string * value)) (t c m : Q) :
  amounts_convert ps = true ->
  number_or_zero (read_prop ps "targetAmount") = Fin t ->
  number_or_zero (read_prop ps "currentAmount") = Fin c ->
  number_or_zero (read_prop ps "monthlyContribution") = Fin m ->
  (c < t)%Q -> (0 < m)%Q ->
  let months := Qceiling ((t - c) / m) in
  1 <= months /\
  computeGoalForecast env (VObj ps)
    = do iso <- JSDate.isoDate
                  (JSDate.setMonth (tza env) (Some (now env))
                     (JSDate.getMonth (tza env) (Some (now env)) + of_Z months)%num);
      Ok (mkForecast (of_Z months) (Some iso)).
Proof.
  intros Hconv Ht Hc Hm Hlt Hpos months.
  assert (0 < t - c)%Q as Hrem by lra.
  split.
  - apply Qceiling_pos. apply Qlt_shift_div_l; [exact Hpos | lra].
  - rewrite (computeGoalForecast_converted env ps Hconv).
    cbv zeta. rewrite Ht, Hc, Hm.
    unfold Num.sub, Num.neg, Num.add, Num.leb, Num.zero, Num.div.
    rewrite (Qle_bool_false (t + - c) 0 Hrem), (Qle_bool_false m 0 Hpos).
    rewrite (Qeq_bool_false_pos m Hpos). reflexivity.
Qed.

(** The second example of the specification: target 1000, current 400,
    contribution 150 leave 600 to save, four months. *)
Example forecast_four_months :
  computeGoalForecast env_demo
    (VObj [("targetAmount", VNum (of_Z 1000)); ("currentAmount", VNum (of_Z 400));
           ("monthlyContribution", VNum (of_Z 150))])
    = Ok (mkForecast (of_Z 4) (Some "2027-03-02")).
Proof. vm_compute. reflexivity. Qed.

(** A goal already met gives the steady state whatever the contribution. *)
Example forecast_goal_met :
  computeGoalForecast env_demo
    (VObj [("targetAmount", VNum (of_Z 500)); ("currentAmount", VNum (of_Z 500));
           ("monthlyContribution", VNum (of_Z 150))])
    = Ok (mkForecast zero None).
Proof. vm_compute. reflexivity. Qed.

(* ================================================================= *)
(** ** The forecast beyond the range of dates *)

(** C5. With the clock at 2026-11-02, the forecast of target 1200, current
    0, contribution 100 is 12 months and the date 2027-11-02; the forecast
    of target 5000000, current 0, contribution 1, whose 5000000 months end
    beyond the last representable date, raises [RangeError] instead of
    returning [monthsToGoal] and a completion date. *)
Theorem forecast_raises_beyond_date_range :
  computeGoalForecast env_demo goal_1200
    = Ok (mkForecast (of_Z 12) (Some "2027-11-02")) /\
  computeGoalForecast env_demo goal_far = Throw RangeError.
Proof. split; vm_compute; reflexivity. Qed.

(* ================================================================= *)
(** ** Accounts and the sandbox connection *)

Lemma or_else_not_empty (a : option string) (b : string) :
  b <> "" -> or_else a b <> "".
Proof.
  intros Hb. unfold or_else, present. destruct a as [x|]; [|exact Hb].
  destruct (String.eqb_spec x ""); simpl; [exact Hb | assumption].
Qed.

(** X1. [mapAccounts] keeps the accounts in number, order and id, and
    never hands out an empty name, type or currency; the balance is the
    current balance whenever there is one, even when it is 0, the
    available balance only when there is no current one, and 0 when there
    is neither. *)
Theorem mapAccounts_defaults (accounts : list Account.t) :
  List.length (mapAccounts accounts) = List.length accounts /\
  forall (i : nat) (a : Account.t),
    nth_error accounts i = Some a ->
    exists m : Mapped.t,
      nth_error (mapAccounts accounts) i = Some m /\
      Mapped.id m = Account.account_id a /\
      Mapped.name m <> "" /\ Mapped.type m <> "" /\ Mapped.currency m <> "" /\
      (forall c, Account.current a = Some c -> Mapped.balance m = c) /\
      (forall v, Account.current a = None -> Account.available a = Some v ->
                 Mapped.balance m = v) /\
      (Account.current a = None -> Account.available a = None ->
       Mapped.balance m = zero).
Proof.
  unfold mapAccounts. split; [apply length_map|].
  intros i a Hi. exists (mapAccount a).
  split; [now apply map_nth_error|].
  unfold mapAccount; cbn [Mapped.id Mapped.name Mapped.type Mapped.currency
                          Mapped.balance].
  repeat split.
  - destruct (present (Account.name a)) eqn:Hp.
    + unfold present in Hp. destruct (Account.name a) as [x|]; [|discriminate].
      simpl. intros ->. discriminate.
    + now apply or_else_not_empty.
  - now apply or_else_not_empty.
  - now apply or_else_not_empty.
  - intros c ->. reflexivity.
  - intros v -> ->. reflexivity.
  - intros -> ->. reflexivity.
Qed.

Lemma mapAccounts_defaults_witness :
  exists m : Mapped.t,
    nth_error (mapAccounts [account_zero; account_bare]) 0 = Some m /\
    Mapped.id m = "acc-1" /\
    Mapped.name m <> "" /\ Mapped.type m <> "" /\ Mapped.currency m <> "" /\
    (forall c, Some zero = Some c -> Mapped.balance m = c) /\
    (forall v, Some zero = None -> Some (of_Z 250) = Some v ->
               Mapped.balance m = v) /\
    (Some zero = None -> Some (of_Z 250) = None -> Mapped.balance m = zero).
Proof.
  exact (proj2 (mapAccounts_defaults [account_zero; account_bare])
               0%nat account_zero eq_refl).
Defined.

Lemma totalBalance_fold_finite (accounts : list Mapped.t) :
  Forall (fun a => forall s, Mapped.balance a <> Inf s) accounts ->
  forall q : Q,
  exists q' : Q,
    fold_left (fun sum a => (sum + Num.or_zero (Mapped.balance a))%num)
              accounts (Fin q) = Fin q'.
Proof.
  induction 1 as [|a rest Ha _ IH]; intros q; simpl; [now exists q|].
  destruct (Mapped.balance a) as [x|s|] eqn:Hb.
  - unfold Num.or_zero, Num.truthy. destruct (negb _); simpl; apply IH.
  - now destruct (Ha s).
  - simpl. apply IH.
Qed.

Lemma add_zero_r (a : num) : (a + zero == a)%num.
Proof. destruct a as [x|s|]; simpl; try easy. apply Qplus_0_r. Qed.

Lemma totalBalance_fold_eqv (accounts : list Mapped.t) :
  forall m m' : num,
    (m == m')%num ->
    (fold_left (fun sum a => (sum + Num.or_zero (Mapped.balance a))%num)
               accounts m
     == fold_left (fun sum a => (sum + Num.or_zero (Mapped.balance a))%num)
                  accounts m')%num.
Proof.
  induction accounts as [|a rest IH]; intros m m' H; cbn [fold_left];
    [exact H|].
  apply IH. now rewrite H.
Qed.

(** X2. An account whose balance is NaN or 0 adds nothing to
    [totalBalance]: the total is that of the other accounts, wherever the
    account stands in the list.  When, besides, none of the other balances
    is infinite, the total is not NaN. *)
Theorem totalBalance_ignores_nan (before after : list Mapped.t) (a : Mapped.t) :
  Num.truthy (Mapped.balance a) = false ->
  (totalBalance (before ++ a :: after)%list
     == totalBalance (before ++ after)%list)%num /\
  (Forall (fun b => forall s, Mapped.balance b <> Inf s) (before ++ after)%list ->
   totalBalance (before ++ a :: after)%list <> NaN).
Proof.
  intros Ha. split.
  - unfold totalBalance. rewrite !fold_left_app. cbn [fold_left].
    apply totalBalance_fold_eqv.
    unfold Num.or_zero. rewrite Ha. apply add_zero_r.
  - intros Hall.
    destruct (totalBalance_fold_finite (before ++ a :: after)%list) with (q := 0%Q)
      as [q Hq].
    { apply Forall_app in Hall as [H1 H2]. apply Forall_app. split; [exact H1|].
      constructor; [|exact H2].
      intros s Hs. rewrite Hs in Ha. discriminate. }
    unfold totalBalance, zero. rewrite Hq. discriminate.
Qed.

Lemma totalBalance_ignores_nan_witness :
  (totalBalance [Mapped.mk "b" "B" "other" "" (of_Z 40) "USD";
                 Mapped.mk "a" "A" "other" "" NaN "USD";
                 Mapped.mk "c" "C" "other" "" (of_Z 2) "USD"]
   == totalBalance [Mapped.mk "b" "B" "other" "" (of_Z 40) "USD";
                    Mapped.mk "c" "C" "other" "" (of_Z 2) "USD"])%num /\
  totalBalance [Mapped.mk "b" "B" "other" "" (of_Z 40) "USD";
                Mapped.mk "a" "A" "other" "" NaN "USD";
                Mapped.mk "c" "C" "other" "" (of_Z 2) "USD"] <> NaN.
Proof.
  pose proof (totalBalance_ignores_nan
                [Mapped.mk "b" "B" "other" "" (of_Z 40) "USD"]
                [Mapped.mk "c" "C" "other" "" (of_Z 2) "USD"]
                (Mapped.mk "a" "A" "other" "" NaN "USD") eq_refl) as [H1 H2].
  split; [exact H1|].
  apply H2. repeat constructor; cbn; intros s; discriminate.
Defined.

Example totalBalance_with_nan :
  totalBalance [Mapped.mk "b" "B" "other" "" (of_Z 40) "USD";
                Mapped.mk "a" "A" "other" "" NaN "USD";
                Mapped.mk "c" "C" "other" "" (of_Z 2) "USD"] = of_Z 42.
Proof. vm_compute. reflexivity. Qed.

(** X3. [sandbox_connect] answers the mapped accounts and their total only
    when all three Plaid calls succeed, and then [lastAccessToken] holds the
    exchanged access token.  When the balance call fails after the
    exchange, the answer is status 500 but [lastAccessToken] already holds
    the new access token; when the public token or the exchange fails,
    [lastAccessToken] keeps its value. *)
Theorem sandbox_connect_token (client : PlaidClient) (token : option string) :
  let after := fst (sandbox_connect client token) in
  let resp := snd (sandbox_connect client token) in
  (forall body,
      resp = Json body ->
      exists public_token access_token accts,
        sandboxPublicTokenCreate client = Ok public_token /\
        itemPublicTokenExchange client public_token = Ok access_token /\
        accountsBalanceGet client access_token = Ok accts /\
        after = Some access_token /\
        body = (mapAccounts accts, totalBalance (mapAccounts accts))) /\
  (forall public_token access_token e,
      sandboxPublicTokenCreate client = Ok public_token ->
      itemPublicTokenExchange client public_token = Ok access_token ->
      accountsBalanceGet client access_token = Throw e ->
      after = Some access_token /\
      resp = Error 500 "Unable to connect sandbox accounts") /\
  ((exists e, sandboxPublicTokenCreate client = Throw e) \/
   (exists public_token e,
       sandboxPublicTokenCreate client = Ok public_token /\
       itemPublicTokenExchange client public_token = Throw e) ->
   after = token /\ resp = Error 500 "Unable to connect sandbox accounts").
Proof.
  intros after resp. subst after resp.
  unfold sandbox_connect, exchangeAndFetch.
  split; [|split].
  - intros body.
    destruct (sandboxPublicTokenCreate client) as [pt|e]; cbn; [|discriminate].
    destruct (itemPublicTokenExchange client pt) as [tok|e] eqn:Hx; cbn;
      [|discriminate].
    destruct (accountsBalanceGet client tok) as [accts|e] eqn:Hb; cbn;
      [|discriminate].
    intros H. injection H as <-. now exists pt, tok, accts.
  - intros pt tok e -> Hx Hb. rewrite Hx, Hb. cbn. now split.
  - intros [[e ->]|(pt & e & -> & Hx)]; [|rewrite Hx]; cbn; now split.
Qed.

Lemma sandbox_connect_token_witness :
  fst (sandbox_connect client_no_balance None) = Some "access-sandbox-1" /\
  snd (sandbox_connect client_no_balance None)
    = Error 500 "Unable to connect sandbox accounts".
Proof.
  exact (proj1 (proj2 (sandbox_connect_token client_no_balance None))
               "public-sandbox-1" "access-sandbox-1" ApiError
               eq_refl eq_refl eq_refl).
Defined.

(** X4. Once [sandbox_connect] has left a non-empty access token in
    [lastAccessToken], the listing no longer answers its demo list: it
    answers the normalization of what Plaid resolves with, or status
    500. *)
Theorem connected_listing_is_live
  (client : PlaidClient) (env : Env) (days : value) :
  present (fst (sandbox_connect client None)) = true ->
  lastAccessToken env = fst (sandbox_connect client None) ->
  plaid_transactions env days <> Json demo_transactions /\
  ((exists txs, plaid_transactions env days = Json (map normalize txs)) \/
   plaid_transactions env days = Error 500 "Failed to fetch transactions").
Proof.
  intros Hp Htok. rewrite <- Htok in Hp.
  destruct (plaid_transactions_cases env days) as [[Hno _]|[_ Hlive]];
    [congruence|].
  split; [|exact Hlive].
  destruct Hlive as [[txs ->] | ->]; [|discriminate].
  intros H. injection H as H.
  assert (In (Listed.mk (Some "tx2") "Rent" (Some "2025-12-01")
                        (of_Z (-1600)) "bill") (map normalize txs)) as Hin
    by (rewrite H; right; left; reflexivity).
  apply in_map_iff in Hin as (tx & Htx & _).
  destruct (normalize_type_and_sign tx) as [(Ht & _)|(Ht & _)];
    rewrite Htx in Ht; discriminate.
Qed.

Lemma connected_listing_is_live_witness :
  plaid_transactions env_live VUndefined <> Json demo_transactions /\
  ((exists txs, plaid_transactions env_live VUndefined
                = Json (map normalize txs)) \/
   plaid_transactions env_live VUndefined
     = Error 500 "Failed to fetch transactions").
Proof.
  exact (connected_listing_is_live client_ok env_live VUndefined
           eq_refl eq_refl).
Defined.

(* ================================================================= *)
(** ** The authentication middleware *)

Lemma substring_all (s : string) : substring 0 (String.length s) s = s.
Proof. induction s as [|c r IH]; simpl; [reflexivity | now rewrite IH]. Qed.

Lemma prefix_split (p s : string) :
  prefix p s = true ->
  s = p ++ substring (String.length p) (String.length s - String.length p) s.
Proof.
  revert s. induction p as [|a p IH]; intros s H.
  - cbn. now rewrite Nat.sub_0_r, substring_all.
  - destruct s as [|b s]; [discriminate|]. cbn in H.
    destruct (ascii_dec a b) as [->|]; [|discriminate].
    cbn. f_equal. now apply IH.
Qed.

Lemma prefix_append (p t : string) :
  prefix p (p ++ t) = true /\
  substring (String.length p) (String.length (p ++ t) - String.length p)
            (p ++ t) = t.
Proof.
  induction p as [|a p [IH1 IH2]]; cbn.
  - split; [now destruct t|]. now rewrite Nat.sub_0_r, substring_all.
  - destruct (ascii_dec a a); [|congruence]. now split.
Qed.

Lemma bearer_token_spec (auth token : string) :
  bearer_token auth = Some token <-> auth = "Bearer " ++ token.
Proof.
  unfold bearer_token. split.
  - destruct (prefix "Bearer " auth) eqn:Hp; [|discriminate].
    intros H. injection H as <-. now apply (prefix_split "Bearer " auth).
  - intros ->. destruct (prefix_append "Bearer " token) as [-> H].
    f_equal. exact H.
Qed.

(** X5. [requireUser] lets a request through exactly when its
    [Authorization] header is "Bearer " followed by a non-empty token for
    which Supabase resolves with a user and no error, and [req.user] is
    that user; every other request, including one on which Supabase
    rejects, is answered with status 401. *)
Theorem requireUser_accepts_iff
  (getUser : string -> result GetUser) (authorization : option string) :
  (forall user : User,
      requireUser getUser authorization = Next user <->
      exists token r,
        token <> "" /\
        authorization = Some ("Bearer " ++ token) /\
        getUser token = Ok r /\ error r = None /\ data_user r = Some user) /\
  ((exists user, requireUser getUser authorization = Next user) \/
   (exists msg, requireUser getUser authorization = Halt 401 msg)).
Proof.
  assert (forall t, authorization = Some ("Bearer " ++ t) <->
                    bearer_token (or_empty authorization) = Some t) as K.
  { intros t. rewrite bearer_token_spec.
    destruct authorization as [a|]; simpl; split; intros H;
      try discriminate; congruence. }
  unfold requireUser. rewrite or_else_empty.
  assert (forall (user : User) (P : Prop),
             (forall token r,
                 token <> "" ->
                 bearer_token (or_empty authorization) = Some token ->
                 getUser token = Ok r -> error r = None ->
                 data_user r = Some user -> P) ->
             (exists token r,
                 token <> "" /\
                 authorization = Some ("Bearer " ++ token) /\
                 getUser token = Ok r /\ error r = None /\
                 data_user r = Some user) -> P) as E.
  { intros user P H (t & r & Hne & Ha & Hg & He & Hu).
    apply (H t r); try assumption. now apply K. }
  destruct (bearer_token (or_empty authorization)) as [token|] eqn:Hb;
    cbn [present negb or_empty].
  - destruct (String.eqb_spec token "") as [He|Hne]; cbn [negb].
    + split; [|right; eauto]. intros user. split; [discriminate|].
      apply E. intros t r Ht Hbt _ _ _. congruence.
    + destruct (getUser token) as [r|e] eqn:Hg.
      * destruct (error r) as [err|] eqn:He;
          [|destruct (data_user r) as [u|] eqn:Hu].
        -- split; [|right; eauto]. intros user. split; [discriminate|].
           apply E. intros t r' _ Hbt Hg' He' _.
           injection Hbt as <-. congruence.
        -- split; [|left; eauto]. intros user. split.
           ++ intros H. injection H as <-. exists token, r.
              repeat split; try assumption. now apply K.
           ++ apply E. intros t r' _ Hbt Hg' _ Hu'.
              injection Hbt as <-. congruence.
        -- split; [|right; eauto]. intros user. split; [discriminate|].
           apply E. intros t r' _ Hbt Hg' _ Hu'.
           injection Hbt as <-. congruence.
      * split; [|right; eauto]. intros user. split; [discriminate|].
        apply E. intros t r' _ Hbt Hg' _ _.
        injection Hbt as <-. congruence.
  - split; [|right; eauto]. intros user. split; [discriminate|].
    apply E. intros t r _ Hbt _ _ _. discriminate.
Qed.

Lemma requireUser_accepts_iff_witness :
  requireUser getUser_one (Some "Bearer jwt-1") = Next (mkUser "user-1").
Proof.
  apply (proj1 (requireUser_accepts_iff getUser_one (Some "Bearer jwt-1"))
               (mkUser "user-1")).
  exists "jwt-1", (mkGetUser None (Some (mkUser "user-1"))).
  repeat split; discriminate.
Defined.

(* ================================================================= *)
(** ** The totals of the snapshot *)

#[export] Instance neg_Proper : Proper (Num.eqv ==> Num.eqv) Num.neg.
Proof.
  intros [x|s|] [y|s'|] H; simpl in *; try easy;
    [now rewrite H | now subst].
Qed.

Lemma neg_add (a b : num) : (Num.neg (a + b) == Num.neg a + Num.neg b)%num.
Proof.
  destruct a as [x|s|], b as [y|s'|]; simpl; try easy;
    [apply Qopp_plus | now destruct s, s'].
Qed.

Lemma nonneg_zero : Num.nonneg zero.
Proof. simpl. apply Qle_refl. Qed.

Lemma nonneg_add (a b : num) :
  Num.nonneg a -> Num.nonneg b -> Num.nonneg (a + b)%num.
Proof.
  destruct a as [x|s|], b as [y|s'|]; simpl; try easy.
  - intros Hx Hy.
    apply (Qle_trans _ (0 + 0)); [apply Qle_refl | now apply Qplus_le_compat].
  - intros -> ->. reflexivity.
Qed.

Lemma nonneg_add_to (ct : CategoryTotals) (core : CoreCategory) (amt : num) :
  (forall c, Num.nonneg (total_of ct c)) -> Num.nonneg amt ->
  forall c, Num.nonneg (total_of (add_to ct core amt) c).
Proof.
  intros Hct Hamt c. rewrite total_of_add_to.
  destruct (CoreCategory_eqb core c); [apply nonneg_add|]; auto.
Qed.

Lemma fold_snapshot_nonneg (txs : list RawTx.t) :
  forall a : Acc,
    (Num.nonneg (totalIncome a) /\ Num.nonneg (totalSpending a) /\
     forall c, Num.nonneg (total_of (categoryTotals a) c)) ->
    Num.nonneg (totalIncome (fold_left snapshot_step txs a)) /\
    Num.nonneg (totalSpending (fold_left snapshot_step txs a)) /\
    forall c, Num.nonneg (total_of (categoryTotals (fold_left snapshot_step txs a)) c).
Proof.
  induction txs as [|tx rest IH]; intros a (Hi & Hs & Hc); cbn [fold_left];
    [auto|].
  apply IH. unfold snapshot_step.
  pose proof (abs_amount_nonneg (RawTx.amount tx)) as Hamt.
  destruct (isIncome _ _); cbn [totalIncome totalSpending categoryTotals].
  - split; [now apply nonneg_add|]. now split.
  - split; [exact Hi|]. split; [now apply nonneg_add|].
    now apply nonneg_add_to.
Qed.

(** X6. Whatever the amounts received (missing, non-numeric, negative),
    no total of the snapshot is NaN or negative: the income total, the
    spending total and each of the six category totals are numbers at
    least 0. *)
Theorem snapshot_totals_nonneg
  (txs : list RawTx.t) (startDate endDate : string) :
  let s := aggregate txs startDate endDate in
  Num.nonneg (totalIncomeEstimate s) /\
  Num.nonneg (totalSpendingEstimate s) /\
  forall c : CoreCategory, Num.nonneg (total_of (snapCategoryTotals s) c).
Proof.
  intros s. subst s. unfold aggregate, snapshot_loop.
  cbn [totalIncomeEstimate totalSpendingEstimate snapCategoryTotals].
  apply fold_snapshot_nonneg. cbn.
  split; [apply Qle_refl|]. split; [apply Qle_refl|].
  intros []; apply Qle_refl.
Qed.

Lemma fold_snapshot_magnitude (txs : list RawTx.t) :
  forall (a : Acc) (m : num),
    (totalIncome a + totalSpending a == m)%num ->
    (totalIncome (fold_left snapshot_step txs a)
     + totalSpending (fold_left snapshot_step txs a)
     == fold_left (fun sum tx =>
                     (sum + math_abs (number_or_zero (RawTx.amount tx)))%num)
                  txs m)%num.
Proof.
  induction txs as [|tx rest IH]; intros a m H; cbn [fold_left]; [exact H|].
  apply IH. unfold snapshot_step.
  destruct (isIncome _ _); cbn [totalIncome totalSpending]; rewrite <- H;
    aac_reflexivity.
Qed.

(** X7. Every transaction is counted once: the income total and the
    spending total of the snapshot add up to the sum of the magnitudes of
    all the amounts. *)
Theorem income_plus_spending_is_total_magnitude
  (txs : list RawTx.t) (startDate endDate : string) :
  let s := aggregate txs startDate endDate in
  (totalIncomeEstimate s + totalSpendingEstimate s == total_magnitude txs)%num.
Proof.
  intros s. subst s. unfold aggregate, snapshot_loop, total_magnitude.
  cbn [totalIncomeEstimate totalSpendingEstimate].
  apply fold_snapshot_magnitude. reflexivity.
Qed.

Lemma same_totals_refl (a : Acc) : same_totals a a.
Proof. repeat split; try reflexivity. intros c. reflexivity. Qed.

Lemma same_totals_trans (a b c : Acc) :
  same_totals a b -> same_totals b c -> same_totals a c.
Proof.
  intros (H1 & H2 & H3) (K1 & K2 & K3). repeat split.
  - intros x. now rewrite (H1 x).
  - now rewrite H2.
  - now rewrite H3.
Qed.

Lemma snapshot_step_same_totals (a b : Acc) (tx : RawTx.t) :
  same_totals a b -> same_totals (snapshot_step a tx) (snapshot_step b tx).
Proof.
  intros (Hc & Hi & Hs). unfold snapshot_step.
  destruct (isIncome _ _); repeat split;
    cbn [categoryTotals totalIncome totalSpending]; try assumption;
    try (now rewrite Hi); try (now rewrite Hs).
  intros c. rewrite !total_of_add_to.
  destruct (CoreCategory_eqb _ c); [now rewrite (Hc c) | apply Hc].
Qed.

Lemma snapshot_step_swap (a : Acc) (x y : RawTx.t) :
  same_totals (snapshot_step (snapshot_step a x) y)
              (snapshot_step (snapshot_step a y) x).
Proof.
  unfold snapshot_step.
  destruct (isIncome (primary_label x) _), (isIncome (primary_label y) _);
    repeat split; cbn [categoryTotals totalIncome totalSpending];
    try reflexivity; try aac_reflexivity;
    intros c; rewrite ?total_of_add_to; try reflexivity;
    repeat match goal with
           | |- context [CoreCategory_eqb ?u ?v] => destruct (CoreCategory_eqb u v)
           end; try reflexivity; aac_reflexivity.
Qed.

Lemma fold_snapshot_same_totals (txs : list RawTx.t) :
  forall a b : Acc,
    same_totals a b ->
    same_totals (fold_left snapshot_step txs a) (fold_left snapshot_step txs b).
Proof.
  induction txs as [|tx rest IH]; intros a b H; cbn [fold_left]; [exact H|].
  apply IH. now apply snapshot_step_same_totals.
Qed.

Lemma fold_snapshot_permutation (txs txs' : list RawTx.t) :
  Permutation txs txs' ->
  forall a : Acc,
    same_totals (fold_left snapshot_step txs a)
                (fold_left snapshot_step txs' a).
Proof.
  induction 1 as [|x l l' _ IH|x y l|l l' l'' _ IH1 _ IH2]; intros a;
    cbn [fold_left].
  - apply same_totals_refl.
  - apply IH.
  - apply fold_snapshot_same_totals. apply snapshot_step_swap.
  - eapply same_totals_trans; [apply IH1 | apply IH2].
Qed.

(** X8. The totals of the snapshot do not depend on the order of the
    transactions: any reordering of the input gives the same income total,
    spending total and category totals (only the sample follows the
    order). *)
Theorem snapshot_totals_order_independent
  (txs txs' : list RawTx.t) (startDate endDate : string) :
  Permutation txs txs' ->
  let s := aggregate txs startDate endDate in
  let s' := aggregate txs' startDate endDate in
  (totalIncomeEstimate s == totalIncomeEstimate s')%num /\
  (totalSpendingEstimate s == totalSpendingEstimate s')%num /\
  forall c : CoreCategory,
    (total_of (snapCategoryTotals s) c == total_of (snapCategoryTotals s') c)%num.
Proof.
  intros H s s'. subst s s'. unfold aggregate, snapshot_loop.
  cbn [totalIncomeEstimate totalSpendingEstimate snapCategoryTotals].
  destruct (fold_snapshot_permutation txs txs' H acc0) as (Hc & Hi & Hs).
  now repeat split.
Qed.

Lemma snapshot_totals_order_independent_witness :
  let s := aggregate [payroll_tx; rent_tx] "2026-10-02" "2026-11-02" in
  let s' := aggregate [rent_tx; payroll_tx] "2026-10-02" "2026-11-02" in
  (totalIncomeEstimate s == totalIncomeEstimate s')%num /\
  (totalSpendingEstimate s == totalSpendingEstimate s')%num /\
  forall c : CoreCategory,
    (total_of (snapCategoryTotals s) c == total_of (snapCategoryTotals s') c)%num.
Proof.
  exact (snapshot_totals_order_independent
           [payroll_tx; rent_tx] [rent_tx; payroll_tx]
           "2026-10-02" "2026-11-02" (perm_swap rent_tx payroll_tx [])).
Defined.

(** X9. [buildPlaidSnapshot] returns [null] exactly when there is no
    access token (none, or the empty string); with a token it returns a
    snapshot or throws, and when Plaid resolves with no transactions, or
    without a [transactions] field, the snapshot has all totals 0 and an
    empty sample. *)
Theorem snapshot_null_iff_no_token (env : Env) :
  (buildPlaidSnapshot env = Ok None <-> present (lastAccessToken env) = false) /\
  (forall (sd ed : string) (s : Snapshot),
      buildPlaidSnapshot env = Ok (Some s) ->
      startDate s = sd -> endDate s = ed ->
      transactionsGet env sd ed = Resolved None \/
      transactionsGet env sd ed = Resolved (Some []) ->
      s = mkSnapshot sd ed zero zero zeroTotals []).
Proof.
  split.
  - unfold buildPlaidSnapshot.
    destruct (present (lastAccessToken env)); cbn [negb].
    + split; [|discriminate].
      destruct (JSDate.isoDate (Some (now env))); cbn [bind]; [|discriminate].
      destruct (JSDate.isoDate _); cbn [bind]; [|discriminate].
      destruct (fetched _); cbn [bind]; discriminate.
    + split; reflexivity.
  - intros sd ed s Hs Hsd Hed Hfetch.
    apply buildPlaidSnapshot_aggregate in Hs as (txs & b & e & Hf & ->).
    cbn in Hsd, Hed. subst b e.
    destruct Hfetch as [H|H]; rewrite H in Hf; injection Hf as <-; reflexivity.
Qed.

Lemma snapshot_null_iff_no_token_witness :
  buildPlaidSnapshot env_demo = Ok None /\
  mkSnapshot "2026-10-02" "2026-11-02" zero zero zeroTotals []
    = mkSnapshot "2026-10-02" "2026-11-02" zero zero zeroTotals [].
Proof.
  split.
  - apply (proj1 (snapshot_null_iff_no_token env_demo)). reflexivity.
  - assert (buildPlaidSnapshot env_empty
            = Ok (Some (mkSnapshot "2026-10-02" "2026-11-02" zero zero
                                   zeroTotals []))) as H
      by (vm_compute; reflexivity).
    apply (proj2 (snapshot_null_iff_no_token env_empty)
                 "2026-10-02" "2026-11-02" _ H eq_refl eq_refl).
    right. reflexivity.
Defined.

(* ================================================================= *)
(** ** The listing and the snapshot together *)

Lemma fold_net_flow (txs : list RawTx.t) :
  forall (a : Acc) (l : num),
    (l == totalIncome a + Num.neg (totalSpending a))%num ->
    (fold_left (fun sum t => (sum + Listed.amount t)%num) (map normalize txs) l
     == totalIncome (fold_left snapshot_step txs a)
        + Num.neg (totalSpending (fold_left snapshot_step txs a)))%num.
Proof.
  induction txs as [|tx rest IH]; intros a l H; cbn [fold_left map]; [exact H|].
  apply IH. unfold snapshot_step, normalize.
  rewrite isIncome_listing, isIncome_snapshot.
  destruct (income_by_spec tx);
    cbn [totalIncome totalSpending Listed.amount]; rewrite H.
  - aac_reflexivity.
  - rewrite neg_add. aac_reflexivity.
Qed.

(** X10. The two consumers of the normalizer agree: over the same
    transactions, the signed amounts of the listing add up to the income
    total minus the spending total of the snapshot. *)
Theorem listing_net_flow_matches_snapshot
  (txs : list RawTx.t) (startDate endDate : string) :
  let s := aggregate txs startDate endDate in
  (net_flow (map normalize txs)
   == totalIncomeEstimate s - totalSpendingEstimate s)%num.
Proof.
  intros s. subst s. unfold net_flow, aggregate, snapshot_loop, Num.sub.
  cbn [totalIncomeEstimate totalSpendingEstimate].
  apply fold_net_flow. cbn. reflexivity.
Qed.

Lemma math_abs_neg_abs (a : num) :
  (math_abs (Num.neg (math_abs a)) == math_abs a)%num.
Proof.
  destruct a as [x|s|]; cbn [math_abs Num.neg Num.eqv]; try easy.
  rewrite Qabs_opp. apply Qabs_pos. apply Qabs_nonneg.
Qed.

Lemma math_abs_abs (a : num) : (math_abs (math_abs a) == math_abs a)%num.
Proof.
  destruct a as [x|s|]; cbn [math_abs Num.eqv]; try easy.
  apply Qabs_pos. apply Qabs_nonneg.
Qed.

(** X11. Every record of the listing has a non-empty name: the
    transaction's own name when it has one, and "Transaction" when the name
    is missing or empty, in which case the label alone decides between
    "income" and "spending".  The record has the id and the date of its
    transaction, and an amount of the same magnitude as the amount
    received: normalization changes the sign only. *)
Theorem listing_record_fields (tx : RawTx.t) :
  let t := normalize tx in
  Listed.name t <> "" /\
  (present (RawTx.name tx) = true -> Some (Listed.name t) = RawTx.name tx) /\
  (present (RawTx.name tx) = false ->
   Listed.name t = "Transaction" /\
   Listed.type t
     = if Str.includes_any (Str.toLowerCase (primary_label tx))
                           ["income"; "payroll"]
       then "income" else "spending") /\
  Listed.id t = RawTx.transaction_id tx /\
  Listed.date t = RawTx.date tx /\
  (math_abs (Listed.amount t) == math_abs (number_or_zero (RawTx.amount tx)))%num.
Proof.
  intros t. subst t. unfold normalize. cbv zeta.
  cbn [Listed.name Listed.id Listed.date Listed.amount Listed.type].
  split; [apply or_else_not_empty; discriminate|].
  split.
  { unfold or_else. intros H. rewrite H.
    destruct (RawTx.name tx); [reflexivity | discriminate H]. }
  split.
  { intros H. unfold or_else. rewrite H. split; [reflexivity|].
    rewrite isIncome_spec_form.
    replace (Str.includes_any (Str.toLowerCase "Transaction")
                              ["payroll"; "salary"; "deposit"])
      with false by reflexivity.
    now rewrite orb_false_r. }
  split; [reflexivity|]. split; [reflexivity|].
  destruct (isIncome _ _); [apply math_abs_abs | apply math_abs_neg_abs].
Qed.

Lemma listing_record_fields_witness :
  Some (Listed.name (normalize rent_tx)) = RawTx.name rent_tx /\
  Listed.name (normalize nameless_tx) = "Transaction" /\
  Listed.type (normalize nameless_tx) = "income".
Proof.
  split.
  - apply (proj1 (proj2 (listing_record_fields rent_tx))). reflexivity.
  - exact (proj1 (proj2 (proj2 (listing_record_fields nameless_tx))) eq_refl).
Defined.

(* ================================================================= *)
(** ** The number of days of the listing *)

Lemma plaid_transactions_query_days (env : Env) (d1 d2 : value) :
  query_days d1 = query_days d2 ->
  plaid_transactions env d1 = plaid_transactions env d2.
Proof.
  intros H. unfold plaid_transactions. unfold query_days in H.
  cbv zeta in *. now rewrite H.
Qed.

Lemma clamp_in_range (x : Q) :
  exists q : Q,
    math_max (of_Z 1) (math_min (Fin x) (of_Z 90)) = Fin q /\
    (1 <= q <= 90)%Q /\
    ((1 <= x <= 90)%Q -> q = x).
Proof.
  unfold math_min, math_max, of_Z, Num.leb. cbv [inject_Z].
  destruct (Qle_bool x (90 # 1)) eqn:H90.
  - destruct (Qle_bool (1 # 1) x) eqn:H1.
    + exists x. apply Qle_bool_iff in H90, H1. repeat split; assumption.
    + exists (inject_Z 1). repeat split; try easy.
      intros [Hx _]. apply Qle_bool_iff in Hx. congruence.
  - exists (inject_Z 90). repeat split; try easy.
    intros [_ Hx]. apply Qle_bool_iff in Hx. congruence.
Qed.

(** X12. Whatever the [days] query parameter holds, the listing works with
    a number of days between 1 and 90: a missing, non-numeric or zero
    value counts as 14, a value in range is kept, and the answer is the one
    the clamped number itself would get. *)
Theorem listing_days_clamped (env : Env) (days : value) :
  exists q : Q,
    query_days days = Fin q /\
    (1 <= q <= 90)%Q /\
    (Num.truthy (to_number days) = false -> q = inject_Z 14) /\
    (forall x, to_number days = Fin x -> (1 <= x <= 90)%Q -> q = x) /\
    plaid_transactions env days = plaid_transactions env (VNum (Fin q)).
Proof.
  assert (forall q, (1 <= q <= 90)%Q -> query_days (VNum (Fin q)) = Fin q) as Hid.
  { intros q Hq. unfold query_days. cbn [to_number Num.truthy].
    assert (Qeq_bool q 0 = false) as ->.
    { apply Qeq_bool_false_pos. lra. }
    cbn [negb]. destruct (clamp_in_range q) as (q' & -> & _ & Heq).
    now rewrite (Heq Hq). }
  unfold query_days at 1.
  destruct (to_number days) as [x|s|] eqn:Hd; cbn [Num.truthy].
  - destruct (Qeq_bool x 0) eqn:H0; cbn [negb].
    + exists (inject_Z 14). split; [reflexivity|].
      split; [split; discriminate|]. split; [reflexivity|]. split.
      * intros y Hy [Hy1 _]. injection Hy as <-.
        apply Qeq_bool_iff in H0. rewrite H0 in Hy1.
        exfalso. apply Hy1. reflexivity.
      * apply plaid_transactions_query_days. rewrite Hid; [|split; discriminate].
        unfold query_days. rewrite Hd. cbn [Num.truthy]. now rewrite H0.
    + destruct (clamp_in_range x) as (q & Hq & Hr & Heq).
      exists q. split; [exact Hq|]. split; [exact Hr|].
      split; [discriminate|]. split.
      * intros y Hy Hy1. injection Hy as <-. now apply Heq.
      * apply plaid_transactions_query_days. rewrite (Hid q Hr).
        unfold query_days. rewrite Hd. cbn [Num.truthy]. now rewrite H0.
  - destruct s.
    + exists (inject_Z 1). split; [reflexivity|].
      split; [split; discriminate|]. split; [discriminate|].
      split; [discriminate|].
      apply plaid_transactions_query_days. rewrite Hid; [|split; discriminate].
      unfold query_days. now rewrite Hd.
    + exists (inject_Z 90). split; [reflexivity|].
      split; [split; discriminate|]. split; [discriminate|].
      split; [discriminate|].
      apply plaid_transactions_query_days. rewrite Hid; [|split; discriminate].
      unfold query_days. now rewrite Hd.
  - exists (inject_Z 14). split; [reflexivity|].
    split; [split; discriminate|]. split; [reflexivity|].
    split; [discriminate|].
    apply plaid_transactions_query_days. rewrite Hid; [|split; discriminate].
    unfold query_days. now rewrite Hd.
Qed.

Lemma listing_days_clamped_witness :
  exists q : Q,
    query_days (VStr "500") = Fin q /\
    (1 <= q <= 90)%Q /\
    (Num.truthy (to_number (VStr "500")) = false -> q = inject_Z 14) /\
    (forall x, to_number (VStr "500") = Fin x -> (1 <= x <= 90)%Q -> q = x) /\
    plaid_transactions env_live (VStr "500")
      = plaid_transactions env_live (VNum (Fin q)).
Proof. exact (listing_days_clamped env_live (VStr "500")). Defined.

(** X13. With an access token, a rejection of the Plaid client makes the
    listing answer status 500 with its fixed message: it never falls back
    on the demo list and never lets the exception through. *)
Theorem listing_fetch_failure (env : Env) (days : value) :
  present (lastAccessToken env) = true ->
  (forall s e, transactionsGet env s e = Rejected) ->
  plaid_transactions env days = Error 500 "Failed to fetch transactions".
Proof.
  intros Htok Hrej.
  destruct (plaid_transactions_cases env days) as [[Hno _]|[_ [[txs H]|H]]];
    [congruence| |exact H].
  exfalso. revert H. unfold plaid_transactions. rewrite Htok.
  destruct (JSDate.isoDate (Some (now env))); cbn [bind catching];
    [|discriminate].
  destruct (JSDate.isoDate _); cbn [bind catching]; [|discriminate].
  rewrite Hrej. cbn. discriminate.
Qed.

Lemma listing_fetch_failure_witness :
  plaid_transactions
    (mkEnv 1793622896789 (JSDate.fixed_zone 0) None (Some "access-sandbox-1") (fun _ _ => Rejected))
    VUndefined
    = Error 500 "Failed to fetch transactions".
Proof.
  apply listing_fetch_failure; [reflexivity | intros s e; reflexivity].
Defined.

(* ================================================================= *)
(** ** Months and days on the calendar *)

Module Calendar.
Import JSDate DateFacts.
Local Open Scope Z_scope.

Lemma MakeDay_firstOfMonth (y : Z) (q : Q) (dt : Z) :
  MakeDay y (Fin q) dt = Some (firstOfMonth y (Qtrunc q) + dt - 1).
Proof. reflexivity. Qed.

Lemma time_decomp (t : Z) : t = Day t * msPerDay + TimeWithinDay t.
Proof.
  unfold Day, TimeWithinDay, msPerDay.
  rewrite Z.mul_comm. apply Z.div_mod. discriminate.
Qed.

(** The day of [t] is its date counted from the first of its month. *)
Lemma Day_firstOfMonth (t : Z) :
  Day t = firstOfMonth (YearFromTime t) (MonthFromTime t) + DateFromTime t - 1.
Proof.
  pose proof (MonthFromTime_range t) as Hm.
  unfold firstOfMonth.
  rewrite (Z.div_small (MonthFromTime t) 12) by lia.
  rewrite (Z.mod_small (MonthFromTime t) 12) by lia.
  rewrite Z.add_0_r.
  unfold DateFromTime, DayWithinYear, InLeapYear. lia.
Qed.

Lemma DaysBeforeMonth_step (l r : Z) :
  0 <= l <= 1 -> 0 <= r <= 10 ->
  28 <= DaysBeforeMonth l (r + 1) - DaysBeforeMonth l r <= 31.
Proof.
  intros Hl Hr.
  assert (l = 0 \/ l = 1) as [-> | ->] by lia;
    assert (r = 0 \/ r = 1 \/ r = 2 \/ r = 3 \/ r = 4 \/ r = 5 \/ r = 6 \/
            r = 7 \/ r = 8 \/ r = 9 \/ r = 10)
      as [-> | [-> | [-> | [-> | [-> | [-> | [-> | [-> | [-> | [-> | ->]]]]]]]]]]
      by lia;
    cbn; lia.
Qed.

(** A month has between 28 and 31 days. *)
Lemma firstOfMonth_step (y M : Z) :
  28 <= firstOfMonth y (M + 1) - firstOfMonth y M <= 31.
Proof.
  unfold firstOfMonth.
  assert (0 <= M mod 12 < 12) as Hr by (apply Z.mod_pos_bound; lia).
  destruct (Z_le_gt_dec (M mod 12) 10) as [Hle|Hgt].
  - assert ((M + 1) / 12 = M / 12) as -> by
        (Z.to_euclidean_division_equations; lia).
    assert ((M + 1) mod 12 = M mod 12 + 1) as -> by
        (Z.to_euclidean_division_equations; lia).
    pose proof (DaysBeforeMonth_step
                  (if isLeapYear (y + M / 12) then 1 else 0) (M mod 12)
                  ltac:(destruct (isLeapYear _); lia) ltac:(lia)).
    lia.
  - assert ((M + 1) / 12 = M / 12 + 1) as -> by
        (Z.to_euclidean_division_equations; lia).
    assert ((M + 1) mod 12 = 0) as -> by
        (Z.to_euclidean_division_equations; lia).
    assert (M mod 12 = 11) as -> by lia.
    rewrite Z.add_assoc, DayFromYear_succ. unfold DaysInYear.
    cbn [DaysBeforeMonth].
    destruct (isLeapYear (y + M / 12)), (isLeapYear (y + M / 12 + 1)); lia.
Qed.

Lemma firstOfMonth_forward (y M : Z) (n : nat) :
  28 * Z.of_nat n
    <= firstOfMonth y (M + Z.of_nat n) - firstOfMonth y M
    <= 31 * Z.of_nat n.
Proof.
  induction n as [|n IH].
  - cbn [Z.of_nat]. rewrite Z.add_0_r. lia.
  - rewrite Nat2Z.inj_succ.
    replace (M + Z.succ (Z.of_nat n)) with (M + Z.of_nat n + 1) by lia.
    pose proof (firstOfMonth_step y (M + Z.of_nat n)). lia.
Qed.

(** [k] months from month [M]: between 28 and 31 days each, either way. *)
Lemma firstOfMonth_shift (y M k : Z) :
  let D := firstOfMonth y (M + k) - firstOfMonth y M in
  (0 <= k -> 28 * k <= D <= 31 * k) /\
  (k <= 0 -> 31 * k <= D <= 28 * k).
Proof.
  intros D. subst D. split; intros Hk.
  - pose proof (firstOfMonth_forward y M (Z.to_nat k)) as H.
    rewrite Z2Nat.id in H by lia. exact H.
  - pose proof (firstOfMonth_forward y (M + k) (Z.to_nat (- k))) as H.
    rewrite Z2Nat.id in H by lia.
    replace (M + k + - k) with M in H by lia. lia.
Qed.

(** [setMonth(getMonth() + k)] moves the local date by whole days, between
    28 and 31 for each month, and keeps the local time of day. *)
Lemma setMonth_shift (tza : Zone) (now k : Z) :
  exists D : Z,
    setMonth tza (Some now) (getMonth tza (Some now) + of_Z k)%num
      = TimeClip (UTC tza (LocalTime tza now + D * msPerDay)) /\
    (0 <= k -> 28 * k <= D <= 31 * k) /\
    (k <= 0 -> 31 * k <= D <= 28 * k).
Proof.
  set (t := LocalTime tza now).
  exists (firstOfMonth (YearFromTime t) (MonthFromTime t + k)
          - firstOfMonth (YearFromTime t) (MonthFromTime t)).
  split; [|apply firstOfMonth_shift].
  unfold setMonth, getMonth. fold t.
  unfold of_Z, Num.add. rewrite MakeDay_firstOfMonth, Qtrunc_add_Z.
  f_equal. f_equal. unfold MakeDate.
  pose proof (time_decomp t) as Ht. pose proof (Day_firstOfMonth t) as Hd.
  lia.
Qed.

#[export] Instance Qtrunc_Proper : Proper (Qeq ==> eq) Qtrunc.
Proof.
  intros x y H. unfold Qtrunc.
  rewrite (Qleb_comp 0%Q 0%Q (Qeq_refl 0%Q) x y H).
  now rewrite (Qfloor_comp x y H), (Qceiling_comp x y H).
Qed.

Lemma Qtrunc_Z (z : Z) : Qtrunc (inject_Z z) = z.
Proof.
  unfold Qtrunc. destruct (Qle_bool 0 (inject_Z z));
    [apply Qfloor_Z | apply Qceiling_Z].
Qed.

(** [setDate(getDate() - (k - 1))] goes back [k - 1] whole days of local
    time. *)
Lemma setDate_back (tza : Zone) (now : Z) (q : Q) (k : Z) :
  is_integer q k ->
  setDate tza (Some now) (getDate tza (Some now) - (Fin q - of_Z 1))%num
    = TimeClip (UTC tza (LocalTime tza now - (k - 1) * msPerDay)).
Proof.
  intros Hq. unfold is_integer in Hq.
  unfold setDate, getDate, of_Z, Num.sub, Num.neg, Num.add.
  set (t := LocalTime tza now).
  rewrite MakeDay_firstOfMonth, Qtrunc_Z.
  assert (Qtrunc (inject_Z (DateFromTime t) + - (q + - inject_Z 1))
          = DateFromTime t - (k - 1)) as ->.
  { rewrite <- (Qtrunc_Z (DateFromTime t - (k - 1))).
    apply Qtrunc_Proper. rewrite Hq. unfold Z.sub.
    rewrite !inject_Z_plus, !inject_Z_opp, inject_Z_plus, inject_Z_opp.
    ring. }
  f_equal. f_equal. unfold MakeDate.
  pose proof (time_decomp t) as Ht. pose proof (Day_firstOfMonth t) as Hd.
  lia.
Qed.

(** An ISO date exists for valid dates only. *)
Lemma isoDate_TimeClip (t : Z) (s : string) :
  isoDate (TimeClip t) = Ok s -> isoDate (Some t) = Ok s.
Proof.
  unfold TimeClip. destruct (Z.abs t <=? maxTime); [tauto | discriminate].
Qed.

End Calendar.

(* ================================================================= *)
(** ** The windows of the snapshot and of the listing *)

(** X14. The window of a snapshot ends at the ISO date of the clock and
    starts at the ISO date of the instant at which the host's local time
    shows the same time of day between 28 and 31 days earlier: one
    calendar month back in local time, whatever the length of the month
    and whatever the zone's offsets before and after. *)
Theorem snapshot_window (env : Env) (s : Snapshot) :
  buildPlaidSnapshot env = Ok (Some s) ->
  exists n : Z,
    (28 <= n <= 31)%Z /\
    JSDate.isoDate (Some (now env)) = Ok (endDate s) /\
    JSDate.isoDate
      (Some (JSDate.UTC (tza env)
               (JSDate.LocalTime (tza env) (now env) - n * JSDate.msPerDay)%Z))
      = Ok (startDate s).
Proof.
  unfold buildPlaidSnapshot.
  destruct (present (lastAccessToken env)); cbn [negb]; [|discriminate].
  change (JSDate.getMonth (tza env) (Some (now env)) - of_Z 1)%num
    with (JSDate.getMonth (tza env) (Some (now env)) + of_Z (-1))%num.
  destruct (Calendar.setMonth_shift (tza env) (now env) (-1))
    as (D & -> & _ & HD).
  specialize (HD ltac:(lia)).
  destruct (JSDate.isoDate (Some (now env))) as [e|] eqn:He; cbn [bind];
    [|discriminate].
  destruct (JSDate.isoDate (JSDate.TimeClip _)) as [b|] eqn:Hb; cbn [bind];
    [|discriminate].
  destruct (fetched _) as [txs|]; cbn [bind]; [|discriminate].
  intros H. injection H as <-. cbn [startDate endDate aggregate].
  exists (- D)%Z. split; [lia|]. split; [reflexivity|].
  apply Calendar.isoDate_TimeClip in Hb.
  now replace (JSDate.LocalTime (tza env) (now env) - - D * JSDate.msPerDay)%Z
    with (JSDate.LocalTime (tza env) (now env) + D * JSDate.msPerDay)%Z by lia.
Qed.

(** In US Eastern time with the clock at 2026-11-03T00:30Z, the evening of
    2 November there, the window starts on 2026-10-02: the local time
    19:30 of 2 October is 23:30Z, under daylight saving time. *)
Lemma snapshot_window_witness :
  exists n : Z,
    (28 <= n <= 31)%Z /\
    JSDate.isoDate (Some 1793665800000%Z) = Ok "2026-11-03" /\
    JSDate.isoDate
      (Some (JSDate.UTC eastern_2026
               (JSDate.LocalTime eastern_2026 1793665800000
                - n * JSDate.msPerDay)%Z))
      = Ok "2026-10-02".
Proof.
  assert (buildPlaidSnapshot env_eastern
          = Ok (Some (mkSnapshot "2026-10-02" "2026-11-03" zero zero
                                 zeroTotals []))) as H
    by (vm_compute; reflexivity).
  exact (snapshot_window env_eastern _ H).
Defined.

(** X15. For a whole number [k] of days, the listing asks Plaid for the
    window that ends at the ISO date of the clock and starts at the ISO
    date of the instant at which the host's local time shows the same time
    of day [k - 1] days earlier, and answers the normalization of what
    Plaid resolves with for that window. *)
Theorem listing_window (env : Env) (days : value) (q : Q) (k : Z)
  (l : list Listed.t) :
  present (lastAccessToken env) = true ->
  query_days days = Fin q ->
  is_integer q k ->
  plaid_transactions env days = Json l ->
  exists (start_date end_date : string) (txs : list RawTx.t),
    JSDate.isoDate (Some (now env)) = Ok end_date /\
    JSDate.isoDate
      (Some (JSDate.UTC (tza env)
               (JSDate.LocalTime (tza env) (now env)
                - (k - 1) * JSDate.msPerDay)%Z))
      = Ok start_date /\
    fetched (transactionsGet env start_date end_date) = Ok txs /\
    l = map normalize txs.
Proof.
  intros Htok Hq Hk. unfold plaid_transactions. unfold query_days in Hq.
  cbv zeta in *. rewrite Hq, Htok.
  rewrite (Calendar.setDate_back (tza env) (now env) q k Hk).
  destruct (JSDate.isoDate (Some (now env))) as [e|] eqn:He;
    cbn [bind catching]; [|discriminate].
  destruct (JSDate.isoDate (JSDate.TimeClip _)) as [b|] eqn:Hb;
    cbn [bind catching]; [|discriminate].
  destruct (fetched _) as [txs|] eqn:Hf; cbn [bind catching]; [|discriminate].
  intros H. injection H as <-.
  exists b, e, txs. split; [reflexivity|].
  split; [now apply Calendar.isoDate_TimeClip|]. now split.
Qed.

(** In US Eastern time with the clock at 2026-11-03T00:30Z and the default
    14 days, the window starts on 2026-10-20: 13 days before the local
    evening of 2 November. *)
Lemma listing_window_witness :
  exists (start_date end_date : string) (txs : list RawTx.t),
    JSDate.isoDate (Some 1793665800000%Z) = Ok end_date /\
    JSDate.isoDate
      (Some (JSDate.UTC eastern_2026
               (JSDate.LocalTime eastern_2026 1793665800000
                - (14 - 1) * JSDate.msPerDay)%Z))
      = Ok start_date /\
    fetched (transactionsGet env_eastern start_date end_date) = Ok txs /\
    [] = map normalize txs.
Proof.
  assert (plaid_transactions env_eastern VUndefined = Json []) as H
    by (vm_compute; reflexivity).
  exact (listing_window env_eastern VUndefined (inject_Z 14) 14 _
           eq_refl eq_refl (Qeq_refl _) H).
Defined.

Example listing_window_eastern :
  JSDate.isoDate
    (Some (JSDate.UTC eastern_2026
             (JSDate.LocalTime eastern_2026 1793665800000
              - (14 - 1) * JSDate.msPerDay)%Z))
    = Ok "2026-10-20".
Proof. vm_compute. reflexivity. Qed.

(* ================================================================= *)
(** ** What the forecaster returns *)

Lemma Qdiv_mult_cancel (a m : Q) : (0 < m)%Q -> (a / m * m == a)%Q.
Proof. intros H. field. intros Hm. rewrite Hm in H. now apply Qlt_irrefl in H. Qed.

(** The ceiling of a quotient of whole numbers, in whole numbers. *)
Lemma Qceiling_quotient (a m : Z) :
  (0 < m)%Z ->
  let n := Qceiling (inject_Z a / inject_Z m) in
  ((n - 1) * m < a <= n * m)%Z.
Proof.
  intros Hm n.
  assert (0 < inject_Z m)%Q as Hpos
    by (change (inject_Z 0 < inject_Z m)%Q; rewrite <- Zlt_Qlt; exact Hm).
  pose proof (Qle_ceiling (inject_Z a / inject_Z m)) as Hup.
  pose proof (Qceiling_lt (inject_Z a / inject_Z m)) as Hlow.
  fold n in Hup, Hlow.
  pose proof (Qdiv_mult_cancel (inject_Z a) (inject_Z m) Hpos) as Hcancel.
  apply (Qmult_le_compat_r _ _ (inject_Z m)) in Hup; [|lra].
  apply (Qmult_lt_compat_r _ _ (inject_Z m)) in Hlow; [|exact Hpos].
  rewrite Hcancel in Hup, Hlow.
  rewrite <- inject_Z_mult in Hup, Hlow.
  rewrite <- Zle_Qle in Hup. rewrite <- Zlt_Qlt in Hlow.
  lia.
Qed.

(** The forecast of whole amounts: the month count in whole numbers. *)
Lemma computeGoalForecast_whole
  (env : Env) (ps : list (string * value)) (t c m : Z) :
  amounts_convert ps = true ->
  number_or_zero (read_prop ps "targetAmount") = of_Z t ->
  number_or_zero (read_prop ps "currentAmount") = of_Z c ->
  number_or_zero (read_prop ps "monthlyContribution") = of_Z m ->
  (c < t)%Z -> (0 < m)%Z ->
  exists n : Z,
    (1 <= n)%Z /\
    ((n - 1) * m < t - c <= n * m)%Z /\
    computeGoalForecast env (VObj ps)
      = do iso <- JSDate.isoDate
                    (JSDate.setMonth (tza env) (Some (now env))
                       (JSDate.getMonth (tza env) (Some (now env)) + of_Z n)%num);
        Ok (mkForecast (of_Z n) (Some iso)).
Proof.
  intros Hconv Ht Hc Hm Hlt Hpos.
  assert (inject_Z c < inject_Z t)%Q as HltQ by (rewrite <- Zlt_Qlt; exact Hlt).
  assert (0 < inject_Z m)%Q as HposQ
    by (change (inject_Z 0 < inject_Z m)%Q; rewrite <- Zlt_Qlt; exact Hpos).
  destruct (computeGoalForecast_months env ps (inject_Z t) (inject_Z c)
              (inject_Z m) Hconv Ht Hc Hm HltQ HposQ) as [Hge Heq].
  assert (Qceiling ((inject_Z t - inject_Z c) / inject_Z m)
          = Qceiling (inject_Z (t - c) / inject_Z m)) as Hq.
  { apply Qceiling_comp. unfold Z.sub.
    rewrite inject_Z_plus, inject_Z_opp. reflexivity. }
  rewrite Hq in Hge, Heq.
  exists (Qceiling (inject_Z (t - c) / inject_Z m)).
  split; [exact Hge|]. split; [|exact Heq].
  apply Qceiling_quotient. exact Hpos.
Qed.

(** X16. Whenever the forecaster returns for a goal whose amounts are
    whole numbers that doubles hold exactly, with current below target and
    a positive contribution, [monthsToGoal] is the least whole number of
    contributions that reaches the target, at least 1, and the completion
    date is the ISO date of the instant at which the host's local time
    shows the clock's time of day between 28 and 31 days later for each of
    those months. *)
Theorem forecast_months_minimal
  (env : Env) (ps : list (string * value)) (t c m : Z) (f : Forecast) :
  number_or_zero (read_prop ps "targetAmount") = of_Z t ->
  number_or_zero (read_prop ps "currentAmount") = of_Z c ->
  number_or_zero (read_prop ps "monthlyContribution") = of_Z m ->
  (- 2 ^ 52 <= c)%Z -> (c < t)%Z -> (t <= 2 ^ 52)%Z ->
  (0 < m)%Z -> (m <= 2 ^ 53)%Z ->
  computeGoalForecast env (VObj ps) = Ok f ->
  exists (n D : Z) (iso : string),
    monthsToGoal f = of_Z n /\
    (1 <= n)%Z /\
    (t <= c + n * m)%Z /\
    (c + (n - 1) * m < t)%Z /\
    projectedCompletionDate f = Some iso /\
    (28 * n <= D <= 31 * n)%Z /\
    JSDate.isoDate
      (Some (JSDate.UTC (tza env)
               (JSDate.LocalTime (tza env) (now env) + D * JSDate.msPerDay)%Z))
      = Ok iso.
Proof.
  intros Ht Hc Hm _ Hlt _ Hpos _ Hf.
  pose proof (computeGoalForecast_Ok_converts env ps f Hf) as Hconv.
  destruct (computeGoalForecast_whole env ps t c m Hconv Ht Hc Hm Hlt Hpos)
    as (n & Hge & Hn & Heq).
  rewrite Heq in Hf. clear Heq.
  destruct (Calendar.setMonth_shift (tza env) (now env) n) as (D & HD & Hfw & _).
  rewrite HD in Hf.
  destruct (JSDate.isoDate (JSDate.TimeClip _)) as [iso|] eqn:Hiso;
    cbn [bind] in Hf; [|discriminate].
  injection Hf as <-. exists n, D, iso.
  split; [reflexivity|]. split; [exact Hge|].
  split; [lia|]. split; [lia|]. split; [reflexivity|].
  split; [apply Hfw; lia|].
  now apply Calendar.isoDate_TimeClip.
Qed.

Lemma forecast_months_minimal_witness :
  exists (n D : Z) (iso : string),
    of_Z 12 = of_Z n /\
    (1 <= n)%Z /\
    (1200 <= 0 + n * 100)%Z /\
    (0 + (n - 1) * 100 < 1200)%Z /\
    Some "2027-11-02" = Some iso /\
    (28 * n <= D <= 31 * n)%Z /\
    JSDate.isoDate
      (Some (JSDate.UTC eastern_2026
               (JSDate.LocalTime eastern_2026 1793665800000
                + D * JSDate.msPerDay)%Z))
      = Ok iso.
Proof.
  assert (computeGoalForecast env_eastern goal_1200
          = Ok (mkForecast (of_Z 12) (Some "2027-11-02"))) as H
    by (vm_compute; reflexivity).
  exact (forecast_months_minimal env_eastern
           [("targetAmount", VNum (of_Z 1200)); ("currentAmount", VNum (of_Z 0));
            ("monthlyContribution", VNum (of_Z 100))]
           1200 0 100 _
           eq_refl eq_refl eq_refl ltac:(lia) ltac:(lia) ltac:(lia)
           ltac:(lia) ltac:(lia) H).
Defined.

(** X17. The forecaster throws [TypeError] on a goal that is [null] or
    [undefined]; on any other value that is not an object (a number, a
    string, an array) it reads three missing fields and returns the steady
    state.  On an object it throws [TypeError] when one of its three
    amounts does not convert to a number (an object with an own property
    [toString], or an array holding one); otherwise it returns, or throws
    the [RangeError] of an unrepresentable date, and it returns the steady
    state [{0, null}] whenever the target is not above the current amount
    or the contribution is not above 0 (missing, non-numeric and NaN
    included). *)
Theorem forecast_error_behaviour (env : Env) (goal : value) :
  (nullish goal = true -> computeGoalForecast env goal = Throw TypeError) /\
  (nullish goal = false ->
   (forall ps, goal <> VObj ps) ->
   computeGoalForecast env goal = Ok (mkForecast zero None)) /\
  (forall ps,
      goal = VObj ps ->
      (amounts_convert ps = false ->
       computeGoalForecast env goal = Throw TypeError) /\
      (amounts_convert ps = true ->
       ((exists f, computeGoalForecast env goal = Ok f) \/
        computeGoalForecast env goal = Throw RangeError) /\
       ((number_or_zero (read_prop ps "targetAmount")
         - number_or_zero (read_prop ps "currentAmount") <=? zero)%num = true \/
        (number_or_zero (read_prop ps "monthlyContribution") <=? zero)%num = true ->
        computeGoalForecast env goal = Ok (mkForecast zero None)))).
Proof.
  split; [|split].
  - intros H. unfold computeGoalForecast.
    now rewrite (get_field_nullish goal _ H).
  - intros Hn Hobj. destruct goal; try discriminate Hn; try reflexivity.
    now destruct (Hobj props).
  - intros ps ->. split.
    + apply computeGoalForecast_unconverted.
    + intros Hconv. split.
      * destruct (computeGoalForecast_object_cases env ps)
          as [H | [[_ H] | [H _]]]; [now left | now right | congruence].
      * now apply computeGoalForecast_steady.
Qed.

Lemma forecast_error_behaviour_witness :
  computeGoalForecast env_demo VNull = Throw TypeError /\
  computeGoalForecast env_demo (VStr "goal") = Ok (mkForecast zero None) /\
  computeGoalForecast env_demo goal_nan_unconvertible = Throw TypeError /\
  computeGoalForecast env_demo goal_nan = Ok (mkForecast zero None).
Proof.
  split; [|split; [|split]].
  - exact (proj1 (forecast_error_behaviour env_demo VNull) eq_refl).
  - apply (proj1 (proj2 (forecast_error_behaviour env_demo (VStr "goal"))));
      [reflexivity | discriminate].
  - exact (proj1 (proj2 (proj2 (forecast_error_behaviour
                                  env_demo goal_nan_unconvertible))
                        _ eq_refl) eq_refl).
  - apply (proj2 (proj2 (proj2 (proj2 (forecast_error_behaviour
                                         env_demo goal_nan))
                               _ eq_refl) eq_refl)).
    right. reflexivity.
Defined.

(* ================================================================= *)
(** ** More on the Plan Composer *)

(** X18. In the fallback path, when the surplus of the plan is not above
    0 (zero, negative or NaN), every goal without a numeric
    [monthlyContribution] is given the contribution 0, and with it
    [monthsToGoal] 0 and a [null] completion date. *)
Theorem fallback_without_surplus (env : Env) (body : value) (plan : Plan) :
  present (OPENAI_API_KEY env) = false ->
  orbit_plan env body = Json plan ->
  (surplus plan >? zero)%num = false ->
  let state := get_field_opt body "state" in
  let baseGoals := array_or_empty (get_field_opt state "goals") in
  forall (i : nat) (goal : value),
    nth_error baseGoals i = Some goal ->
    has_contribution goal = false ->
    exists out : value,
      nth_error (goals plan) i = Some out /\
      get_field out "monthlyContribution" = Ok (VNum zero) /\
      get_field out "monthsToGoal" = Ok (VNum zero) /\
      get_field out "projectedCompletionDate" = Ok VNull.
Proof.
  intros Hkey Hplan Hs state baseGoals i goal Hi Hc.
  destruct (orbit_plan_Json_inv env body plan Hplan) as (_ & _ & _ & _ & Hg).
  rewrite Hkey in Hg. fold state baseGoals in Hg.
  destruct (mapM_nth _ _ _ Hg) as [_ Hnth].
  destruct (Hnth i goal Hi) as (out & Hout & Hcb).
  exists out. split; [exact Hout|].
  apply goalWithContrib_inv in Hcb as (_ & f & Hf & ->).
  unfold perGoalAmount in Hf |- *. rewrite Hs in Hf |- *. cbn [andb] in Hf |- *.
  unfold chosen_contribution in Hf |- *. unfold has_contribution in Hc.
  rewrite Hc in Hf |- *.
  unfold with_contribution in Hf.
  pose proof (computeGoalForecast_Ok_converts _ _ _ Hf) as Hconv.
  rewrite (computeGoalForecast_no_contribution _ _ Hconv) in Hf
    by (now rewrite read_set_prop_same).
  injection Hf as <-.
  destruct (with_forecast_fields goal (VNum zero) (mkForecast zero None))
    as (H1 & H2 & H3 & _).
  now rewrite H1, H2, H3.
Qed.

Lemma fallback_without_surplus_witness :
  exists out : value,
    nth_error [VObj [("targetAmount", VNum (of_Z 600));
                     ("monthlyContribution", VNum zero);
                     ("monthsToGoal", VNum zero);
                     ("projectedCompletionDate", VNull)]] 0 = Some out /\
    get_field out "monthlyContribution" = Ok (VNum zero) /\
    get_field out "monthsToGoal" = Ok (VNum zero) /\
    get_field out "projectedCompletionDate" = Ok VNull.
Proof.
  assert (orbit_plan env_demo (obj_state 3000 4000 [goal_plain])
          = Json (mkPlan [VObj [("planned", VNum (of_Z 4000))]]
                    [VObj [("targetAmount", VNum (of_Z 600));
                           ("monthlyContribution", VNum zero);
                           ("monthsToGoal", VNum zero);
                           ("projectedCompletionDate", VNull)]]
                    (Fin (-1000 # 1)) (of_Z 4000) None
                    "Orbit used a simple rule-of-thumb plan (no AI key configured)."))
    as H by (vm_compute; reflexivity).
  exact (fallback_without_surplus env_demo (obj_state 3000 4000 [goal_plain]) _
           eq_refl H eq_refl 0%nat goal_plain eq_refl eq_refl).
Defined.

(** X19. For a finite surplus above 0 and at least one goal, the default
    contribution is a whole number, at least 0, at most half a unit away
    from a fifth of the surplus divided by the number of goals. *)
Theorem perGoalAmount_bounds (s : Q) (n : nat) :
  (0 < s)%Q -> (0 < n)%nat ->
  exists z : Z,
    perGoalAmount (Fin s) n = of_Z z /\
    (0 <= z)%Z /\
    (s * (2 # 10) / inject_Z (Z.of_nat n) - (1 # 2) < inject_Z z)%Q /\
    (inject_Z z <= s * (2 # 10) / inject_Z (Z.of_nat n) + (1 # 2))%Q.
Proof.
  intros Hs Hn.
  assert (0 < inject_Z (Z.of_nat n))%Q as Hnq
    by (rewrite <- (Zlt_Qlt 0); lia).
  rewrite perGoalAmount_positive;
    [|unfold Num.gtb, Num.ltb, Num.zero, Num.Qltb;
      now rewrite (Qle_bool_false s 0 Hs) | exact Hn].
  unfold Num.mul, Num.div, of_nat, of_Z.
  rewrite (Qeq_bool_false_pos _ Hnq).
  set (x := (s * (2 # 10) / inject_Z (Z.of_nat n))%Q).
  assert (0 < x)%Q as Hx.
  { subst x. apply Qlt_shift_div_l; [exact Hnq|]. lra. }
  unfold math_round, of_Z.
  pose proof (Qfloor_le (x + (1 # 2))) as Hlo.
  pose proof (Qlt_floor (x + (1 # 2))) as Hhi.
  set (z := Qfloor (x + (1 # 2))) in *.
  rewrite inject_Z_plus in Hhi.
  assert (0 <= z)%Z as Hz.
  { assert (-1 < z)%Z; [|lia]. rewrite Zlt_Qlt.
    change (inject_Z (-1)) with (-1 # 1)%Q. change (inject_Z 1) with 1%Q in Hhi.
    lra. }
  exists z. split; [|split; [exact Hz|split]].
  - unfold math_max, Num.leb, Num.zero.
    destruct (Qle_bool (inject_Z z) 0) eqn:Hle; [|reflexivity].
    apply Qle_bool_iff in Hle. change 0%Q with (inject_Z 0) in Hle.
    rewrite <- Zle_Qle in Hle. now replace z with 0%Z by lia.
  - change (inject_Z 1) with 1%Q in Hhi. lra.
  - lra.
Qed.

Lemma perGoalAmount_bounds_witness :
  exists z : Z,
    perGoalAmount (Fin (1000 # 1)) 2 = of_Z z /\
    (0 <= z)%Z /\
    ((1000 # 1) * (2 # 10) / inject_Z (Z.of_nat 2) - (1 # 2) < inject_Z z)%Q /\
    (inject_Z z <= (1000 # 1) * (2 # 10) / inject_Z (Z.of_nat 2) + (1 # 2))%Q.
Proof.
  apply (perGoalAmount_bounds (1000 # 1) 2); [reflexivity | lia].
Defined.

Lemma set_prop_same (ps : list (string * value)) (k : string) (v : value) :
  lookup k ps = Some v -> set_prop ps k v = ps.
Proof.
  induction ps as [|[k' v'] rest IH]; simpl; [discriminate|].
  destruct (String.eqb_spec k k') as [->|Hne].
  - intros H. injection H as ->. reflexivity.
  - intros H. now rewrite IH.
Qed.

(** The forecaster reads three fields of an object and nothing else. *)
Lemma computeGoalForecast_reads (env : Env) (ps ps' : list (string * value)) :
  read_prop ps "targetAmount" = read_prop ps' "targetAmount" ->
  read_prop ps "currentAmount" = read_prop ps' "currentAmount" ->
  read_prop ps "monthlyContribution" = read_prop ps' "monthlyContribution" ->
  computeGoalForecast env (VObj ps) = computeGoalForecast env (VObj ps').
Proof.
  intros H1 H2 H3. rewrite !computeGoalForecast_object.
  now rewrite H1, H2, H3.
Qed.

Lemma chosen_contribution_number (perGoal : num) (goal : value) :
  String.eqb (typeof (chosen_contribution perGoal goal)) "number" = true.
Proof.
  unfold chosen_contribution.
  destruct (String.eqb (typeof (get_field_opt goal "monthlyContribution"))
                       "number") eqn:H; [exact H | reflexivity].
Qed.

(** X20. The fallback path is idempotent on a goal: a goal it has
    returned, sent again (with any surplus), comes back unchanged, with
    the contribution, the month count and the completion date it already
    carries. *)
Theorem fallback_goal_idempotent
  (env : Env) (perGoal perGoal' : num) (goal out : value) :
  goalWithContrib env perGoal goal = Ok out ->
  goalWithContrib env perGoal' out = Ok out.
Proof.
  intros H. apply goalWithContrib_inv in H as (_ & f & Hf & ->).
  set (c := chosen_contribution perGoal goal) in *.
  set (P0 := set_prop (own_props goal) "monthlyContribution" c).
  set (P1 := set_prop P0 "monthsToGoal" (VNum (monthsToGoal f))).
  set (P := set_prop P1 "projectedCompletionDate"
                     (date_value (projectedCompletionDate f))).
  assert (lookup "monthlyContribution" P = Some c) as Lc.
  { unfold P, P1, P0. rewrite !lookup_set_prop_other by discriminate.
    apply lookup_set_prop_same. }
  assert (lookup "monthsToGoal" P = Some (VNum (monthsToGoal f))) as Lm.
  { unfold P, P1. rewrite lookup_set_prop_other by discriminate.
    apply lookup_set_prop_same. }
  assert (lookup "projectedCompletionDate" P
          = Some (date_value (projectedCompletionDate f))) as Ld
    by apply lookup_set_prop_same.
  change (with_forecast goal c f) with (VObj P).
  rewrite goalWithContrib_not_nullish by reflexivity.
  assert (chosen_contribution perGoal' (VObj P) = c) as ->.
  { unfold chosen_contribution, get_field_opt, get_field, read_prop.
    rewrite Lc.
    pose proof (chosen_contribution_number perGoal goal) as Hn. fold c in Hn.
    now rewrite Hn. }
  unfold with_contribution, with_forecast. cbn [own_props].
  rewrite (set_prop_same P _ _ Lc).
  assert (computeGoalForecast env (VObj P) = Ok f) as ->.
  { rewrite <- Hf. unfold with_contribution. fold P0.
    apply computeGoalForecast_reads; unfold P, P1;
      now rewrite !read_set_prop_other by discriminate. }
  cbn [bind]. rewrite (set_prop_same P _ _ Lm), (set_prop_same P _ _ Ld).
  reflexivity.
Qed.

Lemma fallback_goal_idempotent_witness :
  goalWithContrib env_demo (of_Z 7)
    (VObj [("targetAmount", VNum (of_Z 600));
           ("monthlyContribution", VNum (of_Z 100));
           ("monthsToGoal", VNum (of_Z 6));
           ("projectedCompletionDate", VStr "2027-05-02")])
  = Ok (VObj [("targetAmount", VNum (of_Z 600));
              ("monthlyContribution", VNum (of_Z 100));
              ("monthsToGoal", VNum (of_Z 6));
              ("projectedCompletionDate", VStr "2027-05-02")]).
Proof.
  assert (goalWithContrib env_demo (of_Z 100) goal_plain
          = Ok (VObj [("targetAmount", VNum (of_Z 600));
                      ("monthlyContribution", VNum (of_Z 100));
                      ("monthsToGoal", VNum (of_Z 6));
                      ("projectedCompletionDate", VStr "2027-05-02")])) as H
    by (vm_compute; reflexivity).
  exact (fallback_goal_idempotent env_demo (of_Z 100) (of_Z 7) goal_plain _ H).
Defined.

Lemma orbit_plan_snapshot (env : Env) (body : value) (plan : Plan) :
  orbit_plan env body = Json plan ->
  plaidSnapshot plan = match buildPlaidSnapshot env with
                       | Ok s => s
                       | Throw _ => None
                       end.
Proof.
  unfold orbit_plan.
  destruct (negb _ || negb _); cbn [catching]; [discriminate|].
  unfold compose.
  destruct (get_field _ "income"); cbn [bind catching]; [|discriminate].
  destruct (ToNumber_or_zero _); cbn [bind catching]; [|discriminate].
  destruct (get_field _ "categories"); cbn [bind catching]; [|discriminate].
  destruct (get_field _ "goals"); cbn [bind catching]; [|discriminate].
  destruct (foldM _ _ _); cbn [bind catching]; [|discriminate].
  destruct (negb (present _)).
  - destruct (mapM _ _); cbn [bind catching]; [|discriminate].
    intros H. injection H as <-. reflexivity.
  - cbn [catching]. intros H. injection H as <-. reflexivity.
Qed.

(** X21. The Plaid side never decides the outcome of a plan request: with
    another access token and another Plaid answer, the handler gives the
    same error, or a plan with the same categories, goals, surplus, planned
    spending and insight.  The plan's snapshot is [null] when there is no
    access token and when Plaid rejects. *)
Theorem plan_independent_of_plaid
  (env : Env) (token : option string)
  (plaid : string -> string -> Fetch RawTx.t) (body : value) :
  let env' := mkEnv (now env) (tza env) (OPENAI_API_KEY env) token plaid in
  match orbit_plan env body, orbit_plan env' body with
  | Json p, Json p' =>
      categories p = categories p' /\ goals p = goals p' /\
      surplus p = surplus p' /\ plannedSpending p = plannedSpending p' /\
      orbitInsight p = orbitInsight p'
  | Error s e, Error s' e' => s = s' /\ e = e'
  | _, _ => False
  end /\
  (forall p,
      orbit_plan env body = Json p ->
      present (lastAccessToken env) = false \/
      (forall s e, transactionsGet env s e = Rejected) ->
      plaidSnapshot p = None).
Proof.
  intros env'. split.
  - assert (goalWithContrib env' = goalWithContrib env) as Hcb by reflexivity.
    unfold orbit_plan.
    destruct (negb _ || negb _); cbn [catching]; [now split|].
    unfold compose. rewrite Hcb.
    change (OPENAI_API_KEY env') with (OPENAI_API_KEY env).
    destruct (get_field _ "income"); cbn [bind catching]; [|now split].
    destruct (ToNumber_or_zero _); cbn [bind catching]; [|now split].
    destruct (get_field _ "categories"); cbn [bind catching]; [|now split].
    destruct (get_field _ "goals"); cbn [bind catching]; [|now split].
    destruct (foldM _ _ _); cbn [bind catching]; [|now split].
    destruct (negb (present _)).
    + destruct (mapM _ _); cbn [bind catching]; now repeat split.
    + cbn [catching]. now repeat split.
  - intros p Hp Hplaid. rewrite (orbit_plan_snapshot env body p Hp).
    unfold buildPlaidSnapshot.
    destruct Hplaid as [-> | Hrej]; [reflexivity|].
    destruct (negb _); [reflexivity|].
    destruct (JSDate.isoDate (Some (now env))); cbn [bind]; [|reflexivity].
    destruct (JSDate.isoDate _); cbn [bind]; [|reflexivity].
    now rewrite Hrej.
Qed.

Lemma plan_independent_of_plaid_witness :
  plaidSnapshot
    (mkPlan [VObj [("planned", VNum (of_Z 4000))]] [] (Fin (1000 # 1))
            (of_Z 4000) None
            "Orbit used a simple rule-of-thumb plan (no AI key configured).")
    = None.
Proof.
  assert (orbit_plan env_demo (obj_state 5000 4000 [])
          = Json (mkPlan [VObj [("planned", VNum (of_Z 4000))]] []
                    (Fin (1000 # 1)) (of_Z 4000) None
                    "Orbit used a simple rule-of-thumb plan (no AI key configured)."))
    as Hp by (vm_compute; reflexivity).
  pose proof (plan_independent_of_plaid env_demo None (fun _ _ => Rejected)
                (obj_state 5000 4000 [])) as H.
  cbv zeta in H. destruct H as [_ H].
  apply (H _ Hp). left. reflexivity.
Defined.

(* ================================================================= *)
(** ** What the merchant name can change *)

(** X22. The merchant name can only ever move a transaction into Food &
    Dining or Transportation: with a name, the bucket is the one the label
    alone gives, or one of these two; a label that gives Housing or Food &
    Dining keeps it whatever the name, and no name makes a transaction
    Housing. *)
Theorem name_moves_to_food_or_transport_only (label name : option string) :
  let c0 := mapPlaidCategoryToCore label None in
  let c := mapPlaidCategoryToCore label name in
  (c = c0 \/ c = FoodDining \/ c = Transportation) /\
  (c0 = Housing -> c = Housing) /\
  (c0 = FoodDining -> c = FoodDining) /\
  (c = Housing -> c0 = Housing).
Proof.
  unfold mapPlaidCategoryToCore. cbn [or_empty Str.toLowerCase].
  generalize (Str.toLowerCase (or_empty label)) as p.
  generalize (Str.toLowerCase (or_empty name)) as n.
  intros n p.
  replace (Str.includes "" "grill") with false by reflexivity.
  replace (Str.includes "" "cafe") with false by reflexivity.
  replace (Str.includes "" "uber") with false by reflexivity.
  replace (Str.includes "" "lyft") with false by reflexivity.
  repeat match goal with
         | |- context [Str.includes ?h ?k] =>
             destruct (Str.includes h k); cbn [orb];
             try (repeat split; (discriminate || tauto))
         end.
Qed.

Lemma name_moves_to_food_or_transport_only_witness :
  mapPlaidCategoryToCore (Some "Rent") (Some "Uber Cafe") = Housing.
Proof.
  apply (proj1 (proj2 (name_moves_to_food_or_transport_only
                         (Some "Rent") (Some "Uber Cafe")))).
  reflexivity.
Defined.

(* ================================================================= *)
(** ** The forecast of whole amounts *)

(** X23. For a goal whose three amounts are whole numbers that doubles hold
    exactly, with current below target, a positive contribution and at
    most 90000 contributions to go, with the clock between 1970 and 2100
    and a time zone whose offsets are at most a day, the forecaster
    returns: the month count is the least whole number of contributions
    that reaches the target, and the completion date is present and
    date-only (YYYY-MM-DD). *)
Theorem computeGoalForecast_in_range
  (env : Env) (ps : list (string * value)) (t c m : Z) :
  amounts_convert ps = true ->
  number_or_zero (read_prop ps "targetAmount") = of_Z t ->
  number_or_zero (read_prop ps "currentAmount") = of_Z c ->
  number_or_zero (read_prop ps "monthlyContribution") = of_Z m ->
  (- 2 ^ 52 <= c)%Z -> (c < t)%Z -> (t <= 2 ^ 52)%Z ->
  (0 < m)%Z -> (m <= 2 ^ 53)%Z ->
  (t - c <= 90000 * m)%Z ->
  (0 <= now env <= 4102444800000)%Z ->
  (forall (u : Z) (isUTC : bool),
      (- 86400000 <= tza env u isUTC <= 86400000)%Z) ->
  exists (n : Z) (iso : string),
    computeGoalForecast env (VObj ps) = Ok (mkForecast (of_Z n) (Some iso)) /\
    (1 <= n <= 90000)%Z /\
    (c + (n - 1) * m < t)%Z /\
    (t <= c + n * m)%Z /\
    JSDate.is_date_only iso = true.
Proof.
  intros Hconv Ht Hc Hm _ Hlt _ Hpos _ Hmax Hnow Hzone.
  destruct (computeGoalForecast_whole env ps t c m Hconv Ht Hc Hm Hlt Hpos)
    as (n & Hge & Hn & ->).
  assert (n <= 90000)%Z as Hle by nia.
  destruct (DateFacts.setMonth_in_range (tza env) (now env) n Hnow Hzone
              ltac:(lia))
    as (tv & -> & Hrange).
  destruct (DateFacts.isoDate_date_only tv Hrange) as (iso & -> & Hiso).
  exists n, iso. split; [reflexivity|].
  split; [lia|]. split; [lia|]. split; [lia | exact Hiso].
Qed.

Lemma eastern_2026_offsets (u : Z) (isUTC : bool) :
  (- 86400000 <= eastern_2026 u isUTC <= 86400000)%Z.
Proof. unfold eastern_2026. destruct isUTC; destruct (_ || _); lia. Qed.

Lemma computeGoalForecast_in_range_witness :
  exists (n : Z) (iso : string),
    computeGoalForecast env_eastern goal_1200
      = Ok (mkForecast (of_Z n) (Some iso)) /\
    (1 <= n <= 90000)%Z /\
    (0 + (n - 1) * 100 < 1200)%Z /\
    (1200 <= 0 + n * 100)%Z /\
    JSDate.is_date_only iso = true.
Proof.
  apply (computeGoalForecast_in_range env_eastern
           [("targetAmount", VNum (of_Z 1200)); ("currentAmount", VNum (of_Z 0));
            ("monthlyContribution", VNum (of_Z 100))]
           1200 0 100);
    try reflexivity; try (cbn; lia).
  exact eastern_2026_offsets.
Defined.
